(** * TIFFImageryProvider: a shallow embedding and its verified properties

    The development embeds [src/packages/TIFFImageryProvider/src/TIFFImageryProvider.ts]:
    the pyramid level selector [getCogLevels], the sample selector
    [getReadSamples], the band statistics resolver [getBandValues], the
    provider [constructor], the tile pipeline [_loadTile] / [requestImage],
    the feature probe [pickFeatures], [destroy], the creation functions
    [fromGeoTIFF], [fromUrl] and [fromBlob], and the shared decoder pool
    [getWorkerPool].

    Conventions of the embedding.
    - Integer valued JavaScript numbers (tile coordinates, zoom levels, image
      indices and sizes, band numbers, millisecond timestamps) are [Z].  All
      of them stay far below 2^53, where JavaScript arithmetic on them is
      exact.
    - The rectangle of a provider is computed over the real numbers ([R]):
      the constructor's arithmetic on it is idealised.  The feature probe
      computes in IEEE 754 doubles, as the code does; [doubleOf] gives the
      double in which the code holds a coordinate of the rectangle.
    - Band values, decoded rasters and rendered images are only stored and
      handed to collaborators, so their types are parameters.
    - What the provider reads off an image (its size, its tile size, its
      bounding box, its keys) are values: the getters of an image and the
      constructors of cesium's objects are taken not to throw.
    - A rejected promise and a thrown exception are both [Throw e].
    - Collaborators (the GeoTIFF decoder, the worker farm, plotty, proj4, the
      clock) are oracles passed to each operation; every call made to them and
      every event raised is recorded in a trace of [Effect]s.
    - Each asynchronous operation is run to completion before the next one
      starts (sequential requests); the only interleaving that is modelled is
      a [destroy] arriving while a tile is being decoded, which the source
      checks for explicitly. *)

From Stdlib Require Import ZArith List String Reals Lra Lia.
From Stdlib Require Import Floats.SpecFloat.
From stdpp Require Import base option list gmap strings pretty.

Open Scope Z_scope.

(** * The embedding *)

(** ** JavaScript errors and fallible results *)

Inductive JsError : Type :=
  | DeveloperError (message : string)   (* cesium's DeveloperError *)
  | TypeError (message : string)
  | RangeError (message : string)
  | Error (message : string).           (* a plain [new Error(message)] *)

Definition message (e : JsError) : string :=
  match e with
  | DeveloperError m | TypeError m | RangeError m | Error m => m
  end.

Inductive Res (A : Type) : Type :=
  | Ok (a : A)
  | Throw (e : JsError).
Arguments Ok {A} a.
Arguments Throw {A} e.

#[global] Instance Res_ret : MRet Res := λ A a, Ok a.
#[global] Instance Res_bind : MBind Res := λ A B f m,
  match m with
  | Ok a => f a
  | Throw e => Throw e
  end.

#[global] Instance Res_fmap : FMap Res := λ A B f m,
  match m with Ok a => Ok (f a) | Throw e => Throw e end.

(** [l[z]] for a JavaScript array [l] and an integer [z]: [undefined]
    (here [None]) outside the array. *)
Definition lookupZ {A} (l : list A) (z : Z) : option A :=
  if z <? 0 then None else l !! Z.to_nat z.

(** JavaScript truthiness of a string and of a number. *)
Definition truthyString (s : string) : bool :=
  match s with EmptyString => false | _ => true end.
Definition truthyOptString (s : option string) : bool :=
  match s with Some s => truthyString s | None => false end.
Definition truthyZ (n : Z) : bool := negb (n =? 0).

(** [a || b] on optional integers. *)
Definition orElseZ (a : option Z) (b : Z) : Z :=
  match a with
  | Some n => if truthyZ n then n else b
  | None => b
  end.

(** ** Geometry (cesium's [Rectangle] and [Math]) *)

Definition TWO_PI : R := (2 * PI)%R.
Definition toRadians (degrees : R) : R := (degrees * (PI / 180))%R.

Record Rectangle : Type := {
  west : R;
  south : R;
  east : R;
  north : R;
}.

Definition fromDegrees (w s e n : R) : Rectangle :=
  {| west := toRadians w; south := toRadians s;
     east := toRadians e; north := toRadians n |}.

(** The constructor's antimeridian step:
    [if (rectangle.east < rectangle.west) rectangle.east += TWO_PI]. *)
Definition normalizeEast (r : Rectangle) : Rectangle :=
  if Rlt_dec (east r) (west r)
  then {| west := west r; south := south r;
          east := (east r + TWO_PI)%R; north := north r |}
  else r.

(** Wrap-around of an integer to a signed 32 bit integer. *)
Definition toInt32 (n : Z) : Z := (n + 2 ^ 31) mod 2 ^ 32 - 2 ^ 31.

(** [a << b] on 32 bit integers. *)
Definition shiftLeft32 (a b : Z) : Z := toInt32 (a * 2 ^ (b mod 32)).

(** [Math.round(n / d)] for integers [n], [d ≠ 0]: halves round up. *)
Definition roundDiv (n d : Z) : Z := (2 * n + d) / (2 * d).

(** The [GeographicTilingScheme] built by the constructor has one level-zero
    tile in each direction. *)
Definition getNumberOfXTilesAtLevel (level : Z) : Z := shiftLeft32 1 level.
Definition getNumberOfYTilesAtLevel (level : Z) : Z := shiftLeft32 1 level.

(** ** IEEE 754 doubles

    A JavaScript number is a binary64 floating point number: a [spec_float]
    of the Standard Library in its canonical form, with 53 bits of
    precision.  The operations are those of [SpecFloat]; they round to
    nearest, ties to even, and give infinities and NaN as IEEE 754 has
    them.  (The theorems below hold for every [spec_float], canonical or
    not.) *)

Definition double : Type := spec_float.

Module Double.

Definition prec : Z := 53.
Definition emax : Z := 1024.

Definition add : double → double → double := SFadd prec emax.
Definition sub : double → double → double := SFsub prec emax.
Definition mul : double → double → double := SFmul prec emax.
Definition div : double → double → double := SFdiv prec emax.
(** [Math.abs] and [<]. *)
Definition abs : double → double := SFabs.
Definition ltb : double → double → bool := SFltb.

(** The double nearest to an integer. *)
Definition ofZ (n : Z) : double := binary_normalize prec emax n 0 false.

(** The integer part of a finite double (truncation toward zero); 0 for a
    zero, an infinity and NaN. *)
Definition truncate (d : double) : Z :=
  match d with
  | S754_finite s m e =>
      let n := if 0 <=? e then Z.pos m * 2 ^ e else Z.pos m / 2 ^ (- e) in
      if s then - n else n
  | _ => 0
  end.

(** [~~d]: truncation, then wrap-around to a signed 32 bit integer. *)
Definition tildeTilde (d : double) : Z := toInt32 (truncate d).

(** [Math.PI] and cesium's [Math.TWO_PI = 2.0 * Math.PI]. *)
Definition PI : double := S754_finite false 7074237752028440 (-51).
Definition TWO_PI : double := mul (ofZ 2) PI.

End Double.

Section Provider.

(** JavaScript numbers that are only stored and passed on (band values,
    nodata), and rendered tiles ([ImageryTypes]). *)
Context {Num ImageryTypes : Type}.

(** Numeric literals, unary plus on a string, [isNaN]. *)
Variable numOfZ : Z → Num.
Variable toNumber : string → Num.
Variable isNaN : Num → bool.

(** ** The decoder's image handles *)

Record GeoKeys : Type := {
  ProjectedCSTypeGeoKey : option Z;
  GeographicTypeGeoKey : option Z;
}.

(** What the provider reads off a [GeoTIFFImage]. *)
Record GeoTIFFImage : Type := {
  getWidth : Z;
  getHeight : Z;
  getTileWidth : Z;
  getTileHeight : Z;
  getSamplesPerPixel : Z;
  getGDALNoData : option Num;
  getGDALMetadata : Z → option (gmap string string);
  getBoundingBox : R * R * R * R;
  geoKeys : GeoKeys;
}.

(** [source.getImage(index)]; [index] is [None] when the caller passes
    [undefined]. *)
Definition GeoTIFF : Type := option Z → Res GeoTIFFImage.

(** Decoded pixels: one array per band ([TypedArray[]]). *)
Definition Raster : Type := list (list Num).

(** The options object of [readRasters] / [readRGB]. *)
Record ReadOptions : Type := {
  read_window : option (Z * Z * Z * Z);
  read_width : option Z;
  read_height : option Z;
  read_samples : option (list Z);
  read_resampleMethod : option string;
  read_interleave : option bool;
}.

(** ** Render options *)

Record SingleBandRenderOptions : Type := {
  band : option Z;
  colorScale : option string;
  colors : option (list (option R * string));
  domain : option (Num * Num);
  expression : option string;
}.

Inductive Channel : Type := key_r | key_g | key_b.

#[global] Instance Channel_eq_dec : EqDecision Channel.
Proof. solve_decision. Defined.

Record ChannelOptions : Type := {
  channel_band : Z;
  channel_min : option Num;
  channel_max : option Num;
}.

(** A [multi] object: its keys in insertion order. *)
Definition MultiBandRenderOptions : Type := list (Channel * ChannelOptions).

Definition multiGet (multi : MultiBandRenderOptions) (key : Channel)
    : option ChannelOptions :=
  snd <$> List.find (λ kv, bool_decide (fst kv = key)) multi.

Inductive RenderKey : Type :=
  key_nodata | key_convertToRGB | key_multi | key_single.

#[global] Instance RenderKey_eq_dec : EqDecision RenderKey.
Proof. solve_decision. Defined.

(** The render options object.  Reading a key gives [undefined] (here
    [None]) both when the object lacks the key and when it has the key with
    the value [undefined] or [null]; an object spread tells the two apart,
    as it copies every own key.  [undefinedKeys] lists the keys of the
    second kind. *)
Record TIFFImageryProviderRenderOptions : Type := {
  nodata : option Num;
  convertToRGB : option bool;
  multi : option MultiBandRenderOptions;
  single : option SingleBandRenderOptions;
  undefinedKeys : list RenderKey;
}.

(** [{}] *)
Definition emptyRenderOptions : TIFFImageryProviderRenderOptions :=
  {| nodata := None; convertToRGB := None; multi := None; single := None;
     undefinedKeys := [] |}.

(** The object has [convertToRGB], or [single], among its own keys. *)
Definition ownsConvertToRGB (ro : TIFFImageryProviderRenderOptions) : bool :=
  bool_decide (is_Some (convertToRGB ro))
  || bool_decide (key_convertToRGB ∈ undefinedKeys ro).
Definition ownsSingle (ro : TIFFImageryProviderRenderOptions) : bool :=
  bool_decide (is_Some (single ro))
  || bool_decide (key_single ∈ undefinedKeys ro).

(** Truthiness of the optional [convertToRGB] flag. *)
Definition truthyFlag (f : option bool) : bool := default false f.

Record BandRange : Type := {
  band_min : Num;
  band_max : Num;
}.

(** ** Effects *)

(** The options handed to the worker farm. *)
Record CompositeOptions : Type := {
  composite_width : Z;
  composite_height : Z;
  composite_renderOptions : MultiBandRenderOptions;
  composite_bands : gmap Z BandRange;
  composite_noData : option Num;
  composite_resampleMethod : option string;
}.

(** The options handed to [new plot(...)]: [{canvas, ...single, domain}]. *)
Record PlotOptions : Type := {
  plot_single : SingleBandRenderOptions;
  plot_domain : Num * Num;
}.

(** The calls that follow [new plot] in the constructor. *)
Record PlotSetup : Type := {
  setup_noData : option Num;
  setup_expression : option string;
  setup_colorScale : string + list (option R * string);
}.

(** One rendering of the single band path: the datasets registered with
    [addDataset], and the dataset rendered ([None] for [plot.render()]). *)
Record PlotRender : Type := {
  render_datasets : list (string * option (list Num));
  render_width : Z;
  render_height : Z;
  render_target : option string;
}.

Inductive Effect : Type :=
  | CallGetImage (index : option Z)
  | CallReadRGB (image : GeoTIFFImage) (options : ReadOptions)
  | CallReadRasters (image : GeoTIFFImage) (options : ReadOptions)
  | CallScheduleTask (data : Raster) (opts : CompositeOptions)
  | CallNewPlot (opts : PlotOptions)
  | CallPlotSetup (setup : PlotSetup)
  | CallPlotRender (render : PlotRender)
  | RaiseEvent (e : JsError)          (* this._error.raiseEvent(e) *)
  | ConsoleError (e : JsError)
  | ConsoleWarn (text : string)
  | SetReady (value : bool)           (* this.ready = value *)
  | CallDestroy (collaborator : string).

(** A windowed raster read issued to the decoder. *)
Definition isDecode (ef : Effect) : bool :=
  match ef with
  | CallReadRGB _ _ | CallReadRasters _ _ => true
  | _ => false
  end.

Definition decodeCalls (t : list Effect) : nat := length (List.filter isDecode t).
Definition raisedEvents (t : list Effect) : list JsError :=
  omap (λ ef, match ef with RaiseEvent e => Some e | _ => None end) t.

(** An effect that neither raises an error event, nor sets [ready], nor
    reads pixels. *)
Definition isQuiet (ef : Effect) : bool :=
  match ef with
  | RaiseEvent _ | SetReady _ | CallReadRGB _ _ | CallReadRasters _ _ => false
  | _ => true
  end.

(** The collaborators. *)
Record World : Type := {
  getImage : GeoTIFF;
  getImageCount : Res Z;
  readRGB : GeoTIFFImage → ReadOptions → Res Raster;
  readRasters : GeoTIFFImage → ReadOptions → Res Raster;
  (* geokeysToProj4.toProj4 followed by proj4(...).forward *)
  toProj4 : GeoKeys → Res (R * R → Res (R * R));
  newPlot : PlotOptions → Res unit;
  plotSetup : PlotSetup → Res unit;
  plotRender : PlotRender → Res ImageryTypes;
  (* this._workerFarm?.worker *)
  workerFarm_worker : bool;
  scheduleTask : Raster → CompositeOptions → Res (option ImageryTypes);
  (* new Date().getTime() *)
  now : Z;
  (* destroy() is called while _loadTile is awaited *)
  destroyedWhileLoading : bool;
}.

(** ** The monad of the embedding

    A computation reads and writes a state [S] (the fields of [this], or a
    local object that the code mutates), may throw, and records its effects. *)

Definition M (S A : Type) : Type := S → Res A * S * list Effect.

#[global] Instance M_ret {S} : MRet (M S) := λ A a s, (Ok a, s, []).
#[global] Instance M_bind {S} : MBind (M S) := λ A B f m s,
  match m s with
  | (Ok a, s', t) => let '(res, s'', t') := f a s' in (res, s'', t ++ t')
  | (Throw e, s', t) => (Throw e, s', t)
  end.

Definition throw {S A} (e : JsError) : M S A := λ s, (Throw e, s, []).
Definition emit {S} (ef : Effect) : M S unit := λ s, (Ok tt, s, [ef]).
(** A call to a collaborator, with the outcome the collaborator gives. *)
Definition call {S A} (ef : Effect) (outcome : Res A) : M S A :=
  λ s, (outcome, s, [ef]).
Definition liftRes {S A} (outcome : Res A) : M S A := λ s, (outcome, s, []).
Definition get {S} : M S S := λ s, (Ok s, s, []).
Definition modify {S} (f : S → S) : M S unit := λ s, (Ok tt, f s, []).
Definition when {S} (c : bool) (m : M S unit) : M S unit :=
  if c then m else mret tt.

(** [try { m } catch (e) { handler e }] *)
Definition tryCatch {S A} (m : M S A) (handler : JsError → M S A) : M S A :=
  λ s,
  match m s with
  | (Throw e, s', t) => let '(res, s'', t') := handler e s' in (res, s'', t ++ t')
  | done => done
  end.

(** Run a computation on a local object, returning its final value. *)
Definition withLocal {S S' A} (init : S) (m : M S A) : M S' (A * S) :=
  λ s', let '(res, s, t) := m init in ((λ a, (a, s)) <$> res, s', t).

(** ** The decoder's pyramid: [getCogLevels] *)

(** [Math.ceil(a / b)] on integers, [b ≠ 0]. *)
Definition ceilDiv (a b : Z) : Z := - ((- a) / b).

(** [new Array(n).fill(v)]: a [RangeError] unless [0 ≤ n < 2^32]. *)
Definition newArrayFill {A} (n : Z) (v : A) : Res (list A) :=
  if (n <? 0) || (2 ^ 32 <=? n)
  then Throw (RangeError "Invalid array length")
  else Ok (replicate (Z.to_nat n) v).

(** The [for (let i = imageCount - 1; i >= 0; i--)] loop.  [n] is [i + 1];
    the result is the pair of [levels] and [maximumLevel] at loop exit. *)
Fixpoint scanImages (source : GeoTIFF) (imageCount tileSize : Z)
    (n : nat) (levels : list Z) : Res (list Z * Z) :=
  match n with
  | O => Ok (levels, imageCount - 1)
  | S n' =>
      let i := Z.of_nat n' in
      image ← source (Some i);
      let width := getWidth image in
      let height := getHeight image in
      let size := Z.max width height in
      levels' ←
        (if i =? imageCount - 1 then
           if tileSize =? 0 then Throw (RangeError "Invalid array length")
           else
             let firstImageLevel := ceilDiv (size - tileSize) tileSize in
             pad ← newArrayFill firstImageLevel i;
             Ok (levels ++ pad)
         else Ok levels);
      (* size > tileSize * 0.5 *)
      if tileSize <? 2 * size then Ok (levels', i)
      else scanImages source imageCount tileSize n' levels'
  end.

(** [while (nowCogLevel >= 0) levels.push(nowCogLevel--)], with [n] the
    number of iterations [nowCogLevel + 1]. *)
Fixpoint countDown (n : nat) : list Z :=
  match n with
  | O => []
  | S n' => Z.of_nat n' :: countDown n'
  end.

Definition getCogLevels (source : GeoTIFF) (imageCount tileSize : Z)
    : Res (list Z) :=
  '(levels, maximumLevel) ←
    scanImages source imageCount tileSize (Z.to_nat imageCount) [];
  Ok (levels ++ countDown (Z.to_nat (maximumLevel + 1))).

(** ** [getReadSamples] *)

(** [findAndSortBandNumbers] and [getMinMax] live in [./utils], which is not
    part of the embedded file; they are parameters. *)
Variable findAndSortBandNumbers : string → list Z.
Variable getMinMax : list Num → option Num → BandRange.

(** [multi.r.band]: a [TypeError] when the channel is missing. *)
Definition channelBand (multi : MultiBandRenderOptions) (key : Channel) : Res Z :=
  match multiGet multi key with
  | Some c => Ok (channel_band c)
  | None => Throw (TypeError "Cannot read properties of undefined (reading 'band')")
  end.

Definition getReadSamples (renderOptions : TIFFImageryProviderRenderOptions)
    : Res (list Z) :=
  readSamples ←
    match multi renderOptions with
    | Some multi =>
        rb ← channelBand multi key_r;
        gb ← channelBand multi key_g;
        bb ← channelBand multi key_b;
        Ok [rb - 1; gb - 1; bb - 1]
    | None =>
        Ok (if truthyFlag (convertToRGB renderOptions) then [0; 1; 2] else [0])
    end;
  match single renderOptions with
  | Some single =>
      match expression single with
      | Some e => if truthyString e then Ok (findAndSortBandNumbers e)
                  else Ok readSamples
      | None => Ok readSamples
      end
  | None => Ok readSamples
  end.

(** ** Band statistics resolver: [getBandValues] *)

(** [single?.expression] is truthy. *)
Definition hasExpression (single : option SingleBandRenderOptions) : bool :=
  match single with
  | Some s => truthyOptString (expression s)
  | None => false
  end.

(** [multi[Object.keys(multi).find((key) => multi[key]?.band === bandNum)]] *)
Definition inputBand (multi : MultiBandRenderOptions) (bandNum : Z)
    : option ChannelOptions :=
  key ← List.find
    (λ key, match multiGet multi key with
            | Some c => channel_band c =? bandNum
            | None => false
            end)
    (fst <$> multi);
  multiGet multi key.

(** The range that the metadata of sample [i] embeds, if it embeds one. *)
Definition statsOf (image : GeoTIFFImage) (i : Z) : option BandRange :=
  match getGDALMetadata image i ≫= (.!! "STATISTICS_MINIMUM"),
        getGDALMetadata image i ≫= (.!! "STATISTICS_MAXIMUM") with
  | Some smin, Some smax =>
      if truthyString smin && truthyString smax
      then Some {| band_min := toNumber smin; band_max := toNumber smax |}
      else None
  | _, _ => None
  end.

(** The part of one [readSamples.map] callback that runs before its first
    [await].  The state is the [bands] object; the result tells whether the
    callback goes on to the sampling fallback. *)
Definition bandValuesSync (renderOptions : TIFFImageryProviderRenderOptions)
    (image : GeoTIFFImage) (i : Z) : M (gmap Z BandRange) bool :=
  let element := getGDALMetadata image i in
  let bandNum := i + 1 in
  let STATISTICS_MINIMUM := element ≫= (.!! "STATISTICS_MINIMUM") in
  let STATISTICS_MAXIMUM := element ≫= (.!! "STATISTICS_MAXIMUM") in
  match STATISTICS_MINIMUM, STATISTICS_MAXIMUM with
  | Some smin, Some smax =>
      if truthyString smin && truthyString smax then
        modify (<[bandNum := {| band_min := toNumber smin;
                                band_max := toNumber smax |}]>);;
        mret false
      else mret true
  | _, _ => mret true
  end ≫= λ noStatistics : bool,
  if negb noStatistics then mret false else
  when (truthyFlag (convertToRGB renderOptions))
    (modify (<[bandNum := {| band_min := numOfZ 0; band_max := numOfZ 255 |}]>));;
  match multi renderOptions with
  | Some multi =>
      match inputBand multi bandNum with
      | Some {| channel_min := Some min; channel_max := Some max |} =>
          modify (<[bandNum := {| band_min := min; band_max := max |}]>)
      | _ => mret tt
      end
  | None => mret tt
  end;;
  match single renderOptions with
  | Some s =>
      match domain s with
      | Some (d0, d1) =>
          when (negb (truthyOptString (expression s))
                && bool_decide (band s = Some bandNum))
            (modify (<[bandNum := {| band_min := d0; band_max := d1 |}]>))
      | None => mret tt
      end
  | None => mret tt
  end;;
  bands ← get;
  if negb (hasExpression (single renderOptions))
     && negb (bool_decide (is_Some (bands !! bandNum)))
  then
    emit (ConsoleWarn ("Can not get band" +:+ pretty bandNum +:+ " min/max"));;
    mret true
  else mret false.

Definition sampleReadOptions (i : Z) : ReadOptions :=
  {| read_window := None; read_width := None; read_height := None;
     read_samples := Some [i]; read_resampleMethod := None;
     read_interleave := None |}.

(** The rest of the callback: read the whole band from the image
    [cogLevels[0]] and take its minimum and maximum. *)
Definition bandValuesFallback (w : World)
    (renderOptions : TIFFImageryProviderRenderOptions)
    (image : GeoTIFFImage) (cogLevels : list Z) (i : Z)
    : M (gmap Z BandRange) unit :=
  let bandNum := i + 1 in
  previewImage ← call (CallGetImage (lookupZ cogLevels 0))
                      (getImage w (lookupZ cogLevels 0));
  (* the read that is only logged *)
  _ ← call (CallReadRasters previewImage (sampleReadOptions i))
           (readRasters w previewImage (sampleReadOptions i));
  raster ← call (CallReadRasters previewImage (sampleReadOptions i))
                (readRasters w previewImage (sampleReadOptions i));
  match raster with
  | first :: _ =>
      let data := List.filter (λ item, negb (isNaN item)) first in
      let noData := match nodata renderOptions with
                    | Some n => Some n
                    | None => getGDALNoData image
                    end in
      modify (<[bandNum := getMinMax data noData]>)
  | [] => throw (TypeError "Cannot read properties of undefined (reading 'filter')")
  end.

(** [readSamples.map(async ...)]: the callbacks start in order and each runs
    up to its first [await]. *)
Fixpoint startCallbacks (renderOptions : TIFFImageryProviderRenderOptions)
    (image : GeoTIFFImage) (readSamples : list Z)
    : M (gmap Z BandRange) (list Z) :=
  match readSamples with
  | [] => mret []
  | i :: rest =>
      pending ← bandValuesSync renderOptions image i;
      others ← startCallbacks renderOptions image rest;
      mret (if pending : bool then i :: others else others)
  end.

(** The suspended callbacks run to their end; a failing one does not stop
    the others.  They are resumed here in the order of [readSamples]; the
    first failure, if any, is what [Promise.all] rejects with. *)
Fixpoint resumeCallbacks (w : World)
    (renderOptions : TIFFImageryProviderRenderOptions)
    (image : GeoTIFFImage) (cogLevels : list Z) (pending : list Z)
    : M (gmap Z BandRange) (option JsError) :=
  match pending with
  | [] => mret None
  | i :: rest =>
      failure ← tryCatch
        (bandValuesFallback w renderOptions image cogLevels i;; mret None)
        (λ e, mret (Some e));
      others ← resumeCallbacks w renderOptions image cogLevels rest;
      mret (match failure with Some e => Some e | None => others end)
  end.

Definition getBandValues (w : World)
    (renderOptions : TIFFImageryProviderRenderOptions)
    (readSamples : list Z) (image : GeoTIFFImage) (cogLevels : list Z)
    : M (gmap Z BandRange) (gmap Z BandRange) :=
  pending ← startCallbacks renderOptions image readSamples;
  failure ← resumeCallbacks w renderOptions image cogLevels pending;
  match failure with
  | Some e => throw e
  | None => get
  end.

(** ** The provider *)

(** A projection function: [[lon, lat]] positions to positions. *)
Definition Transform : Type := R * R → Res (R * R).

(** The constructor's options.  [source] is the [getImage] of the [World];
    [pool] is an opaque handle that is only passed on and is left out. *)
Record TIFFImageryProviderOptions : Type := {
  opt_image : GeoTIFFImage;
  opt_imageCount : Z;
  opt_cogLevels : list Z;
  opt_readSamples : list Z;
  opt_bands : gmap Z BandRange;
  opt_credit : option string;
  opt_tileSize : option Z;
  opt_maximumLevel : option Z;
  opt_minimumLevel : option Z;
  opt_enablePickFeatures : option bool;
  opt_hasAlphaChannel : option bool;
  opt_renderOptions : option TIFFImageryProviderRenderOptions;
  opt_projFunc : option (option Z → Res (option Transform));
  opt_cache : option Z;
  opt_resampleMethod : option string;
}.

Record CacheEntry : Type := {
  time : Z;
  data : ImageryTypes;
}.

(** The fields of a provider.  [_images] is the array of image handles,
    indexed by whatever [cogLevels[z]] evaluates to ([None] is the property
    ["undefined"]); a [null] slot and a missing one are both absent from the
    map.  [_images] and [_imagesCache] are [None] once [destroy] has set
    them to [undefined]. *)
Record TIFFImageryProvider : Type := {
  ready : bool;
  hasAlphaChannel : bool;
  maximumLevel : Z;
  minimumLevel : Z;
  credit : string;
  _cacheTime : Z;
  _imageCount : Z;
  tileSize : Z;
  tileWidth : Z;
  tileHeight : Z;
  cogLevels : list Z;
  renderOptions : TIFFImageryProviderRenderOptions;
  noData : option Num;
  readSamples : list Z;
  bands : gmap Z BandRange;
  rectangle : Rectangle;
  _images : option (gmap (option Z) GeoTIFFImage);
  _imagesCache : option (gmap string CacheEntry);
  plot : option PlotOptions;
  _destroyed : bool;
  options : TIFFImageryProviderOptions;
}.

Definition withImages (this : TIFFImageryProvider)
    (v : option (gmap (option Z) GeoTIFFImage)) : TIFFImageryProvider :=
  {| ready := ready this; hasAlphaChannel := hasAlphaChannel this;
     maximumLevel := maximumLevel this; minimumLevel := minimumLevel this;
     credit := credit this; _cacheTime := _cacheTime this;
     _imageCount := _imageCount this; tileSize := tileSize this;
     tileWidth := tileWidth this; tileHeight := tileHeight this;
     cogLevels := cogLevels this; renderOptions := renderOptions this;
     noData := noData this; readSamples := readSamples this;
     bands := bands this; rectangle := rectangle this;
     _images := v; _imagesCache := _imagesCache this; plot := plot this;
     _destroyed := _destroyed this; options := options this |}.

Definition withImagesCache (this : TIFFImageryProvider)
    (v : option (gmap string CacheEntry)) : TIFFImageryProvider :=
  {| ready := ready this; hasAlphaChannel := hasAlphaChannel this;
     maximumLevel := maximumLevel this; minimumLevel := minimumLevel this;
     credit := credit this; _cacheTime := _cacheTime this;
     _imageCount := _imageCount this; tileSize := tileSize this;
     tileWidth := tileWidth this; tileHeight := tileHeight this;
     cogLevels := cogLevels this; renderOptions := renderOptions this;
     noData := noData this; readSamples := readSamples this;
     bands := bands this; rectangle := rectangle this;
     _images := _images this; _imagesCache := v; plot := plot this;
     _destroyed := _destroyed this; options := options this |}.

Definition withDestroyed (this : TIFFImageryProvider) (v : bool)
    : TIFFImageryProvider :=
  {| ready := ready this; hasAlphaChannel := hasAlphaChannel this;
     maximumLevel := maximumLevel this; minimumLevel := minimumLevel this;
     credit := credit this; _cacheTime := _cacheTime this;
     _imageCount := _imageCount this; tileSize := tileSize this;
     tileWidth := tileWidth this; tileHeight := tileHeight this;
     cogLevels := cogLevels this; renderOptions := renderOptions this;
     noData := noData this; readSamples := readSamples this;
     bands := bands this; rectangle := rectangle this;
     _images := _images this; _imagesCache := _imagesCache this;
     plot := plot this; _destroyed := v; options := options this |}.

(** *** The constructor *)

(** The render options after the default mode has been filled in
    ([{convertToRGB: true, ...renderOptions}] and
    [{single: {band: 1}, ...renderOptions}]: an own key of the caller's
    object wins over the default, whatever its value) and [single.band] has
    been defaulted to 1. *)
Definition defaultRenderOptions (samples : Z)
    (ro : TIFFImageryProviderRenderOptions) : TIFFImageryProviderRenderOptions :=
  let ro1 :=
    if negb (bool_decide (is_Some (single ro)))
       && negb (bool_decide (is_Some (multi ro)))
       && negb (truthyFlag (convertToRGB ro))
    then
      if 1 <? samples then
        {| nodata := nodata ro;
           convertToRGB := if ownsConvertToRGB ro then convertToRGB ro
                           else Some true;
           multi := multi ro; single := single ro;
           undefinedKeys := undefinedKeys ro |}
      else
        {| nodata := nodata ro; convertToRGB := convertToRGB ro;
           multi := multi ro;
           single := if ownsSingle ro then single ro
                     else Some {| band := Some 1; colorScale := None;
                                  colors := None; domain := None;
                                  expression := None |};
           undefinedKeys := undefinedKeys ro |}
    else ro in
  {| nodata := nodata ro1; convertToRGB := convertToRGB ro1; multi := multi ro1;
     single := (λ s, {| band := Some (default 1 (band s));
                        colorScale := colorScale s; colors := colors s;
                        domain := domain s; expression := expression s |})
               <$> single ro1;
     undefinedKeys := undefinedKeys ro1 |}.

(** [+(image.geoKeys.ProjectedCSTypeGeoKey ?? image.geoKeys.GeographicTypeGeoKey)];
    [None] is [NaN]. *)
Definition prjCodeOf (keys : GeoKeys) : option Z :=
  match ProjectedCSTypeGeoKey keys with
  | Some c => Some c
  | None => GeographicTypeGeoKey keys
  end.

Definition prjCodeText (prjCode : option Z) : string :=
  match prjCode with Some c => pretty c | None => "NaN" end.

Definition projectCorners {S} (proj : Transform) (bbox : R * R * R * R)
    : M S Rectangle :=
  let '(w0, s0, e0, n0) := bbox in
  leftBottom ← liftRes (proj (w0, s0));
  rightTop ← liftRes (proj (e0, n0));
  mret (fromDegrees (fst leftBottom) (snd leftBottom) (fst rightTop) (snd rightTop)).

(** [projFunc?.(prjCode)]: the caller's function is called outside any
    [try]; it gives a projection, or something that is no function. *)
Definition callProjFunc (options : TIFFImageryProviderOptions)
    (prjCode : option Z) : Res (option Transform) :=
  match opt_projFunc options with
  | Some projFunc => projFunc prjCode
  | None => Ok None
  end.

(** The spatial extent before the antimeridian step. *)
Definition resolveRectangle (w : World) (options : TIFFImageryProviderOptions)
    : M unit Rectangle :=
  let image := opt_image options in
  let bbox := getBoundingBox image in
  let prjCode := prjCodeOf (geoKeys image) in
  proj ← liftRes (callProjFunc options prjCode);
  match proj with
  | Some proj => projectCorners proj bbox
  | None =>
      if bool_decide (prjCode = Some 4326) then
        let '(w0, s0, e0, n0) := bbox in mret (fromDegrees w0 s0 e0 n0)
      else
        tryCatch
          (project ← liftRes (toProj4 w (geoKeys image));
           projectCorners project bbox)
          (λ error,
             emit (ConsoleWarn ("Unspported projection type: EPSG:"
                                +:+ prjCodeText prjCode));;
             throw (DeveloperError
               ("Unspported projection type: EPSG:" +:+ prjCodeText prjCode
                +:+ ", please add projFunc parameter to handle projection")))
  end.

(** The body of the constructor's [try]: the state is [this.plot]. *)
Definition initPlot (w : World) (single : option SingleBandRenderOptions)
    (bands : gmap Z BandRange) (noData : option Num)
    : M (option PlotOptions) unit :=
  match single with
  | None => mret tt
  | Some single =>
      let bandNum := default 1 (band single) in
      let band := bands !! bandNum in
      if negb (truthyOptString (expression single))
         && negb (bool_decide (is_Some band))
      then throw (DeveloperError ("Invalid band" +:+ pretty bandNum))
      else
        domain ←
          match domain single, band with
          | Some d, _ => mret d
          | None, Some range => mret (band_min range, band_max range)
          | None, None =>
              throw (TypeError "Cannot read properties of undefined (reading 'min')")
          end;
        let opts := {| plot_single := single; plot_domain := domain |} in
        call (CallNewPlot opts) (newPlot w opts);;
        modify (λ _, Some opts);;
        let setup :=
          {| setup_noData := noData;
             setup_expression := expression single;
             setup_colorScale :=
               match colors single with
               | Some cs => inr cs
               | None => inl (default "blackwhite" (colorScale single))
               end |} in
        call (CallPlotSetup setup) (plotSetup w setup)
  end.

Definition constructor (w : World) (options : TIFFImageryProviderOptions)
    : M unit TIFFImageryProvider :=
  emit (SetReady false);;
  let hasAlphaChannel := default true (opt_hasAlphaChannel options) in
  let maximumLevel0 := default 18 (opt_maximumLevel options) in
  let minimumLevel := default 0 (opt_minimumLevel options) in
  let credit := default "" (opt_credit options) in
  let _cacheTime := default (60 * 1000) (opt_cache options) in
  let image := opt_image options in
  let _imageCount := opt_imageCount options in
  let tileWidth :=
    orElseZ (opt_tileSize options) (orElseZ (Some (getTileWidth image)) 512) in
  let tileHeight :=
    orElseZ (opt_tileSize options) (orElseZ (Some (getTileHeight image)) 512) in
  let cogLevels := opt_cogLevels options in
  let samples := getSamplesPerPixel image in
  let renderOptions0 := default emptyRenderOptions (opt_renderOptions options) in
  let noData := match nodata renderOptions0 with
                | Some n => Some n
                | None => getGDALNoData image
                end in
  if (samples <? 3) && truthyFlag (convertToRGB renderOptions0) then
    throw (DeveloperError
      "Can not render the image as RGB, please check the convertToRGB parameter")
  else
  let renderOptions := defaultRenderOptions samples renderOptions0 in
  let single := single renderOptions in
  let readSamples := opt_readSamples options in
  let bands := opt_bands options in
  rectangle0 ← resolveRectangle w options;
  let rectangle := normalizeEast rectangle0 in
  let maxCogLevel := Z.of_nat (length cogLevels) - 1 in
  let maximumLevel :=
    if maxCogLevel <? maximumLevel0 then maxCogLevel else maximumLevel0 in
  (* new Array(this._imageCount).fill(null) *)
  _ ← liftRes (newArrayFill _imageCount tt);
  '(_, plot) ← withLocal None
    (tryCatch (initPlot w single bands noData)
       (λ e, emit (ConsoleError e);; emit (RaiseEvent e)));
  emit (SetReady true);;
  mret {| ready := true; hasAlphaChannel := hasAlphaChannel;
          maximumLevel := maximumLevel; minimumLevel := minimumLevel;
          credit := credit; _cacheTime := _cacheTime;
          _imageCount := _imageCount; tileSize := tileWidth;
          tileWidth := tileWidth; tileHeight := tileHeight;
          cogLevels := cogLevels; renderOptions := renderOptions;
          noData := noData; readSamples := readSamples; bands := bands;
          rectangle := rectangle; _images := Some ∅; _imagesCache := Some ∅;
          plot := plot; _destroyed := false; options := options |}.

(** *** [destroy] *)

Definition destroy : M TIFFImageryProvider unit :=
  modify (λ this, withImages this None);;
  modify (λ this, withImagesCache this None);;
  emit (CallDestroy "_workerFarm");;
  emit (CallDestroy "_pool");;
  this ← get;
  when (bool_decide (is_Some (plot this))) (emit (CallDestroy "plot"));;
  modify (λ this, withDestroyed this true).

(** *** Tiles: [_loadTile] and [requestImage] *)

(** [let image = this._images[index];
     if (!image) image = this._images[index] = await this._source.getImage(index)],
    as both [_loadTile] and [pickFeatures] have it. *)
Definition fetchImage (w : World) (index : option Z)
    : M TIFFImageryProvider GeoTIFFImage :=
  this ← get;
  match _images this with
  | None => throw (TypeError "Cannot read properties of undefined")
  | Some images =>
      match images !! index with
      | Some image => mret image
      | None =>
          image ← call (CallGetImage index) (getImage w index);
          modify (λ this, withImages this (Some (<[index := image]> images)));;
          mret image
      end
  end.

Record TileData : Type := {
  tile_data : Raster;
  tile_width : Z;
  tile_height : Z;
}.

(** The pixel window of tile [(x, y)] at level [z] in an image of the given
    size: [Math.round(x * (width / tileXNum))] and so on.  [tileXNum] is a
    power of two, so the quotient is exact in doubles, and so is the product
    as long as it stays below 2^53 (see the conventions); the window is then
    the exact quotient, rounded. *)
Definition pixelBounds (imageWidth imageHeight x y z : Z) : Z * Z * Z * Z :=
  let tileXNum := getNumberOfXTilesAtLevel z in
  let tileYNum := getNumberOfYTilesAtLevel z in
  (roundDiv (x * imageWidth) tileXNum, roundDiv (y * imageHeight) tileYNum,
   roundDiv ((x + 1) * imageWidth) tileXNum,
   roundDiv ((y + 1) * imageHeight) tileYNum).

(** The options of a tile read. *)
Definition tileReadOptions (this : TIFFImageryProvider) (image : GeoTIFFImage)
    (x y z : Z) : ReadOptions :=
  {| read_window := Some (pixelBounds (getWidth image) (getHeight image) x y z);
     read_width := Some (tileWidth this);
     read_height := Some (tileHeight this);
     read_samples := Some (readSamples this);
     read_resampleMethod := opt_resampleMethod (options this);
     read_interleave := Some false |}.

(** [this.renderOptions.convertToRGB ? await image.readRGB(options)
                                      : await image.readRasters(options)],
    as both [_loadTile] and [pickFeatures] have it. *)
Definition readEffect (this : TIFFImageryProvider) (image : GeoTIFFImage)
    (options : ReadOptions) : Effect :=
  if truthyFlag (convertToRGB (renderOptions this))
  then CallReadRGB image options
  else CallReadRasters image options.

Definition readOutcome (w : World) (this : TIFFImageryProvider)
    (image : GeoTIFFImage) (options : ReadOptions) : Res Raster :=
  if truthyFlag (convertToRGB (renderOptions this))
  then readRGB w image options
  else readRasters w image options.

Definition readPixels (w : World) (this : TIFFImageryProvider)
    (image : GeoTIFFImage) (options : ReadOptions)
    : M TIFFImageryProvider Raster :=
  call (readEffect this image options) (readOutcome w this image options).

Definition _loadTile (w : World) (x y z : Z)
    : M TIFFImageryProvider TileData :=
  this ← get;
  let index := lookupZ (cogLevels this) z in
  image ← fetchImage w index;
  let options := tileReadOptions this image x y z in
  tryCatch
    ((* a destroy() that arrives while the read is awaited *)
     when (destroyedWhileLoading w) destroy;;
     res ← readPixels w this image options;
     mret {| tile_data := res; tile_width := tileWidth this;
             tile_height := tileHeight this |})
    (λ error, emit (RaiseEvent error);; throw error).

(** The cache key [`${x}_${y}_${z}`]. *)
Definition cacheKey (x y z : Z) : string :=
  pretty x +:+ "_" +:+ pretty y +:+ "_" +:+ pretty z.

(** The channels used when only [convertToRGB] is set. *)
Definition rgbChannels : MultiBandRenderOptions :=
  [(key_r, {| channel_band := 1; channel_min := Some (numOfZ 0);
              channel_max := Some (numOfZ 255) |});
   (key_g, {| channel_band := 2; channel_min := Some (numOfZ 0);
              channel_max := Some (numOfZ 255) |});
   (key_b, {| channel_band := 3; channel_min := Some (numOfZ 0);
              channel_max := Some (numOfZ 255) |})].

(** The sweep that follows a cache write:
    [if (now - cache[key].time > this._cacheTime) delete cache[key]]. *)
Definition sweep (now cacheTime : Z) (cache : gmap string CacheEntry)
    : gmap string CacheEntry :=
  filter (λ kv, ¬ (now - time (snd kv) > cacheTime)) cache.

(** The two rendering paths of [requestImage]. *)
Definition composite (w : World) (tile : TileData)
    : M TIFFImageryProvider (option ImageryTypes) :=
  this ← get;
  let ro := renderOptions this in
  if bool_decide (is_Some (multi ro)) || truthyFlag (convertToRGB ro) then
    let opts :=
      {| composite_width := tile_width tile;
         composite_height := tile_height tile;
         composite_renderOptions := default rgbChannels (multi ro);
         composite_bands := bands this;
         composite_noData := noData this;
         composite_resampleMethod := opt_resampleMethod (options this) |} in
    if negb (workerFarm_worker w)
    then throw (DeveloperError "web workers bootstrap error")
    else call (CallScheduleTask (tile_data tile) opts)
              (scheduleTask w (tile_data tile) opts)
  else
    match single ro, plot this with
    | Some single, Some _ =>
        let band := default 1 (band single) in
        let render :=
          {| render_datasets :=
               imap (λ index sample,
                       ("b" +:+ pretty (sample + 1), tile_data tile !! index))
                    (readSamples this);
             render_width := tile_width tile;
             render_height := tile_height tile;
             render_target :=
               if truthyOptString (expression single) then None
               else Some ("b" +:+ pretty band) |} in
        image ← call (CallPlotRender render) (plotRender w render);
        mret (Some image)
    | _, _ => mret None
    end.

(** The body of the [try] block of [requestImage]. *)
Definition renderTile (w : World) (x y z : Z)
    : M TIFFImageryProvider (option ImageryTypes) :=
  tile ← _loadTile w x y z;
  this ← get;
  if _destroyed this then mret None
  else
    result ← composite w tile;
    match result with
    | Some image =>
        when (truthyZ (_cacheTime this))
          (match _imagesCache this with
           | Some cache =>
               let now := now w in
               modify (λ this, withImagesCache this
                 (Some (sweep now (_cacheTime this)
                    (<[cacheKey x y z := {| time := now; data := image |}]>
                       cache))))
           | None => throw (TypeError "Cannot set properties of undefined")
           end)
    | None => mret tt
    end;;
    mret result.

Definition requestImage (w : World) (x y z : Z)
    : M TIFFImageryProvider (option ImageryTypes) :=
  this ← get;
  if negb (ready this) then
    throw (DeveloperError
      "requestImage must not be called before the imagery provider is ready.")
  else if (z <? minimumLevel this) || (maximumLevel this <? z) then mret None
  else
    hit ← (if truthyZ (_cacheTime this) then
             match _imagesCache this with
             | Some cache => mret (cache !! cacheKey x y z)
             | None => throw (TypeError "Cannot read properties of undefined")
             end
           else mret None);
    match hit with
    | Some entry => mret (Some (data entry))
    | None =>
        tryCatch (renderTile w x y z)
          (λ e, emit (ConsoleError e);; emit (RaiseEvent e);; throw e)
    end.

(** *** Feature probe: [pickFeatures] *)

(** The double in which the code holds a coordinate of the rectangle, which
    the embedding computes as a real number. *)
Variable doubleOf : R → double.

(** [rectangle.width], cesium's [Rectangle.computeWidth], on doubles. *)
Definition rectangleWidth (west east : double) : double :=
  let east := if Double.ltb east west then Double.add east Double.TWO_PI
              else east in
  Double.sub east west.

(** The pixel under a geographic point: lines 547 to 557, in doubles. *)
Definition pickPixel (rect : Rectangle) (image : GeoTIFFImage)
    (longitude latitude : double) : Z * Z :=
  let west := doubleOf (west rect) in
  let south := doubleOf (south rect) in
  let north := doubleOf (north rect) in
  let lonWidth := rectangleWidth west (doubleOf (east rect)) in
  let width := Double.ofZ (getWidth image) in
  let height := Double.ofZ (getHeight image) in
  let lonGap := Double.sub longitude west in
  let lonGap := if Double.ltb longitude west
                then Double.add lonGap Double.TWO_PI else lonGap in
  let posX :=
    Double.tildeTilde (Double.mul (Double.abs (Double.div lonGap lonWidth)) width) in
  let posY :=
    Double.tildeTilde
      (Double.mul
         (Double.abs (Double.div (Double.sub north latitude)
                                 (Double.sub north south)))
         height) in
  (posX, posY).

Definition pickOptions (pos : Z * Z) : ReadOptions :=
  let '(posX, posY) := pos in
  {| read_window := Some (posX, posY, posX + 1, posY + 1);
     read_width := Some 1; read_height := Some 1; read_samples := None;
     read_resampleMethod := None; read_interleave := Some false |}.

(** An [ImageryLayerFeatureInfo]: its name is printed from the position in
    degrees, its data are the first values of the bands read. *)
Record FeatureInfo : Type := {
  feature_lon : double;
  feature_lat : double;
  feature_data : list (option Num);
}.

(** [(v / Math.PI) * 180] *)
Definition toDegrees (v : double) : double :=
  Double.mul (Double.div v Double.PI) (Double.ofZ 180).

Definition pickFeatures (w : World) (x y zoom : Z) (longitude latitude : double)
    : M TIFFImageryProvider (option (list FeatureInfo)) :=
  this ← get;
  if negb (truthyFlag (opt_enablePickFeatures (options this))) then mret None
  else
    let z := if maximumLevel this <? zoom then maximumLevel this else zoom in
    let index := lookupZ (cogLevels this) z in
    image ← fetchImage w index;
    let options := pickOptions (pickPixel (rectangle this) image longitude latitude) in
    res ← readPixels w this image options;
    mret (Some [ {| feature_lon := toDegrees longitude;
                    feature_lat := toDegrees latitude;
                    feature_data := head <$> res |} ]).

(** *** [fromGeoTIFF] *)

Definition fromGeoTIFF (w : World)
    (renderOptions : TIFFImageryProviderRenderOptions)
    : M unit TIFFImageryProvider :=
  tryCatch
    (image ← call (CallGetImage None) (getImage w None);
     imageCount ← liftRes (getImageCount w);
     cogLevels ← liftRes
       (getCogLevels (getImage w) imageCount
          (orElseZ (Some (getTileWidth image)) 512));
     readSamples ← liftRes (getReadSamples renderOptions);
     '(bands, _) ← withLocal ∅
       (getBandValues w renderOptions readSamples image cogLevels);
     constructor w
       {| opt_image := image; opt_imageCount := imageCount;
          opt_cogLevels := cogLevels; opt_readSamples := readSamples;
          opt_bands := bands; opt_credit := None; opt_tileSize := None;
          opt_maximumLevel := None; opt_minimumLevel := None;
          opt_enablePickFeatures := None; opt_hasAlphaChannel := None;
          opt_renderOptions := Some renderOptions; opt_projFunc := None;
          opt_cache := None; opt_resampleMethod := None |})
    (λ e, throw (Error ("Error creating ImageryProvider from GeoTIFF: "
                        +:+ message e))).

(** The options that [fromGeoTIFF] hands to the constructor. *)
Definition geoTIFFOptions (image : GeoTIFFImage) (imageCount : Z)
    (cogLevels readSamples : list Z) (bands : gmap Z BandRange)
    (renderOptions : TIFFImageryProviderRenderOptions)
    : TIFFImageryProviderOptions :=
  {| opt_image := image; opt_imageCount := imageCount;
     opt_cogLevels := cogLevels; opt_readSamples := readSamples;
     opt_bands := bands; opt_credit := None; opt_tileSize := None;
     opt_maximumLevel := None; opt_minimumLevel := None;
     opt_enablePickFeatures := None; opt_hasAlphaChannel := None;
     opt_renderOptions := Some renderOptions; opt_projFunc := None;
     opt_cache := None; opt_resampleMethod := None |}.

(** *** [fromUrl] and [fromBlob] *)

(** What [tiffFromUrl] and [tiffFromBlob] deliver: a [GeoTIFF] source. *)
Record Source : Type := {
  source_getImage : GeoTIFF;
  source_getImageCount : Res Z;
}.

(** The collaborators [w], with the decoder reading from [source]. *)
Definition withSource (w : World) (source : Source) : World :=
  {| getImage := source_getImage source;
     getImageCount := source_getImageCount source;
     readRGB := readRGB w; readRasters := readRasters w; toProj4 := toProj4 w;
     newPlot := newPlot w; plotSetup := plotSetup w; plotRender := plotRender w;
     workerFarm_worker := workerFarm_worker w; scheduleTask := scheduleTask w;
     now := now w; destroyedWhileLoading := destroyedWhileLoading w |}.

(** [try { const source = await tiffFromUrl(url, ...);
           return fromGeoTIFF(source, renderOptions) } catch (e) { ... }].
    Only the opening of the source is awaited inside the [try]; the promise
    of [fromGeoTIFF] is returned as it is, so its rejection does not pass
    through the [catch].  [renderOptions] defaults to [{}]. *)
Definition fromUrl (tiffFromUrl : string → Res Source) (w : World)
    (url : string) (renderOptions : option TIFFImageryProviderRenderOptions)
    : M unit TIFFImageryProvider :=
  let renderOptions := default emptyRenderOptions renderOptions in
  source ← tryCatch (liftRes (tiffFromUrl url))
    (λ e, emit (ConsoleError e);;
          throw (Error ("Error creating GeoTIFF from " +:+ url +:+ ": "
                        +:+ message e)));
  fromGeoTIFF (withSource w source) renderOptions.

Definition fromBlob {Blob : Type} (tiffFromBlob : Blob → Res Source)
    (w : World) (blob : Blob)
    (renderOptions : option TIFFImageryProviderRenderOptions)
    : M unit TIFFImageryProvider :=
  let renderOptions := default emptyRenderOptions renderOptions in
  source ← tryCatch (liftRes (tiffFromBlob blob))
    (λ e, emit (ConsoleError e);;
          throw (Error ("Error creating GeoTIFF from Blob: " +:+ message e)));
  fromGeoTIFF (withSource w source) renderOptions.

(** *** The shared decoder pool: [getWorkerPool] *)

(** A geotiff [Pool]: [pool_id] tells the pools apart, [pool_workers] is the
    truthiness of its [workers]. *)
Record Pool : Type := {
  pool_id : Z;
  pool_workers : bool;
}.

(** The state is the module variable [workerPool]; [newPool] is what
    [new Pool()] constructs if this call gets that far. *)
Definition getWorkerPool (newPool : Pool) : M (option Pool) (option Pool) :=
  workerPool ← get;
  when (negb (bool_decide (is_Some workerPool)))
    (modify (λ _, Some newPool);;
     when (negb (pool_workers newPool)) (modify (λ _, None)));;
  get.

(** *** Getters *)

Definition getTileCredits (this : TIFFImageryProvider) (x y level : Z)
    : list string :=
  [credit this].

Definition isDestroyed (this : TIFFImageryProvider) : bool := _destroyed this.

(** ** Auxiliary readings of the code *)

(** The range that the render options configure for band [bandNum] when the
    image embeds no statistics for it.  [getBandValues] assigns the RGB
    default, then the range of the [multi] channel, then [single.domain];
    the last assignment that fires is what stays. *)
Definition configuredRange (renderOptions : TIFFImageryProviderRenderOptions)
    (bandNum : Z) : option BandRange :=
  let fromRGB :=
    if truthyFlag (convertToRGB renderOptions)
    then Some {| band_min := numOfZ 0; band_max := numOfZ 255 |}
    else None in
  let fromMulti :=
    match multi renderOptions with
    | Some multi =>
        match inputBand multi bandNum with
        | Some {| channel_min := Some min; channel_max := Some max |} =>
            Some {| band_min := min; band_max := max |}
        | _ => None
        end
    | None => None
    end in
  let fromDomain :=
    match single renderOptions with
    | Some s =>
        match domain s with
        | Some (d0, d1) =>
            if negb (truthyOptString (expression s))
               && bool_decide (band s = Some bandNum)
            then Some {| band_min := d0; band_max := d1 |}
            else None
        | None => None
        end
    | None => None
    end in
  match fromDomain, fromMulti with
  | Some range, _ => Some range
  | None, Some range => Some range
  | None, None => fromRGB
  end.

(** [Math.max(image.getWidth(), image.getHeight())]. *)
Definition imageSize (image : GeoTIFFImage) : Z :=
  Z.max (getWidth image) (getHeight image).

End Provider.

(** ** Predicates used in the statements *)

(** A level map is non-increasing along increasing zoom. *)
Definition nonIncreasing (levels : list Z) : Prop :=
  ∀ z1 z2 i1 i2, z1 ≤ z2 →
    lookupZ levels z1 = Some i1 → lookupZ levels z2 = Some i2 → i2 ≤ i1.

(** Every image of the pyramid can be fetched and has a positive size that
    fits an array length. *)
Definition pyramidAvailable {Num} (source : @GeoTIFF Num) (imageCount : Z) : Prop :=
  ∀ i, 0 ≤ i < imageCount →
    ∃ image, source (Some i) = Ok image
             ∧ 0 < Z.max (getWidth image) (getHeight image) < 2 ^ 32.

(** The effect is not a windowed read restricted to sample [i] alone. *)
Definition avoidsSample {Num} (i : Z) (ef : @Effect Num) : Prop :=
  match ef with
  | CallReadRGB _ o | CallReadRasters _ o => read_samples o ≠ Some [i]
  | _ => True
  end.

(** A computation on the [bands] object that leaves the entry of band
    [i + 1] alone and reads no pixels of sample [i]. *)
Definition leavesBand {Num A} (i : Z) (m : @M Num (gmap Z (@BandRange Num)) A)
    : Prop :=
  ∀ bands,
    (m bands).1.2 !! (i + 1) = bands !! (i + 1)
    ∧ Forall (avoidsSample i) (m bands).2.

(** The image handle of index [index] is at hand: memoised in [_images], or
    delivered by the decoder when asked. *)
Definition imageAvailable {Num ImageryTypes} (w : @World Num ImageryTypes)
    (this : @TIFFImageryProvider Num ImageryTypes) (index : option Z)
    (image : GeoTIFFImage) : Prop :=
  ∃ images, _images this = Some images
    ∧ (images !! index = Some image
       ∨ images !! index = None ∧ getImage w index = Ok image).

(** [b] differs from [a] at most in the fields [_images], [_imagesCache] and
    [_destroyed]. *)
Definition mutatedOnly {Num ImageryTypes}
    (a b : @TIFFImageryProvider Num ImageryTypes) : Prop :=
  b = withDestroyed (withImagesCache (withImages a (_images b)) (_imagesCache b))
        (_destroyed b).

(** A provider operation that changes nothing but these three fields. *)
Definition keepsSettings {Num ImageryTypes A}
    (m : @M Num (@TIFFImageryProvider Num ImageryTypes) A) : Prop :=
  ∀ this, mutatedOnly this (m this).1.2.

(** No usable cache entry for the key: caching is off, or the key is not in
    the cache. *)
Definition cacheMiss {Num ImageryTypes}
    (this : @TIFFImageryProvider Num ImageryTypes) (key : string) : Prop :=
  truthyZ (_cacheTime this) = false
  ∨ ∃ cache, _imagesCache this = Some cache ∧ cache !! key = None.

(** Calls to the decoder: for an image handle, for pixels, or either. *)
Definition isGetImage {Num} (ef : @Effect Num) : bool :=
  match ef with CallGetImage _ => true | _ => false end.

Definition isDecoderCall {Num} (ef : @Effect Num) : bool :=
  isGetImage ef || isDecode ef.

(** A call that renders a tile: a task for the worker farm or a plot. *)
Definition isRender {Num} (ef : @Effect Num) : bool :=
  match ef with
  | CallScheduleTask _ _ | CallPlotRender _ => true
  | _ => false
  end.

(** Bookkeeping calls: fetching an image handle, destroying a collaborator. *)
Definition isHousekeeping {Num} (ef : @Effect Num) : bool :=
  match ef with
  | CallGetImage _ | CallDestroy _ => true
  | _ => false
  end.

(** A computation on the [bands] object that removes no entry. *)
Definition growsBands {Num A} (m : @M Num (gmap Z (@BandRange Num)) A) : Prop :=
  ∀ bands k, is_Some (bands !! k) → is_Some ((m bands).1.2 !! k).

(** Every zoom level from 0 up to [maximumLevel] has an entry in the level
    map. *)
Definition levelsCovered {Num ImageryTypes}
    (this : @TIFFImageryProvider Num ImageryTypes) : Prop :=
  ∀ z, 0 ≤ z ≤ maximumLevel this → is_Some (lookupZ (cogLevels this) z).

(** The provider has its image handles and its tile cache. *)
Definition intact {Num ImageryTypes}
    (this : @TIFFImageryProvider Num ImageryTypes) : Prop :=
  is_Some (_images this) ∧ is_Some (_imagesCache this).

(** A double that is a zero or NaN; one that is an infinity or NaN. *)
Definition zeroOrNaN (d : double) : Prop :=
  match d with
  | S754_zero _ | S754_nan => True
  | _ => False
  end.

Definition infinityOrNaN (d : double) : Prop :=
  match d with
  | S754_infinity _ | S754_nan => True
  | _ => False
  end.

(** A computation that never throws. *)
Definition alwaysReturns {Num S A} (m : @M Num S A) : Prop :=
  ∀ s, ∃ a, (m s).1.1 = Ok a.

(** ** Concrete instances

    Numbers are integers and rendered tiles are named by strings. *)

Definition numZ (n : Z) : Z := n.

(** Unary plus on a string of decimal digits. *)
Fixpoint parseDigits (s : string) (acc : Z) : Z :=
  match s with
  | EmptyString => acc
  | String c rest =>
      parseDigits rest (10 * acc + (Z.of_nat (Ascii.nat_of_ascii c) - 48))
  end.
Definition demoToNumber (s : string) : Z := parseDigits s 0.

(** A stand-in for [getMinMax]: the least and the greatest of the values
    other than [noData]. *)
Definition demoGetMinMax (values : list Z) (noData : option Z) : @BandRange Z :=
  match List.filter (λ v, negb (bool_decide (Some v = noData))) values with
  | [] => {| band_min := 0; band_max := 0 |}
  | v :: vs => {| band_min := foldr Z.min v vs; band_max := foldr Z.max v vs |}
  end.

Definition demoGeoKeys : GeoKeys :=
  {| ProjectedCSTypeGeoKey := None; GeographicTypeGeoKey := Some 4326 |}.

(** A 1024 by 1024 image in EPSG:4326 without metadata. *)
Definition demoImage (samplesPerPixel : Z) : @GeoTIFFImage Z :=
  {| getWidth := 1024; getHeight := 1024; getTileWidth := 512;
     getTileHeight := 512; getSamplesPerPixel := samplesPerPixel;
     getGDALNoData := None; getGDALMetadata := λ _, None;
     getBoundingBox := (0, 0, 1, 1)%R; geoKeys := demoGeoKeys |}.

(** The same image with statistics embedded for its first sample. *)
Definition statsImage : @GeoTIFFImage Z :=
  {| getWidth := 1024; getHeight := 1024; getTileWidth := 512;
     getTileHeight := 512; getSamplesPerPixel := 1;
     getGDALNoData := None;
     getGDALMetadata := λ i,
       if i =? 0
       then Some (<["STATISTICS_MINIMUM" := "3"]>
                    (<["STATISTICS_MAXIMUM" := "250"]> ∅))
       else None;
     getBoundingBox := (0, 0, 1, 1)%R; geoKeys := demoGeoKeys |}.

(** An image in a projected system (EPSG:3832) with the given bounding box. *)
Definition projectedImage (bbox : R * R * R * R) : @GeoTIFFImage Z :=
  {| getWidth := 1024; getHeight := 1024; getTileWidth := 512;
     getTileHeight := 512; getSamplesPerPixel := 3;
     getGDALNoData := None; getGDALMetadata := λ _, None;
     getBoundingBox := bbox;
     geoKeys := {| ProjectedCSTypeGeoKey := Some 3832;
                   GeographicTypeGeoKey := None |} |}.

(** A world in which every collaborator succeeds; the images of the source
    have [samplesPerPixel] samples and the clock shows [t]. *)
Definition demoWorld (samplesPerPixel t : Z) : @World Z string :=
  {| getImage := λ _, Ok (demoImage samplesPerPixel);
     getImageCount := Ok 1;
     readRGB := λ _ _, Ok [[10]; [20]; [30]];
     readRasters := λ _ _, Ok [[10]; [20]; [30]];
     toProj4 := λ _, Throw (Error "unknown projection");
     newPlot := λ _, Ok tt;
     plotSetup := λ _, Ok tt;
     plotRender := λ _, Ok "plot";
     workerFarm_worker := true;
     scheduleTask := λ _ _, Ok (Some "tile");
     now := t;
     destroyedWhileLoading := false |}.

Definition worldAt (t : Z) : @World Z string := demoWorld 3 t.

(** The same world with a decoder whose windowed reads fail. *)
Definition failingDecodeWorld : @World Z string :=
  {| getImage := λ _, Ok (demoImage 3);
     getImageCount := Ok 1;
     readRGB := λ _ _, Throw (Error "decode failed");
     readRasters := λ _ _, Throw (Error "decode failed");
     toProj4 := λ _, Throw (Error "unknown projection");
     newPlot := λ _, Ok tt;
     plotSetup := λ _, Ok tt;
     plotRender := λ _, Ok "plot";
     workerFarm_worker := true;
     scheduleTask := λ _ _, Ok (Some "tile");
     now := 0;
     destroyedWhileLoading := false |}.

(** The same world with a worker farm whose task fails. *)
Definition failingCompositeWorld : @World Z string :=
  {| getImage := λ _, Ok (demoImage 3);
     getImageCount := Ok 1;
     readRGB := λ _ _, Ok [[10]; [20]; [30]];
     readRasters := λ _ _, Ok [[10]; [20]; [30]];
     toProj4 := λ _, Throw (Error "unknown projection");
     newPlot := λ _, Ok tt;
     plotSetup := λ _, Ok tt;
     plotRender := λ _, Ok "plot";
     workerFarm_worker := true;
     scheduleTask := λ _ _, Throw (Error "composite failed");
     now := 0;
     destroyedWhileLoading := false |}.

Definition demoOptions (samplesPerPixel : Z)
    (ro : option (@TIFFImageryProviderRenderOptions Z))
    (bands : gmap Z (@BandRange Z)) : @TIFFImageryProviderOptions Z :=
  {| opt_image := demoImage samplesPerPixel; opt_imageCount := 1;
     opt_cogLevels := [0]; opt_readSamples := [0]; opt_bands := bands;
     opt_credit := None; opt_tileSize := None; opt_maximumLevel := None;
     opt_minimumLevel := None; opt_enablePickFeatures := Some true;
     opt_hasAlphaChannel := None; opt_renderOptions := ro;
     opt_projFunc := None; opt_cache := Some 1000;
     opt_resampleMethod := None |}.

Definition rgbOptions : @TIFFImageryProviderRenderOptions Z :=
  {| nodata := None; convertToRGB := Some true; multi := None; single := None;
     undefinedKeys := [] |}.



(** A ready three band provider with a cache lifetime of 1000 ms and an
    empty cache. *)
Definition demoProvider : @TIFFImageryProvider Z string :=
  {| ready := true; hasAlphaChannel := true; maximumLevel := 0;
     minimumLevel := 0; credit := ""; _cacheTime := 1000; _imageCount := 1;
     tileSize := 512; tileWidth := 512; tileHeight := 512; cogLevels := [0];
     renderOptions := rgbOptions; noData := None; readSamples := [0; 1; 2];
     bands := ∅; rectangle := {| west := 0; south := 0; east := 1; north := 1 |};
     _images := Some ∅; _imagesCache := Some ∅; plot := None;
     _destroyed := false;
     options := demoOptions 3 (Some rgbOptions) ∅ |}.

(** A stand-in for [doubleOf]: the double of the integer part of a
    coordinate.  It is exact on the corners 0 and 1 of the rectangle of the
    demo provider. *)
Definition demoDoubleOf (r : R) : double := Double.ofZ (Int_part r).

(** The double 1/2, and the double 2^-60. *)
Definition half : double := Double.div (Double.ofZ 1) (Double.ofZ 2).
Definition tiny : double := S754_finite false (2 ^ 52) (-112).

(** A pyramid given by the sizes of its images, full resolution first. *)
Definition sourceOfSizes (sizes : list (Z * Z)) : @GeoTIFF Z := λ index,
  match lookupZ sizes (default 0 index) with
  | Some (w, h) =>
      Ok {| getWidth := w; getHeight := h; getTileWidth := 512;
            getTileHeight := 512; getSamplesPerPixel := 3;
            getGDALNoData := None; getGDALMetadata := λ _, None;
            getBoundingBox := (0, 0, 1, 1)%R; geoKeys := demoGeoKeys |}
  | None => Throw (RangeError "Invalid image index")
  end.

(** The same options with a projection function that throws. *)
Definition brokenProjFuncOptions : @TIFFImageryProviderOptions Z :=
  {| opt_image := projectedImage (0, 0, 1, 1)%R; opt_imageCount := 1;
     opt_cogLevels := [0]; opt_readSamples := [0; 1; 2]; opt_bands := ∅;
     opt_credit := None; opt_tileSize := None; opt_maximumLevel := None;
     opt_minimumLevel := None; opt_enablePickFeatures := None;
     opt_hasAlphaChannel := None; opt_renderOptions := None;
     opt_projFunc := Some (λ _, Throw (Error "no projection"));
     opt_cache := None; opt_resampleMethod := None |}.

(** Render options of the single band mode: band [b], and optionally a
    domain. *)
Definition singleOptions (b : Z) (d : option (Z * Z))
    : @TIFFImageryProviderRenderOptions Z :=
  {| nodata := None; convertToRGB := None; multi := None;
     single := Some {| band := Some b; colorScale := None; colors := None;
                       domain := d; expression := None |};
     undefinedKeys := [] |}.

(** What sampling band 1 in the demo world gives. *)
Definition sampledBands : gmap Z (@BandRange Z) :=
  {[ 1 := {| band_min := 10; band_max := 10 |} ]}.

(** The demo world with a [destroy] arriving during every tile load. *)
Definition destroyingWorld : @World Z string :=
  {| getImage := λ _, Ok (demoImage 3);
     getImageCount := Ok 1;
     readRGB := λ _ _, Ok [[10]; [20]; [30]];
     readRasters := λ _ _, Ok [[10]; [20]; [30]];
     toProj4 := λ _, Throw (Error "unknown projection");
     newPlot := λ _, Ok tt;
     plotSetup := λ _, Ok tt;
     plotRender := λ _, Ok "plot";
     workerFarm_worker := true;
     scheduleTask := λ _ _, Ok (Some "tile");
     now := 0;
     destroyedWhileLoading := true |}.

(** A ready single band provider whose plot was not set up. *)
Definition plotlessProvider : @TIFFImageryProvider Z string :=
  {| ready := true; hasAlphaChannel := true; maximumLevel := 0;
     minimumLevel := 0; credit := ""; _cacheTime := 1000; _imageCount := 1;
     tileSize := 512; tileWidth := 512; tileHeight := 512; cogLevels := [0];
     renderOptions := singleOptions 2 None; noData := None; readSamples := [0];
     bands := sampledBands;
     rectangle := {| west := 0; south := 0; east := 1; north := 1 |};
     _images := Some ∅; _imagesCache := Some ∅; plot := None;
     _destroyed := false;
     options := demoOptions 1 (Some (singleOptions 2 None)) sampledBands |}.

(** The demo provider with caching switched off: a cache time of 0. *)
Definition uncachedProvider : @TIFFImageryProvider Z string :=
  {| ready := true; hasAlphaChannel := true; maximumLevel := 0;
     minimumLevel := 0; credit := ""; _cacheTime := 0; _imageCount := 1;
     tileSize := 512; tileWidth := 512; tileHeight := 512; cogLevels := [0];
     renderOptions := rgbOptions; noData := None; readSamples := [0; 1; 2];
     bands := ∅; rectangle := {| west := 0; south := 0; east := 1; north := 1 |};
     _images := Some ∅; _imagesCache := Some ∅; plot := None;
     _destroyed := false;
     options := demoOptions 3 (Some rgbOptions) ∅ |}.

(** Render options that have the key [convertToRGB], with the value
    [undefined]. *)
Definition undefinedFlagOptions : @TIFFImageryProviderRenderOptions Z :=
  {| nodata := None; convertToRGB := None; multi := None; single := None;
     undefinedKeys := [key_convertToRGB] |}.

(** A source that cannot be opened, and one that delivers the demo image. *)
Definition brokenUrl : string → Res (@Source Z) :=
  λ _, Throw (Error "404").

Definition demoSource : @Source Z :=
  {| source_getImage := λ _, Ok (demoImage 3); source_getImageCount := Ok 1 |}.

(** The demo world with a source whose first image cannot be fetched. *)
Definition noImageWorld : @World Z string :=
  withSource (worldAt 0)
    {| source_getImage := λ _, Throw (Error "no image");
       source_getImageCount := Ok 1 |}.

(** Three pools as [new Pool()] would construct them in turn: the first one
    without workers. *)
Definition demoPools : list Pool :=
  [ {| pool_id := 1; pool_workers := false |};
    {| pool_id := 2; pool_workers := true |};
    {| pool_id := 3; pool_workers := true |} ].

(** Render options of the single band mode with an expression and no
    domain. *)
Definition expressionOptions (e : string) : @TIFFImageryProviderRenderOptions Z :=
  {| nodata := None; convertToRGB := None; multi := None;
     single := Some {| band := None; colorScale := None; colors := None;
                       domain := None; expression := Some e |};
     undefinedKeys := [] |}.

(** * Verified properties *)

Ltac munfold :=
  unfold mbind, M_bind, mret, M_ret, get, modify, emit, call, throw, liftRes,
    when, tryCatch, withLocal in *.

Section Properties.

Set Default Proof Using "Type".

Context {Num ImageryTypes : Type}.
Variable numOfZ : Z → Num.
Variable toNumber : string → Num.
Variable isNaN : Num → bool.
Variable findAndSortBandNumbers : string → list Z.
Variable getMinMax : list Num → option Num → @BandRange Num.
Variable doubleOf : R → double.

Abbreviation Provider := (@TIFFImageryProvider Num ImageryTypes).
Abbreviation World := (@World Num ImageryTypes).
Abbreviation BandsM := (@M Num (gmap Z (@BandRange Num))).

(** ** The pyramid level selector *)

Example getCogLevels_two_images :
  getCogLevels (sourceOfSizes [(1024, 1024); (512, 512)]) 2 512 = Ok [1; 0].
Proof. reflexivity. Qed.

Example getCogLevels_padded :
  getCogLevels (sourceOfSizes [(4096, 4096); (2048, 2048); (1024, 1024)]) 3 512
  = Ok [2; 2; 1; 0].
Proof. reflexivity. Qed.

Example getCogLevels_small_overviews :
  getCogLevels (sourceOfSizes [(800, 600); (200, 150); (50, 38)]) 3 512
  = Ok [0].
Proof. reflexivity. Qed.

Lemma countDown_lookup (n j : nat) :
  countDown n !! j
  = if decide (j < n)%nat then Some (Z.of_nat (n - 1 - j)) else None.
Proof.
  revert j. induction n as [|n IH]; intros j; [by destruct j|].
  destruct j as [|j]; simpl.
  - f_equal. lia.
  - rewrite IH. repeat case_decide; try lia; try done.
    f_equal. lia.
Qed.

Lemma countDown_last (n : nat) : (0 < n)%nat → last (countDown n) = Some 0.
Proof.
  induction n as [|n IH]; [lia|]. intros _. destruct n as [|n]; [done|].
  change (countDown (S (S n))) with (Z.of_nat (S n) :: countDown (S n)).
  rewrite last_cons, IH by lia. done.
Qed.

Lemma newArrayFill_Ok {A} (n : Z) (v : A) (l : list A) :
  newArrayFill n v = Ok l → l = replicate (Z.to_nat n) v.
Proof. unfold newArrayFill. case_match; congruence. Qed.

Lemma ceilDiv_bounds (size tileSize : Z) :
  0 < tileSize → 0 < size < 2 ^ 32 →
  0 ≤ ceilDiv (size - tileSize) tileSize < 2 ^ 32.
Proof.
  intros Ht Hs. unfold ceilDiv.
  pose proof (Z.div_mod (- (size - tileSize)) tileSize ltac:(lia)) as Hdm.
  pose proof (Z.mod_pos_bound (- (size - tileSize)) tileSize Ht) as Hm.
  nia.
Qed.

(** What the scan leaves behind: copies of the last index, and a
    [maximumLevel] that is the last index or an index still to be visited. *)
Lemma scanImages_shape (source : @GeoTIFF Num) (imageCount tileSize : Z)
    (n : nat) (levels levels' : list Z) (m : Z) :
  scanImages source imageCount tileSize n levels = Ok (levels', m) →
  (∃ k, levels' = levels ++ replicate k (imageCount - 1))
  ∧ (m = imageCount - 1 ∨ 0 ≤ m < Z.of_nat n).
Proof.
  revert levels. induction n as [|n IH]; intros levels; simpl.
  - intros [= <- <-]. split; [exists 0%nat; by rewrite app_nil_r | by left].
  - destruct (source (Some (Z.of_nat n))) as [image|e]; simpl; [|done].
    destruct (Z.of_nat n =? imageCount - 1) eqn:Hi.
    + apply Z.eqb_eq in Hi.
      destruct (tileSize =? 0); simpl; [done|].
      destruct (newArrayFill _ (Z.of_nat n)) as [pad|e] eqn:Hpad; simpl; [|done].
      apply newArrayFill_Ok in Hpad. rewrite Hi in Hpad.
      destruct (tileSize <? _).
      * intros [= <- <-]. split; [rewrite Hpad; eauto | right; lia].
      * intros Hrec. apply IH in Hrec as [[k ->] Hm]. split.
        -- rewrite Hpad, <- app_assoc, <- replicate_add. eauto.
        -- destruct Hm; [by left | right; lia].
    + simpl. destruct (tileSize <? _).
      * intros [= <- <-]. split; [exists 0%nat; by rewrite app_nil_r | right; lia].
      * intros Hrec. apply IH in Hrec as [Hk Hm]. split; [done|].
        destruct Hm; [by left | right; lia].
Qed.

Lemma scanImages_top (source : @GeoTIFF Num) (imageCount tileSize : Z)
    (levels levels' : list Z) (m : Z) (image : GeoTIFFImage) :
  1 ≤ imageCount →
  source (Some (imageCount - 1)) = Ok image →
  tileSize < 2 * Z.max (getWidth image) (getHeight image) →
  scanImages source imageCount tileSize (Z.to_nat imageCount) levels
  = Ok (levels', m) →
  m = imageCount - 1.
Proof.
  intros Hic Himg Hsize.
  destruct (Z.to_nat imageCount) as [|n] eqn:Hn; [lia|]. simpl.
  replace (Z.of_nat n) with (imageCount - 1) by lia. rewrite Himg. simpl.
  rewrite Z.eqb_refl.
  destruct (tileSize =? 0); simpl; [done|].
  destruct (newArrayFill _ _); simpl; [|done].
  destruct (tileSize <? _) eqn:Hlt; [congruence | lia].
Qed.

Lemma scanImages_total (source : @GeoTIFF Num) (imageCount tileSize : Z)
    (n : nat) (levels : list Z) :
  0 < tileSize → pyramidAvailable source imageCount →
  Z.of_nat n ≤ imageCount →
  ∃ out, scanImages source imageCount tileSize n levels = Ok out.
Proof.
  intros Ht Hav. revert levels. induction n as [|n IH]; intros levels Hn; simpl.
  - eauto.
  - destruct (Hav (Z.of_nat n)) as (image & -> & Hsize); [lia|]. simpl.
    assert (∃ levels', (if Z.of_nat n =? imageCount - 1
              then if tileSize =? 0
                   then Throw (RangeError "Invalid array length")
                   else newArrayFill
                          (ceilDiv (Z.max (getWidth image) (getHeight image)
                                    - tileSize) tileSize) (Z.of_nat n)
                        ≫= λ pad, Ok (levels ++ pad)
              else Ok levels) = Ok levels') as [levels' ->].
    { destruct (_ =? imageCount - 1); [|eauto].
      destruct (tileSize =? 0) eqn:H0; [lia|].
      pose proof (ceilDiv_bounds _ _ Ht Hsize) as Hb.
      unfold newArrayFill.
      destruct (_ <? 0) eqn:H1; [lia|]. destruct (2 ^ 32 <=? _) eqn:H2; [lia|].
      simpl. eauto. }
    simpl. destruct (tileSize <? _); [eauto|]. apply IH. lia.
Qed.

Lemma levels_shape_lookup (k n j : nat) (c v : Z) :
  (replicate k c ++ countDown n) !! j = Some v →
  (j < k)%nat ∧ v = c
  ∨ (k ≤ j < k + n)%nat ∧ v = Z.of_nat (n - 1 - (j - k)).
Proof.
  intros H. apply lookup_app_Some in H as [H|[Hk H]].
  - apply lookup_replicate in H as [-> ?]. by left.
  - rewrite length_replicate in *. rewrite countDown_lookup in H.
    case_decide; [|done]. simplify_eq. right. split; [lia | done].
Qed.

Lemma getCogLevels_shape (source : @GeoTIFF Num) (imageCount tileSize : Z)
    (levels : list Z) :
  1 ≤ imageCount →
  getCogLevels source imageCount tileSize = Ok levels →
  ∃ (k : nat) (m : Z),
    0 ≤ m ≤ imageCount - 1
    ∧ levels = replicate k (imageCount - 1) ++ countDown (Z.to_nat (m + 1))
    ∧ (∀ image, source (Some (imageCount - 1)) = Ok image →
         tileSize < 2 * Z.max (getWidth image) (getHeight image) →
         m = imageCount - 1).
Proof.
  intros Hic. unfold getCogLevels.
  destruct (scanImages _ _ _ _ _) as [[levels' m]|e] eqn:Hscan; simpl; [|done].
  intros [= <-].
  pose proof (scanImages_shape _ _ _ _ _ _ _ Hscan) as [[k ->] Hm].
  exists k, m. split; [lia|]. split; [done|].
  intros image Himg Hsize. eapply scanImages_top; eauto.
Qed.

(** C2, as the code has it: the map is non-increasing along increasing zoom
    (so the index does not decrease as zoom decreases), its last entry is
    index 0, its entry for zoom 0 is the largest index in the map, and that
    entry is [imageCount - 1] whenever the last image is wider than half a
    tile.  The selector returns a map whenever the pyramid is available. *)
Theorem getCogLevels_level_map (source : @GeoTIFF Num)
    (imageCount tileSize : Z) :
  1 ≤ imageCount →
  (0 < tileSize → pyramidAvailable source imageCount →
   ∃ levels, getCogLevels source imageCount tileSize = Ok levels)
  ∧ ∀ levels, getCogLevels source imageCount tileSize = Ok levels →
      nonIncreasing levels
      ∧ last levels = Some 0
      ∧ (∃ top, lookupZ levels 0 = Some top ∧ 0 ≤ top ≤ imageCount - 1
                ∧ ∀ z i, lookupZ levels z = Some i → 0 ≤ i ≤ top)
      ∧ (∀ image, source (Some (imageCount - 1)) = Ok image →
           tileSize < 2 * Z.max (getWidth image) (getHeight image) →
           lookupZ levels 0 = Some (imageCount - 1)).
Proof.
  intros Hic. split.
  - intros Ht Hav. unfold getCogLevels.
    destruct (scanImages_total source imageCount tileSize
                (Z.to_nat imageCount) [] Ht Hav) as [[levels m] ->]; [lia|].
    simpl. eauto.
  - intros levels Hlev.
    destruct (getCogLevels_shape _ _ _ _ Hic Hlev) as (k & m & Hm & -> & Htop).
    set (n := Z.to_nat (m + 1)). assert (0 < n)%nat as Hn by lia.
    assert (Z.of_nat n = m + 1) as Hnm by lia.
    split; [|split; [|split]].
    + intros z1 z2 i1 i2 Hz. unfold lookupZ.
      destruct (z1 <? 0) eqn:H1; [done|]. destruct (z2 <? 0) eqn:H2; [done|].
      intros Hl1 Hl2.
      apply levels_shape_lookup in Hl1, Hl2. lia.
    + rewrite last_app, countDown_last by done. done.
    + unfold lookupZ. simpl.
      destruct k as [|k]; simpl.
      * exists (Z.of_nat (n - 1 - 0)). rewrite countDown_lookup.
        split; [by case_decide; [|lia]|]. split; [lia|].
        intros z i. destruct (z <? 0); [done|]. intros Hl.
        apply (levels_shape_lookup 0 n _ (imageCount - 1)) in Hl. lia.
      * exists (imageCount - 1). split; [done|]. split; [lia|].
        intros z i. destruct (z <? 0); [done|]. intros Hl.
        apply (levels_shape_lookup (S k) n) in Hl. lia.
    + intros image Himg Hsize. rewrite (Htop image Himg Hsize) in *.
      unfold lookupZ. simpl. subst n.
      destruct k as [|k]; simpl; [|done].
      rewrite countDown_lookup. case_decide; [|lia]. f_equal. lia.
Qed.

(** ** The band statistics resolver *)

Example getReadSamples_default :
  getReadSamples (λ _, [0; 3]) (@emptyRenderOptions Z) = Ok [0].
Proof. reflexivity. Qed.

Example getReadSamples_rgb :
  getReadSamples (λ _, [0; 3]) rgbOptions = Ok [0; 1; 2].
Proof. reflexivity. Qed.

(** Without statistics and without a configured range the band is sampled:
    one warning, the image of [cogLevels[0]], and the two reads of the
    source. *)
Example getBandValues_fallback :
  let run := getBandValues numZ demoToNumber (λ _, false) demoGetMinMax
               (worldAt 0) emptyRenderOptions [0] (demoImage 1) [0] ∅ in
  run.1.1 = Ok {[ 1 := {| band_min := 10; band_max := 10 |} ]}
  ∧ decodeCalls run.2 = 2%nat.
Proof. vm_compute. by split. Qed.

(** With statistics the band is resolved from them and nothing is read. *)
Example getBandValues_statistics :
  getBandValues numZ demoToNumber (λ _, false) demoGetMinMax
    (worldAt 0) emptyRenderOptions [0] statsImage [0] ∅
  = (Ok {[ 1 := {| band_min := 3; band_max := 250 |} ]},
     {[ 1 := {| band_min := 3; band_max := 250 |} ]}, []).
Proof. vm_compute. reflexivity. Qed.

Example pixelBounds_level1 :
  pixelBounds 1024 768 1 0 1 = (512, 0, 1024, 384).
Proof. reflexivity. Qed.


Lemma bandValuesSync_stats ro (image : @GeoTIFFImage Num) (i : Z)
    (range : BandRange) (bands : gmap Z BandRange) :
  statsOf toNumber image i = Some range →
  bandValuesSync numOfZ toNumber ro image i bands
  = (Ok false, <[i + 1 := range]> bands, []).
Proof.
  unfold statsOf, bandValuesSync. intros H.
  destruct (getGDALMetadata image i ≫= _) as [smin|]; [|done].
  destruct (getGDALMetadata image i ≫= _) as [smax|]; [|done].
  destruct (truthyString smin && truthyString smax); [|done].
  injection H as <-. reflexivity.
Qed.

Section BandsFrame.
Context {A B : Type} (i : Z).
Implicit Types (m : BandsM A).

Lemma leavesBand_ret (a : A) : leavesBand i (mret a : BandsM A).
Proof. intros bands. split; [done | constructor]. Qed.

Lemma leavesBand_throw (e : JsError) : leavesBand i (throw e : BandsM A).
Proof. intros bands. split; [done | constructor]. Qed.

Lemma leavesBand_bind m (f : A → BandsM B) :
  leavesBand i m → (∀ a, leavesBand i (f a)) → leavesBand i (m ≫= f).
Proof.
  intros Hm Hf bands. specialize (Hm bands). unfold mbind, M_bind.
  destruct (m bands) as [[[a|e] bands1] t1]; simpl in *; [|done].
  specialize (Hf a bands1).
  destruct (f a bands1) as [[res bands2] t2]; simpl in *.
  destruct Hm as [Hm1 Hm2], Hf as [Hf1 Hf2].
  split; [congruence | by apply Forall_app].
Qed.

Lemma leavesBand_tryCatch m (handler : JsError → BandsM A) :
  leavesBand i m → (∀ e, leavesBand i (handler e)) →
  leavesBand i (tryCatch m handler).
Proof.
  intros Hm Hh bands. specialize (Hm bands). unfold tryCatch.
  destruct (m bands) as [[[a|e] bands1] t1]; simpl in *; [done|].
  specialize (Hh e bands1).
  destruct (handler e bands1) as [[res bands2] t2]; simpl in *.
  destruct Hm as [Hm1 Hm2], Hh as [Hh1 Hh2].
  split; [congruence | by apply Forall_app].
Qed.
End BandsFrame.

Lemma leavesBand_get (i : Z) : leavesBand i (get : BandsM _).
Proof. intros bands. split; [done | constructor]. Qed.

Lemma leavesBand_insert (i k : Z) (range : @BandRange Num) :
  k ≠ i + 1 → leavesBand i (modify (<[k := range]>) : BandsM _).
Proof.
  intros Hk bands. split; [|constructor]. simpl. by rewrite lookup_insert_ne.
Qed.

Lemma leavesBand_emit (i : Z) (ef : @Effect Num) :
  avoidsSample i ef → leavesBand i (emit ef : BandsM _).
Proof. intros Hef bands. split; [done | by repeat constructor]. Qed.

Lemma leavesBand_call {A} (i : Z) (ef : @Effect Num) (outcome : Res A) :
  avoidsSample i ef → leavesBand i (call ef outcome : BandsM _).
Proof. intros Hef bands. split; [done | by repeat constructor]. Qed.

Lemma leavesBand_when (i : Z) (c : bool) (m : BandsM unit) :
  leavesBand i m → leavesBand i (when c m).
Proof. destruct c; [done|]. intros _. apply leavesBand_ret. Qed.

Lemma alwaysReturns_ret {S A} (a : A) : alwaysReturns (mret a : @M Num S A).
Proof. intros s. by exists a. Qed.

Lemma alwaysReturns_bind {S A B} (m : @M Num S A) (f : A → M S B) :
  alwaysReturns m → (∀ a, alwaysReturns (f a)) → alwaysReturns (m ≫= f).
Proof.
  intros Hm Hf s. destruct (Hm s) as [a Ha]. unfold mbind, M_bind.
  destruct (m s) as [[res s1] t1]; simpl in *; subst res.
  destruct (Hf a s1) as [b Hb].
  destruct (f a s1) as [[res s2] t2]; simpl in *. eauto.
Qed.

Lemma alwaysReturns_modify {S} (f : S → S) : alwaysReturns (modify f : @M Num S _).
Proof. intros s. by exists tt. Qed.

Lemma alwaysReturns_get {S} : alwaysReturns (get : @M Num S _).
Proof. intros s. by exists s. Qed.

Lemma alwaysReturns_emit {S} (ef : @Effect Num) : alwaysReturns (emit ef : M S _).
Proof. intros s. by exists tt. Qed.

Lemma alwaysReturns_when {S} (c : bool) (m : @M Num S unit) :
  alwaysReturns m → alwaysReturns (when c m).
Proof. destruct c; [done|]. intros _. apply alwaysReturns_ret. Qed.

Ltac frame_step :=
  first
    [ apply leavesBand_ret | apply leavesBand_throw | apply leavesBand_get
    | apply leavesBand_when
    | apply leavesBand_insert; lia
    | apply leavesBand_emit; exact I
    | apply leavesBand_bind; [|intros ?]
    | apply leavesBand_tryCatch; [|intros ?]
    | apply alwaysReturns_ret | apply alwaysReturns_get
    | apply alwaysReturns_modify | apply alwaysReturns_emit
    | apply alwaysReturns_when
    | apply alwaysReturns_bind; [|intros ?]
    | case_match ].

Lemma bandValuesSync_leavesBand ro (image : @GeoTIFFImage Num) (i j : Z) :
  j ≠ i → leavesBand i (bandValuesSync numOfZ toNumber ro image j).
Proof. intros Hj. unfold bandValuesSync. repeat frame_step. Qed.

Lemma bandValuesSync_returns ro (image : @GeoTIFFImage Num) (j : Z) :
  alwaysReturns (bandValuesSync numOfZ toNumber ro image j).
Proof. unfold bandValuesSync. repeat frame_step. Qed.

Lemma bandValuesFallback_leavesBand (w : World) ro (image : @GeoTIFFImage Num)
    (levels : list Z) (i j : Z) :
  j ≠ i →
  leavesBand i (bandValuesFallback isNaN getMinMax w ro image levels j).
Proof.
  intros Hj. unfold bandValuesFallback.
  repeat first
    [ frame_step
    | apply leavesBand_call; simpl; first [exact I | intros [= ?]; lia] ].
Qed.

Lemma startCallbacks_returns ro (image : @GeoTIFFImage Num) (l : list Z) :
  alwaysReturns (startCallbacks numOfZ toNumber ro image l).
Proof.
  induction l as [|j l IH]; simpl; [apply alwaysReturns_ret|].
  apply alwaysReturns_bind; [apply bandValuesSync_returns | intros pending].
  apply alwaysReturns_bind; [apply IH | intros others].
  apply alwaysReturns_ret.
Qed.

(** The callbacks that stay suspended are callbacks of bands without
    embedded statistics. *)
Lemma startCallbacks_pending ro (image : @GeoTIFFImage Num) (l : list Z)
    (bands : gmap Z BandRange) (pending : list Z) :
  (startCallbacks numOfZ toNumber ro image l bands).1.1 = Ok pending →
  ∀ j, j ∈ pending → statsOf toNumber image j = None.
Proof.
  revert bands pending. induction l as [|j l IH]; intros bands pending; simpl.
  - intros [= <-] k Hk. by apply elem_of_nil in Hk.
  - unfold mbind, M_bind.
    destruct (bandValuesSync _ _ _ _ j bands) as [[[p|e] bands1] t1] eqn:Hsync;
      simpl; [|done].
    specialize (IH bands1).
    destruct (startCallbacks _ _ _ _ l bands1) as [[[others|e] bands2] t2];
      simpl in *; [|done].
    intros [= <-] k Hk. destruct p.
    + apply elem_of_cons in Hk as [-> | Hk]; [|by eapply IH].
      destruct (statsOf toNumber image j) as [range|] eqn:Hstats; [|done].
      rewrite (bandValuesSync_stats _ _ _ _ _ Hstats) in Hsync. done.
    + by eapply IH.
Qed.

(** Once the callback of a band with embedded statistics has run, the entry
    of the band holds them, and no callback that starts later changes it. *)
Lemma startCallbacks_stats ro (image : @GeoTIFFImage Num) (l : list Z)
    (bands : gmap Z BandRange) (i : Z) (range : BandRange) :
  statsOf toNumber image i = Some range →
  i ∈ l ∨ bands !! (i + 1) = Some range →
  (startCallbacks numOfZ toNumber ro image l bands).1.2 !! (i + 1) = Some range
  ∧ Forall (avoidsSample i) (startCallbacks numOfZ toNumber ro image l bands).2.
Proof.
  intros Hstats. revert bands. induction l as [|j l IH]; intros bands Hi; simpl.
  - destruct Hi as [Hi|Hi]; [by apply elem_of_nil in Hi|]. by split.
  - unfold mbind, M_bind.
    assert ((bandValuesSync numOfZ toNumber ro image j bands).1.2 !! (i + 1)
            = Some range ∨ i ∈ l) as Hnext.
    { destruct (decide (j = i)) as [->|Hne].
      - left. rewrite (bandValuesSync_stats _ _ _ _ _ Hstats). simpl.
        apply lookup_insert_eq.
      - destruct Hi as [Hi|Hi].
        + apply elem_of_cons in Hi as [Hi|Hi]; [congruence | by right].
        + left. destruct (bandValuesSync_leavesBand ro image i j Hne bands)
            as [-> _]. done. }
    assert (Forall (avoidsSample i)
              (bandValuesSync numOfZ toNumber ro image j bands).2) as Htrace.
    { destruct (decide (j = i)) as [->|Hne].
      - rewrite (bandValuesSync_stats _ _ _ _ _ Hstats). constructor.
      - apply (bandValuesSync_leavesBand ro image i j Hne bands). }
    destruct (bandValuesSync_returns ro image j bands) as [p Hp].
    destruct (bandValuesSync _ _ _ _ j bands) as [[res bands1] t1];
      simpl in *; subst res.
    specialize (IH bands1 ltac:(tauto)).
    destruct (startCallbacks_returns ro image l bands1) as [others Ho].
    destruct (startCallbacks _ _ _ _ l bands1) as [[res bands2] t2];
      simpl in *; subst res. simpl.
    destruct IH as [IH1 IH2]. split; [done|].
    rewrite app_nil_r. by apply Forall_app.
Qed.

Lemma resumeCallbacks_leavesBand (w : World) ro (image : @GeoTIFFImage Num)
    (levels pending : list Z) (i : Z) :
  (∀ j, j ∈ pending → j ≠ i) →
  leavesBand i (resumeCallbacks isNaN getMinMax w ro image levels pending).
Proof.
  induction pending as [|j pending IH]; intros Hne; simpl.
  - apply leavesBand_ret.
  - apply leavesBand_bind.
    + apply leavesBand_tryCatch; [|intros e; apply leavesBand_ret].
      apply leavesBand_bind; [|intros ?; apply leavesBand_ret].
      apply bandValuesFallback_leavesBand. apply Hne. by left.
    + intros failure. apply leavesBand_bind; [|intros ?; apply leavesBand_ret].
      apply IH. intros k Hk. apply Hne. by right.
Qed.

(** When every band has embedded statistics no callback suspends. *)
Lemma startCallbacks_all_stats ro (image : @GeoTIFFImage Num) (l : list Z)
    (bands : gmap Z BandRange) :
  (∀ j, j ∈ l → is_Some (statsOf toNumber image j)) →
  ∃ bands', startCallbacks numOfZ toNumber ro image l bands = (Ok [], bands', []).
Proof.
  revert bands. induction l as [|j l IH]; intros bands Hall; simpl.
  - by exists bands.
  - destruct (Hall j) as [range Hstats]; [by left|].
    destruct (IH (<[j + 1 := range]> bands)) as [bands' Hrest].
    { intros k Hk. apply Hall. by right. }
    unfold mbind, M_bind.
    rewrite (bandValuesSync_stats _ _ _ _ _ Hstats), Hrest. simpl. eauto.
Qed.

Lemma getBandValues_stats_band (w : World) ro
    (readSamples : list Z) (image : @GeoTIFFImage Num) (levels : list Z)
    (i : Z) (range : BandRange) (bands0 : gmap Z BandRange) :
  i ∈ readSamples →
  statsOf toNumber image i = Some range →
  let run := getBandValues numOfZ toNumber isNaN getMinMax w ro readSamples
               image levels bands0 in
  run.1.2 !! (i + 1) = Some range
  ∧ (∀ bands, run.1.1 = Ok bands → bands !! (i + 1) = Some range)
  ∧ Forall (avoidsSample i) run.2.
Proof.
  intros Hi Hstats run.
  subst run. unfold getBandValues, mbind, M_bind.
  pose proof (startCallbacks_stats ro image readSamples bands0 i range Hstats
                (or_introl Hi)) as [Hb1 Ht1].
  pose proof (startCallbacks_pending ro image readSamples bands0) as Hpend.
  destruct (startCallbacks_returns ro image readSamples bands0) as [pending Hp].
  destruct (startCallbacks _ _ _ _ readSamples bands0) as [[res bands1] t1];
    simpl in *; subst res.
  specialize (Hpend pending eq_refl).
  assert (∀ j, j ∈ pending → j ≠ i) as Hne.
  { intros j Hj ->. specialize (Hpend i Hj). congruence. }
  destruct (resumeCallbacks_leavesBand w ro image levels pending i Hne bands1)
    as [Hb2 Ht2].
  destruct (resumeCallbacks isNaN getMinMax w ro image levels pending bands1)
    as [[[failure|e] bands2] t2]; simpl in *.
  - destruct failure as [e|]; simpl.
    + split; [congruence|]. split; [done|].
      rewrite app_nil_r. by apply Forall_app.
    + split; [congruence|]. split; [intros ? [= <-]; congruence|].
      rewrite app_nil_r. by apply Forall_app.
  - split; [congruence|]. split; [done|]. by apply Forall_app.
Qed.

Lemma getBandValues_all_stats (w : World) ro
    (readSamples : list Z) (image : @GeoTIFFImage Num) (levels : list Z)
    (bands0 : gmap Z BandRange) :
  (∀ j, j ∈ readSamples → is_Some (statsOf toNumber image j)) →
  let run := getBandValues numOfZ toNumber isNaN getMinMax w ro readSamples
               image levels bands0 in
  ∃ bands, run.1.1 = Ok bands ∧ run.2 = [].
Proof.
  intros Hall run. subst run.
  destruct (startCallbacks_all_stats ro image readSamples bands0 Hall)
    as [bands' Hstart].
  unfold getBandValues, mbind, M_bind. rewrite Hstart. simpl. eauto.
Qed.

(** C7: a band of [readSamples] whose metadata embeds a non-empty
    STATISTICS_MINIMUM and STATISTICS_MAXIMUM is resolved to exactly these
    two values, coerced to numbers, whatever the render options and whatever
    the decoder would return; no read of that band's pixels is issued.  When
    every band of [readSamples] embeds its statistics the resolver returns
    without calling the decoder at all. *)
Theorem getBandValues_embedded_statistics (w : World) ro
    (readSamples : list Z) (image : @GeoTIFFImage Num) (levels : list Z)
    (i : Z) (metadata : gmap string string) (smin smax : string)
    (bands0 : gmap Z BandRange) :
  i ∈ readSamples →
  getGDALMetadata image i = Some metadata →
  metadata !! "STATISTICS_MINIMUM" = Some smin →
  metadata !! "STATISTICS_MAXIMUM" = Some smax →
  smin ≠ "" → smax ≠ "" →
  let range := {| band_min := toNumber smin; band_max := toNumber smax |} in
  let run := getBandValues numOfZ toNumber isNaN getMinMax w ro readSamples
               image levels bands0 in
  run.1.2 !! (i + 1) = Some range
  ∧ (∀ bands, run.1.1 = Ok bands → bands !! (i + 1) = Some range)
  ∧ Forall (avoidsSample i) run.2
  ∧ ((∀ j, j ∈ readSamples → is_Some (statsOf toNumber image j)) →
     ∃ bands, run.1.1 = Ok bands ∧ run.2 = []).
Proof.
  intros Hi Hmd Hmin Hmax Hsmin Hsmax range run.
  assert (statsOf toNumber image i = Some range) as Hstats.
  { unfold statsOf. rewrite Hmd; simpl. rewrite Hmin, Hmax.
    destruct smin; [done|]. destruct smax; [done|]. done. }
  destruct (getBandValues_stats_band w ro readSamples image levels i range
              bands0 Hi Hstats) as (H1 & H2 & H3).
  split; [exact H1|]. split; [exact H2|]. split; [exact H3|].
  apply getBandValues_all_stats.
Qed.

(** With [convertToRGB] set every band has a range before the callbacks
    suspend, so none of them reaches the sampling fallback. *)
Lemma bandValuesSync_convertToRGB ro (image : @GeoTIFFImage Num) (j : Z)
    (bands : gmap Z BandRange) :
  truthyFlag (convertToRGB ro) = true →
  ∃ bands', bandValuesSync numOfZ toNumber ro image j bands
            = (Ok false, bands', []).
Proof.
  intros Hflag.
  destruct (statsOf toNumber image j) as [range|] eqn:Hstats.
  { rewrite (bandValuesSync_stats _ _ _ _ _ Hstats). eauto. }
  unfold statsOf in Hstats. unfold bandValuesSync. rewrite Hflag.
  destruct (getGDALMetadata image j ≫= lookup "STATISTICS_MINIMUM") as [smin|];
    destruct (getGDALMetadata image j ≫= lookup "STATISTICS_MAXIMUM") as [smax|];
    try destruct (truthyString smin && truthyString smax); try done;
    (destruct (multi ro) as [m|];
       [destruct (inputBand m (j + 1)) as [[cb [mn|] [mx|]]|]|]);
    (destruct (single ro) as [sg|];
       [destruct (domain sg) as [[d0 d1]|];
          [destruct (negb (truthyOptString (expression sg))
                     && bool_decide (band sg = Some (j + 1)))|]|]);
    munfold; simpl; rewrite lookup_insert_eq; simpl;
    rewrite ?andb_false_r; eauto.
Qed.

Lemma startCallbacks_convertToRGB ro (image : @GeoTIFFImage Num) (l : list Z)
    (bands : gmap Z BandRange) :
  truthyFlag (convertToRGB ro) = true →
  ∃ bands', startCallbacks numOfZ toNumber ro image l bands = (Ok [], bands', []).
Proof.
  intros Hflag. revert bands. induction l as [|j l IH]; intros bands; simpl.
  - by exists bands.
  - destruct (bandValuesSync_convertToRGB ro image j bands Hflag) as [bands1 H1].
    destruct (IH bands1) as [bands2 H2].
    unfold mbind, M_bind. rewrite H1, H2. simpl. eauto.
Qed.

Lemma getBandValues_convertToRGB (w : World) ro (l : list Z)
    (image : @GeoTIFFImage Num) (levels : list Z) (bands : gmap Z BandRange) :
  truthyFlag (convertToRGB ro) = true →
  ∃ bands', getBandValues numOfZ toNumber isNaN getMinMax w ro l image levels bands
            = (Ok bands', bands', []).
Proof.
  intros Hflag.
  destruct (startCallbacks_convertToRGB ro image l bands Hflag) as [bands' H].
  unfold getBandValues, mbind, M_bind. rewrite H. simpl. eauto.
Qed.

(** ** The constructor *)

Lemma constructor_built (w : World) (opts : @TIFFImageryProviderOptions Num)
    (rect0 : Rectangle) (t0 : list Effect) (arr : list unit) :
  let ro0 := default emptyRenderOptions (opt_renderOptions opts) in
  let samples := getSamplesPerPixel (opt_image opts) in
  let ro := defaultRenderOptions samples ro0 in
  let noData0 := match nodata ro0 with
                 | Some n => Some n
                 | None => getGDALNoData (opt_image opts)
                 end in
  (samples <? 3) && truthyFlag (convertToRGB ro0) = false →
  resolveRectangle w opts tt = (Ok rect0, tt, t0) →
  newArrayFill (opt_imageCount opts) tt = Ok arr →
  ∃ p outcome plot' tp,
    initPlot w (single ro) (opt_bands opts) noData0 None = (outcome, plot', tp)
    ∧ constructor w opts tt
      = (Ok p, tt,
         [SetReady false] ++ t0
         ++ (tp ++ match outcome with
                   | Ok _ => []
                   | Throw e => [ConsoleError e; RaiseEvent e]
                   end)
         ++ [SetReady true])
    ∧ ready p = true ∧ plot p = plot' ∧ rectangle p = normalizeEast rect0
    ∧ renderOptions p = ro ∧ bands p = opt_bands opts ∧ noData p = noData0
    ∧ options p = opts ∧ _destroyed p = false
    ∧ _images p = Some ∅ ∧ _imagesCache p = Some ∅.
Proof.
  intros ro0 samples ro noData0 Hguard Hrect Hcount.
  destruct (initPlot w (single ro) (opt_bands opts) noData0 None)
    as [[outcome plot'] tp] eqn:Hplot.
  unfold constructor. munfold. cbv zeta.
  fold ro0. fold samples. rewrite Hguard. fold ro. fold noData0.
  rewrite Hrect, Hcount, Hplot.
  destruct outcome as [[]|e]; simpl; eexists _, _, _, _;
    (split; [reflexivity|]);
    (split; [rewrite ?app_nil_r; reflexivity | by repeat split]).
Qed.

Lemma constructor_guard (w : World) (opts : @TIFFImageryProviderOptions Num) :
  (getSamplesPerPixel (opt_image opts) <? 3)
  && truthyFlag (convertToRGB
       (default emptyRenderOptions (opt_renderOptions opts))) = true →
  constructor w opts tt
  = (Throw (DeveloperError
       "Can not render the image as RGB, please check the convertToRGB parameter"),
     tt, [SetReady false]).
Proof.
  intros Hguard. unfold constructor. munfold. cbv zeta. rewrite Hguard.
  reflexivity.
Qed.

Lemma constructor_no_rectangle (w : World)
    (opts : @TIFFImageryProviderOptions Num) (e : JsError) (t0 : list Effect) :
  (getSamplesPerPixel (opt_image opts) <? 3)
  && truthyFlag (convertToRGB
       (default emptyRenderOptions (opt_renderOptions opts))) = false →
  resolveRectangle w opts tt = (Throw e, tt, t0) →
  constructor w opts tt = (Throw e, tt, [SetReady false] ++ t0).
Proof.
  intros Hguard Hrect. unfold constructor. munfold. cbv zeta.
  rewrite Hguard, Hrect. reflexivity.
Qed.

Lemma constructor_bad_count (w : World)
    (opts : @TIFFImageryProviderOptions Num) (rect0 : Rectangle) (e : JsError)
    (t0 : list Effect) :
  (getSamplesPerPixel (opt_image opts) <? 3)
  && truthyFlag (convertToRGB
       (default emptyRenderOptions (opt_renderOptions opts))) = false →
  resolveRectangle w opts tt = (Ok rect0, tt, t0) →
  newArrayFill (opt_imageCount opts) tt = Throw e →
  constructor w opts tt = (Throw e, tt, [SetReady false] ++ t0).
Proof.
  intros Hguard Hrect Hcount. unfold constructor. munfold. cbv zeta.
  rewrite Hguard, Hrect, Hcount. simpl. by rewrite app_nil_r.
Qed.

Lemma raisedEvents_app (t1 t2 : list (@Effect Num)) :
  raisedEvents (t1 ++ t2) = raisedEvents t1 ++ raisedEvents t2.
Proof. apply omap_app. Qed.

Lemma decodeCalls_app (t1 t2 : list (@Effect Num)) :
  decodeCalls (t1 ++ t2) = (decodeCalls t1 + decodeCalls t2)%nat.
Proof. unfold decodeCalls. by rewrite List.filter_app, length_app. Qed.

Lemma quiet_trace (t : list (@Effect Num)) :
  Forall (λ ef, isQuiet ef = true) t →
  raisedEvents t = [] ∧ decodeCalls t = 0%nat ∧ ∀ v, SetReady v ∉ t.
Proof.
  induction 1 as [|ef t Hef _ (IH1 & IH2 & IH3)]; [repeat split; [] |].
  - intros v Hv. by apply elem_of_nil in Hv.
  - split; [|split].
    + destruct ef; try done; simpl in *; by rewrite ?IH1.
    + unfold decodeCalls in *. simpl. by destruct ef.
    + intros v Hv. apply elem_of_cons in Hv as [<-|Hv]; [done | by eapply IH3].
Qed.

(** The spatial extent is resolved quietly. *)
Lemma resolveRectangle_trace (w : World) (opts : @TIFFImageryProviderOptions Num) :
  Forall (λ ef, isQuiet ef = true) (resolveRectangle w opts tt).2.
Proof.
  unfold resolveRectangle.
  destruct (callProjFunc opts (prjCodeOf (geoKeys (opt_image opts))))
    as [[proj|]|e0]; unfold projectCorners; munfold; simpl; [| |constructor].
  - destruct (getBoundingBox _) as [[[w0 s0] e0] n0].
    destruct (proj (w0, s0)); simpl; [|constructor].
    destruct (proj (e0, n0)); simpl; constructor.
  - case_bool_decide.
    + destruct (getBoundingBox _) as [[[w0 s0] e0] n0]. constructor.
    + destruct (toProj4 w _) as [project|e]; simpl.
      * destruct (getBoundingBox _) as [[[w0 s0] e0] n0].
        destruct (project (w0, s0)); simpl; [|by repeat constructor].
        destruct (project (e0, n0)); simpl; by repeat constructor.
      * by repeat constructor.
Qed.

Lemma resolveRectangle_state (w : World) (opts : @TIFFImageryProviderOptions Num) :
  (resolveRectangle w opts tt).1.2 = tt.
Proof. by destruct (resolveRectangle w opts tt).1.2. Qed.

(** So is the plot set up. *)
Lemma initPlot_trace (w : World) single (bands : gmap Z (@BandRange Num))
    noData plot0 :
  Forall (λ ef, isQuiet ef = true) (initPlot w single bands noData plot0).2.
Proof.
  unfold initPlot. munfold. destruct single as [single|]; [|constructor].
  destruct (_ && _); [constructor|].
  destruct (domain single) as [d|]; [|destruct (bands !! _)]; simpl;
    try (by constructor);
    destruct (newPlot w _); simpl; by repeat constructor.
Qed.

(** The four ways in which the constructor ends. *)
Lemma constructor_cases (w : World) (opts : @TIFFImageryProviderOptions Num) :
  let ro0 := default emptyRenderOptions (opt_renderOptions opts) in
  let samples := getSamplesPerPixel (opt_image opts) in
  let ro := defaultRenderOptions samples ro0 in
  let noData0 := match nodata ro0 with
                 | Some n => Some n
                 | None => getGDALNoData (opt_image opts)
                 end in
  ((samples <? 3) && truthyFlag (convertToRGB ro0) = true
   ∧ constructor w opts tt
     = (Throw (DeveloperError
          "Can not render the image as RGB, please check the convertToRGB parameter"),
        tt, [SetReady false]))
  ∨ ((samples <? 3) && truthyFlag (convertToRGB ro0) = false
     ∧ ∃ e t0, resolveRectangle w opts tt = (Throw e, tt, t0)
               ∧ constructor w opts tt = (Throw e, tt, [SetReady false] ++ t0))
  ∨ ((samples <? 3) && truthyFlag (convertToRGB ro0) = false
     ∧ ∃ rect0 e t0, resolveRectangle w opts tt = (Ok rect0, tt, t0)
               ∧ newArrayFill (opt_imageCount opts) tt = Throw e
               ∧ constructor w opts tt = (Throw e, tt, [SetReady false] ++ t0))
  ∨ ((samples <? 3) && truthyFlag (convertToRGB ro0) = false
     ∧ ∃ rect0 t0 p outcome plot' tp,
         resolveRectangle w opts tt = (Ok rect0, tt, t0)
         ∧ initPlot w (single ro) (opt_bands opts) noData0 None
           = (outcome, plot', tp)
         ∧ constructor w opts tt
           = (Ok p, tt,
              [SetReady false] ++ t0
              ++ (tp ++ match outcome with
                        | Ok _ => []
                        | Throw e => [ConsoleError e; RaiseEvent e]
                        end)
              ++ [SetReady true])
         ∧ ready p = true ∧ plot p = plot' ∧ rectangle p = normalizeEast rect0
         ∧ renderOptions p = ro ∧ bands p = opt_bands opts ∧ noData p = noData0
         ∧ options p = opts ∧ _destroyed p = false
         ∧ _images p = Some ∅ ∧ _imagesCache p = Some ∅).
Proof.
  intros ro0 samples ro noData0.
  destruct ((samples <? 3) && truthyFlag (convertToRGB ro0)) eqn:Hguard.
  { left. split; [done|]. by apply constructor_guard. }
  right.
  destruct (resolveRectangle w opts tt) as [[[rect0|e] []] t0] eqn:Hrect.
  2: { left. split; [done|]. exists e, t0. split; [done|].
       by apply constructor_no_rectangle. }
  right.
  destruct (newArrayFill (opt_imageCount opts) tt) as [arr|e] eqn:Hcount.
  2: { left. split; [done|]. exists rect0, e, t0. split; [done|].
       split; [done|]. by eapply constructor_bad_count. }
  right. split; [done|].
  destruct (constructor_built w opts rect0 t0 arr Hguard Hrect Hcount)
    as (p & outcome & plot' & tp & H).
  exists rect0, t0, p, outcome, plot', tp.
  destruct H as (H1 & H2 & H3). split; [done|]. split; [done|]. split; [done|].
  exact H3.
Qed.

Lemma newArrayFill_Ok_range {A} (n : Z) (v : A) :
  0 ≤ n < 2 ^ 32 → ∃ arr, newArrayFill n v = Ok arr.
Proof.
  intros Hn. unfold newArrayFill.
  destruct (n <? 0) eqn:H1; [lia|]. destruct (2 ^ 32 <=? n) eqn:H2; [lia|].
  by eexists.
Qed.

(** The constructor when the set-up of the plot fails. *)
Lemma constructor_plot_failure (w : World)
    (opts : @TIFFImageryProviderOptions Num) (rect0 : Rectangle)
    (e : JsError) plot' tp :
  let ro0 := default emptyRenderOptions (opt_renderOptions opts) in
  let samples := getSamplesPerPixel (opt_image opts) in
  let ro := defaultRenderOptions samples ro0 in
  let noData0 := match nodata ro0 with
                 | Some n => Some n
                 | None => getGDALNoData (opt_image opts)
                 end in
  let run := constructor w opts tt in
  (samples <? 3) && truthyFlag (convertToRGB ro0) = false →
  (resolveRectangle w opts tt).1.1 = Ok rect0 →
  0 ≤ opt_imageCount opts < 2 ^ 32 →
  initPlot w (single ro) (opt_bands opts) noData0 None = (Throw e, plot', tp) →
  ∃ p, run.1.1 = Ok p ∧ ready p = true ∧ plot p = plot'
       ∧ raisedEvents run.2 = [e] ∧ ConsoleError e ∈ run.2
       ∧ last run.2 = Some (SetReady true).
Proof.
  intros ro0 samples ro noData0 run Hguard Hrect Hcount Hplot.
  pose proof (resolveRectangle_trace w opts) as Hquiet.
  destruct (resolveRectangle w opts tt) as [[res []] t0] eqn:Hrun0.
  simpl in Hrect, Hquiet. subst res.
  apply quiet_trace in Hquiet as (Hev0 & _ & _).
  destruct (newArrayFill_Ok_range (opt_imageCount opts) tt Hcount) as [arr Harr].
  destruct (constructor_built w opts rect0 t0 arr Hguard Hrun0 Harr)
    as (p & outcome & plot'' & tp' & Hplot' & Hrun & Hready & Hp & _).
  fold ro0 samples ro noData0 in Hplot'. rewrite Hplot in Hplot'.
  injection Hplot' as <- <- <-.
  pose proof (initPlot_trace w (single ro) (opt_bands opts) noData0 None) as Hq.
  rewrite Hplot in Hq. apply quiet_trace in Hq as (Hevp & _ & _).
  simpl in Hevp.
  exists p. subst run. rewrite Hrun. cbn [fst snd].
  split; [done|]. split; [done|]. split; [done|]. split; [|split].
  - rewrite !raisedEvents_app, Hev0, Hevp. done.
  - apply elem_of_app. right. apply elem_of_app. right.
    apply elem_of_app. left. apply elem_of_app. right. by left.
  - rewrite !app_assoc. by rewrite last_snoc.
Qed.

(** Past the guard, the extent and the image array the constructor always
    returns a provider. *)
Lemma constructor_completes (w : World)
    (opts : @TIFFImageryProviderOptions Num) (rect0 : Rectangle) :
  (getSamplesPerPixel (opt_image opts) <? 3)
  && truthyFlag (convertToRGB
       (default emptyRenderOptions (opt_renderOptions opts))) = false →
  (resolveRectangle w opts tt).1.1 = Ok rect0 →
  0 ≤ opt_imageCount opts < 2 ^ 32 →
  ∃ p tc, constructor w opts tt = (Ok p, tt, tc).
Proof.
  intros Hguard Hrect Hcount.
  destruct (resolveRectangle w opts tt) as [[res []] t0] eqn:Hrun0.
  simpl in Hrect. subst res.
  destruct (newArrayFill_Ok_range (opt_imageCount opts) tt Hcount) as [arr Harr].
  destruct (constructor_built w opts rect0 t0 arr Hguard Hrun0 Harr)
    as (p & outcome & plot' & tp & _ & Hrun & _).
  by eexists p, _.
Qed.

(** C4, as the code has it: a failure of the RGB guard, of the spatial
    extent or of the image array aborts the constructor before [ready] is
    ever set to [true] and without an error event.  A failure while the
    single band plot is set up does not: whenever the constructor gets as far
    as the plot and the set-up throws, the error is caught, logged and raised
    once on the error channel, and the constructor completes with
    [ready = true].  So it is for a band that cannot be resolved: the
    provider is created, ready and without a plot, and "Invalid band" is
    raised. *)
Theorem constructor_failures (w : World) (opts : @TIFFImageryProviderOptions Num) :
  let run := constructor w opts tt in
  let ro0 := default emptyRenderOptions (opt_renderOptions opts) in
  let samples := getSamplesPerPixel (opt_image opts) in
  let ro := defaultRenderOptions samples ro0 in
  let noData0 := match nodata ro0 with
                 | Some n => Some n
                 | None => getGDALNoData (opt_image opts)
                 end in
  (∀ e, run.1.1 = Throw e → (SetReady true ∉ run.2) ∧ raisedEvents run.2 = [])
  ∧ (∀ p, run.1.1 = Ok p →
       ready p = true ∧ last run.2 = Some (SetReady true)
       ∧ ∀ e plot' tp,
           initPlot w (single (renderOptions p)) (bands p) (noData p) None
           = (Throw e, plot', tp) →
           plot p = plot' ∧ raisedEvents run.2 = [e])
  ∧ (∀ rect0 e plot' tp,
       (samples <? 3) && truthyFlag (convertToRGB ro0) = false →
       (resolveRectangle w opts tt).1.1 = Ok rect0 →
       0 ≤ opt_imageCount opts < 2 ^ 32 →
       initPlot w (single ro) (opt_bands opts) noData0 None
       = (Throw e, plot', tp) →
       ∃ p, run.1.1 = Ok p ∧ ready p = true ∧ plot p = plot'
            ∧ raisedEvents run.2 = [e] ∧ ConsoleError e ∈ run.2
            ∧ last run.2 = Some (SetReady true))
  ∧ (∀ rect0 s,
       (samples <? 3) && truthyFlag (convertToRGB ro0) = false →
       (resolveRectangle w opts tt).1.1 = Ok rect0 →
       0 ≤ opt_imageCount opts < 2 ^ 32 →
       single ro = Some s →
       truthyOptString (expression s) = false →
       opt_bands opts !! default 1 (band s) = None →
       let e := DeveloperError ("Invalid band" +:+ pretty (default 1 (band s))) in
       ∃ p, run.1.1 = Ok p ∧ ready p = true ∧ plot p = None
            ∧ raisedEvents run.2 = [e] ∧ ConsoleError e ∈ run.2).
Proof.
  intros run ro0 samples ro noData0.
  split; [|split; [|split]].
  - subst run. pose proof (resolveRectangle_trace w opts) as Hquiet.
    destruct (constructor_cases w opts)
      as [[_ Hrun] | [(_ & e0 & t0 & Hrect & Hrun)
         | [(_ & rect0 & e0 & t0 & Hrect & _ & Hrun)
         | (_ & rect0 & t0 & p0 & outcome & plot' & tp & Hrect & Hplot & Hrun
            & _)]]];
      rewrite Hrun; cbn [fst snd]; [| | |done].
    + intros e _. split; [|done].
      intros H. apply elem_of_cons in H as [H|H]; [done | by apply elem_of_nil in H].
    + rewrite Hrect in Hquiet. apply quiet_trace in Hquiet as (Hev & _ & Hset).
      intros e _. split; [|done].
      intros H. apply elem_of_cons in H as [H|H]; [done | by eapply Hset].
    + rewrite Hrect in Hquiet. apply quiet_trace in Hquiet as (Hev & _ & Hset).
      intros e _. split; [|done].
      intros H. apply elem_of_cons in H as [H|H]; [done | by eapply Hset].
  - subst run. pose proof (resolveRectangle_trace w opts) as Hquiet.
    destruct (constructor_cases w opts)
      as [[_ Hrun] | [(_ & e0 & t0 & Hrect & Hrun)
         | [(_ & rect0 & e0 & t0 & Hrect & _ & Hrun)
         | (_ & rect0 & t0 & p0 & outcome & plot' & tp & Hrect & Hplot & Hrun
            & Hready & Hp & _ & Hro & Hbands & HnoData & _)]]];
      rewrite Hrun; cbn [fst snd]; [done|done|done|].
    rewrite Hrect in Hquiet. apply quiet_trace in Hquiet as (Hev & _ & _).
    intros p [= <-]. split; [done|]. split.
    + rewrite !app_assoc. by rewrite last_snoc.
    + intros e plot'' tp'. rewrite Hro, Hbands, HnoData, Hplot.
      intros [= -> -> ->]. split; [done|].
      pose proof (initPlot_trace w
        (single (defaultRenderOptions (getSamplesPerPixel (opt_image opts))
                   (default emptyRenderOptions (opt_renderOptions opts))))
        (opt_bands opts) (noData p0) None) as Hq.
      rewrite HnoData, Hplot in Hq. apply quiet_trace in Hq as (Hev' & _ & _).
      rewrite !raisedEvents_app. simpl in Hev, Hev'. rewrite Hev, Hev'. done.
  - intros rect0 e plot' tp. apply constructor_plot_failure.
  - intros rect0 s Hguard Hrect Hcount Hs Hexpr Hnone e.
    destruct (constructor_plot_failure w opts rect0 e None [] Hguard Hrect Hcount)
      as (p & Hok & Hready & Hplot & Hev & Hlog & _).
    { fold ro0 samples ro. rewrite Hs. unfold initPlot.
      rewrite Hexpr, Hnone. reflexivity. }
    by exists p.
Qed.

(** The guard is the only place where the number of samples is compared
    with 3, and it looks at the flag as the caller supplied it. *)
Lemma constructor_rgb_guard (w : World) (opts : @TIFFImageryProviderOptions Num) :
  getSamplesPerPixel (opt_image opts) < 3 →
  convertToRGB (default emptyRenderOptions (opt_renderOptions opts)) = Some true →
  constructor w opts tt
  = (Throw (DeveloperError
       "Can not render the image as RGB, please check the convertToRGB parameter"),
     tt, [SetReady false]).
Proof.
  intros Hsamples Hflag. apply constructor_guard. rewrite Hflag. simpl.
  rewrite andb_true_r. lia.
Qed.



(** C5: with fewer than three samples per pixel and [convertToRGB] set,
    the constructor throws its [DeveloperError] as its first step; on the
    path through [fromGeoTIFF] creation fails as well, and neither the band
    statistics resolver nor anything else has issued a windowed read. *)
Theorem convertToRGB_needs_three_samples (w : World) :
  (∀ opts : @TIFFImageryProviderOptions Num,
     getSamplesPerPixel (opt_image opts) < 3 →
     convertToRGB (default emptyRenderOptions (opt_renderOptions opts))
     = Some true →
     constructor w opts tt
     = (Throw (DeveloperError
          "Can not render the image as RGB, please check the convertToRGB parameter"),
        tt, [SetReady false]))
  ∧ (∀ ro image,
       getImage w None = Ok image →
       getSamplesPerPixel image < 3 →
       convertToRGB ro = Some true →
       let run := fromGeoTIFF numOfZ toNumber isNaN findAndSortBandNumbers
                    getMinMax w ro tt in
       (∃ e, run.1.1 = Throw (Error
               ("Error creating ImageryProvider from GeoTIFF: " +:+ message e)))
       ∧ decodeCalls run.2 = 0%nat
       ∧ (SetReady true ∉ run.2)
       ∧ (∀ imageCount levels readSamples,
            getImageCount w = Ok imageCount →
            getCogLevels (getImage w) imageCount
              (orElseZ (Some (getTileWidth image)) 512) = Ok levels →
            getReadSamples findAndSortBandNumbers ro = Ok readSamples →
            run.1.1 = Throw (Error
              ("Error creating ImageryProvider from GeoTIFF: "
               +:+ "Can not render the image as RGB, please check the convertToRGB parameter")))).
Proof.
  split; [intros opts; apply constructor_rgb_guard|].
  intros ro image Himage Hsamples Hflag run. subst run.
  unfold fromGeoTIFF. unfold tryCatch, mbind, M_bind, call, liftRes, throw.
  rewrite Himage.
  assert (SetReady true ∉ [@CallGetImage Num None]) as Hnot1.
  { intros H. apply elem_of_cons in H as [H|H]; [done|].
    by apply elem_of_nil in H. }
  destruct (getImageCount w) as [imageCount|e1] eqn:Hcount; simpl.
  2: { split; [eauto|]. split; [done|]. split; [done|]. congruence. }
  destruct (getCogLevels _ _ _) as [levels|e2] eqn:Hlevels; simpl in *.
  2: { split; [eauto|]. split; [done|]. split; [done|].
       intros ? ? ? [= <-]. congruence. }
  destruct (getReadSamples _ ro) as [readSamples|e3] eqn:Hread; simpl.
  2: { split; [eauto|]. split; [done|]. split; [done|].
       intros ? ? ? [= <-]. congruence. }
  destruct (getBandValues_convertToRGB w ro readSamples image levels ∅)
    as [bands Hbands]; [by rewrite Hflag|].
  unfold withLocal. rewrite Hbands. simpl.
  rewrite constructor_rgb_guard by done. simpl.
  split; [by eexists (DeveloperError _)|]. split; [done|]. split; [|done].
  intros H. repeat (apply elem_of_cons in H as [H|H]; [done|]).
  by apply elem_of_nil in H.
Qed.

(** ** Provider operations: what they leave alone *)

Lemma mutatedOnly_refl (a : Provider) : mutatedOnly a a.
Proof. by destruct a. Qed.

Lemma mutatedOnly_trans (a b c : Provider) :
  mutatedOnly a b → mutatedOnly b c → mutatedOnly a c.
Proof.
  unfold mutatedOnly. intros Hab Hbc. rewrite Hbc. rewrite Hab at 1.
  by destruct a.
Qed.

Lemma mutatedOnly_fields (a b : Provider) :
  mutatedOnly a b →
  ready b = ready a ∧ minimumLevel b = minimumLevel a
  ∧ maximumLevel b = maximumLevel a ∧ _cacheTime b = _cacheTime a
  ∧ renderOptions b = renderOptions a ∧ cogLevels b = cogLevels a
  ∧ rectangle b = rectangle a ∧ options b = options a.
Proof. intros ->. by destruct a. Qed.

Section Settings.
Context {A B : Type}.
Implicit Types (m : @M Num Provider A).

Lemma keepsSettings_ret (a : A) : keepsSettings (mret a : M Provider A).
Proof. intros this. apply mutatedOnly_refl. Qed.

Lemma keepsSettings_throw (e : JsError) : keepsSettings (throw e : M Provider A).
Proof. intros this. apply mutatedOnly_refl. Qed.

Lemma keepsSettings_call (ef : Effect) (outcome : Res A) :
  keepsSettings (call ef outcome : M Provider A).
Proof. intros this. apply mutatedOnly_refl. Qed.

Lemma keepsSettings_bind m (f : A → @M Num Provider B) :
  keepsSettings m → (∀ a, keepsSettings (f a)) → keepsSettings (m ≫= f).
Proof.
  intros Hm Hf this. specialize (Hm this). unfold mbind, M_bind.
  destruct (m this) as [[[a|e] s1] t1]; simpl in *; [|done].
  specialize (Hf a s1). destruct (f a s1) as [[res s2] t2]; simpl in *.
  by eapply mutatedOnly_trans.
Qed.

Lemma keepsSettings_tryCatch m (handler : JsError → @M Num Provider A) :
  keepsSettings m → (∀ e, keepsSettings (handler e)) →
  keepsSettings (tryCatch m handler).
Proof.
  intros Hm Hh this. specialize (Hm this). unfold tryCatch.
  destruct (m this) as [[[a|e] s1] t1]; simpl in *; [done|].
  specialize (Hh e s1). destruct (handler e s1) as [[res s2] t2]; simpl in *.
  by eapply mutatedOnly_trans.
Qed.
End Settings.

Lemma keepsSettings_get : keepsSettings (get : @M Num Provider _).
Proof. intros this. apply mutatedOnly_refl. Qed.

Lemma keepsSettings_emit (ef : Effect) : keepsSettings (emit ef : @M Num Provider _).
Proof. intros this. apply mutatedOnly_refl. Qed.

Lemma keepsSettings_when (c : bool) (m : @M Num Provider unit) :
  keepsSettings m → keepsSettings (when c m).
Proof. destruct c; [done|]. intros _. apply keepsSettings_ret. Qed.

Lemma keepsSettings_withImages (v : Provider → _) :
  keepsSettings (modify (λ this : Provider, withImages this (v this))).
Proof. intros this. by destruct this. Qed.

Lemma keepsSettings_withImagesCache (v : Provider → _) :
  keepsSettings (modify (λ this : Provider, withImagesCache this (v this))).
Proof. intros this. by destruct this. Qed.

Lemma keepsSettings_withDestroyed (v : Provider → _) :
  keepsSettings (modify (λ this : Provider, withDestroyed this (v this))).
Proof. intros this. by destruct this. Qed.

Ltac settings_step :=
  first
    [ apply keepsSettings_ret | apply keepsSettings_throw
    | apply keepsSettings_get | apply keepsSettings_emit
    | apply keepsSettings_call | apply keepsSettings_when
    | apply (keepsSettings_withImages (λ _, _))
    | apply (keepsSettings_withImagesCache (λ _, _))
    | apply (keepsSettings_withDestroyed (λ _, _))
    | apply keepsSettings_bind; [|intros ?]
    | apply keepsSettings_tryCatch; [|intros ?]
    | case_match ].

Lemma destroy_keepsSettings : keepsSettings (destroy : @M Num Provider _).
Proof. unfold destroy. repeat settings_step. Qed.

Lemma fetchImage_keepsSettings (w : World) index :
  keepsSettings (fetchImage w index).
Proof. unfold fetchImage. repeat settings_step. Qed.

Lemma _loadTile_keepsSettings (w : World) (x y z : Z) :
  keepsSettings (_loadTile w x y z).
Proof.
  unfold _loadTile, readPixels.
  repeat first [apply destroy_keepsSettings | apply fetchImage_keepsSettings
               | settings_step].
Qed.

Lemma composite_state (w : World) (tile : TileData) (this : Provider) :
  (composite numOfZ w tile this).1.2 = this.
Proof.
  unfold composite. munfold. repeat case_match; simplify_eq; done.
Qed.

Lemma composite_trace (w : World) (tile : TileData) (this : Provider) :
  Forall (λ ef, isQuiet ef = true) (composite numOfZ w tile this).2.
Proof.
  unfold composite. munfold.
  repeat case_match; simplify_eq; simpl; by repeat constructor.
Qed.

Lemma composite_keepsSettings (w : World) (tile : TileData) :
  keepsSettings (composite numOfZ w tile).
Proof. intros this. rewrite composite_state. apply mutatedOnly_refl. Qed.

Lemma renderTile_keepsSettings (w : World) (x y z : Z) :
  keepsSettings (renderTile numOfZ w x y z).
Proof.
  unfold renderTile.
  repeat first [apply _loadTile_keepsSettings | apply composite_keepsSettings
               | settings_step].
Qed.

Lemma requestImage_keepsSettings (w : World) (x y z : Z) :
  keepsSettings (requestImage numOfZ w x y z).
Proof.
  unfold requestImage.
  repeat first [apply renderTile_keepsSettings | settings_step].
Qed.

Lemma pickFeatures_keepsSettings (w : World) (x y zoom : Z) (lon lat : double) :
  keepsSettings (pickFeatures doubleOf w x y zoom lon lat).
Proof.
  unfold pickFeatures, readPixels.
  repeat first [apply fetchImage_keepsSettings | settings_step].
Qed.

(** ** Tiles *)

Lemma readEffect_counts (this : Provider) image options :
  decodeCalls [readEffect this image options] = 1%nat
  ∧ raisedEvents [readEffect this image options] = [].
Proof. unfold readEffect. by destruct (truthyFlag _). Qed.

Lemma readEffect_cons (this : Provider) image options (t : list Effect) :
  decodeCalls (readEffect this image options :: t) = S (decodeCalls t)
  ∧ raisedEvents (readEffect this image options :: t) = raisedEvents t.
Proof. unfold readEffect. by destruct (truthyFlag _). Qed.

Lemma fetchImage_shape (w : World) index (this : Provider) :
  ∃ v, (fetchImage w index this).1.2 = withImages this v
       ∧ Forall (λ ef, isQuiet ef = true) (fetchImage w index this).2.
Proof.
  unfold fetchImage. munfold.
  destruct (_images this) as [images|] eqn:Himages; simpl.
  - destruct (images !! index) as [image|]; simpl.
    + exists (_images this). split; [by destruct this | constructor].
    + destruct (getImage w index) as [image|e]; simpl.
      * eexists. split; [reflexivity | by repeat constructor].
      * exists (_images this). split; [by destruct this | by repeat constructor].
  - exists (_images this). split; [by destruct this | constructor].
Qed.

Lemma fetchImage_available (w : World) index (this : Provider) image :
  imageAvailable w this index image →
  (fetchImage w index this).1.1 = Ok image.
Proof.
  intros (images & Himages & Hcase). unfold fetchImage. munfold.
  rewrite Himages. simpl.
  destruct Hcase as [-> | [-> ->]]; done.
Qed.

Lemma destroy_run (this : Provider) :
  ∃ t, destroy this
       = (Ok tt,
          withDestroyed (withImagesCache (withImages this None) None) true, t)
       ∧ Forall (λ ef : @Effect Num, isQuiet ef = true) t.
Proof.
  unfold destroy. munfold. simpl.
  destruct (bool_decide (is_Some (plot this))); simpl;
    (eexists; split; [reflexivity | by repeat constructor]).
Qed.

(** A tile that loads has cost exactly one windowed read and raised no
    event; and unless a [destroy] arrived, the tile cache is as it was. *)
Lemma _loadTile_ok (w : World) (x y z : Z) (this s1 : Provider) tile t :
  _loadTile w x y z this = (Ok tile, s1, t) →
  decodeCalls t = 1%nat ∧ raisedEvents t = []
  ∧ (_destroyed s1 = false → _imagesCache s1 = _imagesCache this).
Proof.
  unfold _loadTile, readPixels. unfold mbind at 1, M_bind at 1, get.
  unfold mbind at 1, M_bind at 1.
  destruct (fetchImage_shape w (lookupZ (cogLevels this) z) this)
    as (v & Hstate & Hquiet).
  destruct (fetchImage w _ this) as [[[image|e] s0] t0]; simpl in *; [|done].
  subst s0. apply quiet_trace in Hquiet as (Hev0 & Hdec0 & _).
  unfold tryCatch, mbind, M_bind, when, call, mret, M_ret, emit, throw.
  destruct (destroyedWhileLoading w).
  - destruct (destroy_run (withImages this v)) as (td & -> & Hq).
    apply quiet_trace in Hq as (Hevd & Hdecd & _).
    destruct (readOutcome w this image _) as [res|e]; simpl; [|done].
    intros [= <- <- <-].
    pose proof (readEffect_counts this image (tileReadOptions this image x y z))
      as [Hd He].
    rewrite !decodeCalls_app, !raisedEvents_app, Hdec0, Hev0, Hdecd, Hevd.
    rewrite Hd, He. by destruct this.
  - destruct (readOutcome w this image _) as [res|e]; simpl; [|done].
    intros [= <- <- <-].
    pose proof (readEffect_counts this image (tileReadOptions this image x y z))
      as [Hd He].
    rewrite !decodeCalls_app, !raisedEvents_app, Hdec0, Hev0.
    rewrite Hd, He. by destruct this.
Qed.

(** A tile whose windowed read fails: the error is raised on the error
    channel by [_loadTile] and thrown on. *)
Lemma _loadTile_decode_fails (w : World) (x y z : Z) (this : Provider)
    image e :
  imageAvailable w this (lookupZ (cogLevels this) z) image →
  readOutcome w this image (tileReadOptions this image x y z) = Throw e →
  ∃ s1 t, _loadTile w x y z this = (Throw e, s1, t)
          ∧ raisedEvents t = [e] ∧ decodeCalls t = 1%nat.
Proof.
  intros Hav Hfail.
  unfold _loadTile, readPixels. unfold mbind at 1, M_bind at 1, get.
  unfold mbind at 1, M_bind at 1.
  pose proof (fetchImage_available _ _ _ _ Hav) as Hok.
  destruct (fetchImage_shape w (lookupZ (cogLevels this) z) this)
    as (v & Hstate & Hquiet).
  destruct (fetchImage w _ this) as [[res s0] t0]; simpl in *. subst res s0.
  apply quiet_trace in Hquiet as (Hev0 & Hdec0 & _).
  unfold tryCatch, mbind, M_bind, when, call, mret, M_ret, emit, throw.
  pose proof (readEffect_counts this image (tileReadOptions this image x y z))
    as [Hd He].
  destruct (destroyedWhileLoading w).
  - destruct (destroy_run (withImages this v)) as (td & -> & Hq).
    apply quiet_trace in Hq as (Hevd & Hdecd & _).
    rewrite Hfail. simpl. eexists _, _. split; [reflexivity|].
    rewrite !decodeCalls_app, !raisedEvents_app, Hdec0, Hev0, Hdecd, Hevd.
    rewrite Hd, He. done.
  - rewrite Hfail. simpl. eexists _, _. split; [reflexivity|].
    pose proof (readEffect_cons this image (tileReadOptions this image x y z)
                  [RaiseEvent e]) as [Hd' He'].
    rewrite !decodeCalls_app, !raisedEvents_app, Hdec0, Hev0.
    rewrite Hd', He'. done.
Qed.

Lemma requestImage_outside (w : World) (this : Provider) (x y z : Z) :
  ready this = true →
  z < minimumLevel this ∨ maximumLevel this < z →
  requestImage numOfZ w x y z this = (Ok None, this, []).
Proof.
  intros Hready Hz. unfold requestImage. munfold. rewrite Hready. simpl.
  replace ((z <? minimumLevel this) || (maximumLevel this <? z)) with true; [done|].
  symmetry. apply orb_true_iff. destruct Hz; [left|right]; lia.
Qed.

(** C6: on a ready provider a request for a zoom below [minimumLevel] or
    above [maximumLevel] returns [undefined] without throwing; it leaves the
    provider as it was and calls no collaborator, so no decode call is
    issued. *)
Theorem requestImage_out_of_range (w : World) (this : Provider) (x y z : Z) :
  ready this = true →
  z < minimumLevel this ∨ maximumLevel this < z →
  let run := requestImage numOfZ w x y z this in
  run = (Ok None, this, []) ∧ decodeCalls run.2 = 0%nat.
Proof.
  intros Hready Hz run. subst run.
  rewrite requestImage_outside by done. done.
Qed.
Lemma requestImage_miss (w : World) (this : Provider) (x y z : Z) :
  ready this = true →
  minimumLevel this ≤ z ≤ maximumLevel this →
  cacheMiss this (cacheKey x y z) →
  requestImage numOfZ w x y z this
  = tryCatch (renderTile numOfZ w x y z)
      (λ e, emit (ConsoleError e);; emit (RaiseEvent e);; throw e) this.
Proof.
  intros Hready Hz Hmiss.
  assert ((z <? minimumLevel this) || (maximumLevel this <? z) = false) as Hin
    by (apply orb_false_iff; lia).
  unfold requestImage, mbind, M_bind, get, mret, M_ret.
  rewrite Hready, Hin. cbn [negb].
  destruct Hmiss as [-> | (cache & -> & Hnone)].
  - by destruct (tryCatch _ _ this) as [[res s1] t1].
  - destruct (truthyZ (_cacheTime this)); rewrite ?Hnone;
      by destruct (tryCatch _ _ this) as [[res s1] t1].
Qed.

Lemma requestImage_hit (w : World) (this : Provider) (x y z : Z) cache entry :
  ready this = true →
  minimumLevel this ≤ z ≤ maximumLevel this →
  _cacheTime this ≠ 0 →
  _imagesCache this = Some cache →
  cache !! cacheKey x y z = Some entry →
  requestImage numOfZ w x y z this = (Ok (Some (data entry)), this, []).
Proof.
  intros Hready Hz HT Hcache Hentry.
  assert ((z <? minimumLevel this) || (maximumLevel this <? z) = false) as Hin
    by (apply orb_false_iff; lia).
  assert (truthyZ (_cacheTime this) = true) as Henabled
    by (unfold truthyZ; apply negb_true_iff, Z.eqb_neq; lia).
  unfold requestImage, mbind, M_bind, get, mret, M_ret.
  rewrite Hready, Hin, Henabled, Hcache, Hentry. reflexivity.
Qed.

Lemma sweep_lookup (now T : Z) (cache : gmap string (@CacheEntry ImageryTypes))
    (key : string) (entry : CacheEntry) :
  sweep now T cache !! key = Some entry
  ↔ cache !! key = Some entry ∧ now - time entry ≤ T.
Proof.
  unfold sweep. rewrite map_lookup_filter_Some. simpl. split.
  - intros [H1 H2]. split; [done | lia].
  - intros [H1 H2]. split; [done | lia].
Qed.

(** What a rendered tile has cost and what it leaves in the cache. *)
Lemma renderTile_ok (w : World) (x y z : Z) (this s2 : Provider) image t :
  renderTile numOfZ w x y z this = (Ok (Some image), s2, t) →
  decodeCalls t = 1%nat
  ∧ (truthyZ (_cacheTime this) = true →
     ∃ cache, _imagesCache this = Some cache
       ∧ _imagesCache s2
         = Some (sweep (now w) (_cacheTime this)
                   (<[cacheKey x y z := {| time := now w; data := image |}]>
                      cache))).
Proof.
  unfold renderTile. unfold mbind at 1, M_bind at 1.
  pose proof (_loadTile_keepsSettings w x y z this) as Hkeep.
  destruct (_loadTile w x y z this) as [[[tile|e] s1] t1] eqn:Hload; [|done].
  apply _loadTile_ok in Hload as (Hdec & _ & Hcache).
  apply mutatedOnly_fields in Hkeep as (_ & _ & _ & HT & _). simpl in HT.
  unfold mbind at 1, M_bind at 1, get.
  destruct (_destroyed s1) eqn:Hd; [done|]. specialize (Hcache eq_refl).
  unfold mbind at 1, M_bind at 1.
  pose proof (composite_state w tile s1) as Hst.
  pose proof (composite_trace w tile s1) as Hq.
  destruct (composite numOfZ w tile s1) as [[[result|e] s1'] tc];
    simpl in Hst, Hq; [|done]. subst s1'.
  apply quiet_trace in Hq as (_ & Hdecc & _).
  destruct result as [image'|].
  - rewrite HT. destruct (truthyZ (_cacheTime this)) eqn:Henabled.
    + simpl when. rewrite Hcache.
      destruct (_imagesCache this) as [cache|]; [|done].
      munfold. simpl. intros [= <- <- <-].
      rewrite !decodeCalls_app, Hdec, Hdecc. split; [done|].
      intros _. exists cache. simpl. by rewrite HT.
    + munfold. simpl. intros [= <- <- <-].
      rewrite !decodeCalls_app, Hdec, Hdecc. done.
  - munfold. simpl. done.
Qed.

(** C1, as the code has it.  With caching enabled a request whose key is in
    the cache is answered from the cache, without a decode call and without
    looking at the age of the entry; so a request that returned a tile is
    answered with the same tile, and no decode call, when it is repeated at
    any later time.  A request that misses costs one decode call and leaves
    the cache swept: the new entry is stored with the current time, and of
    the entries that were there exactly those not older than the cache time
    remain.  An expired entry therefore goes away, and its tile is decoded
    afresh, only once another tile has been rendered after it expired. *)
Theorem requestImage_cache :
  (∀ (w : World) (this : Provider) x y z cache entry,
     ready this = true → minimumLevel this ≤ z ≤ maximumLevel this →
     0 < _cacheTime this →
     _imagesCache this = Some cache →
     cache !! cacheKey x y z = Some entry →
     requestImage numOfZ w x y z this = (Ok (Some (data entry)), this, []))
  ∧ (∀ (w1 w2 : World) (this this1 : Provider) x y z image t1,
       ready this = true → 0 < _cacheTime this →
       requestImage numOfZ w1 x y z this = (Ok (Some image), this1, t1) →
       requestImage numOfZ w2 x y z this1 = (Ok (Some image), this1, []))
  ∧ (∀ (w : World) (this this1 : Provider) x y z cache image t1,
       ready this = true → 0 < _cacheTime this →
       _imagesCache this = Some cache →
       cache !! cacheKey x y z = None →
       requestImage numOfZ w x y z this = (Ok (Some image), this1, t1) →
       decodeCalls t1 = 1%nat
       ∧ ∃ cache1, _imagesCache this1 = Some cache1
           ∧ cache1 !! cacheKey x y z
             = Some {| time := now w; data := image |}
           ∧ ∀ key entry, key ≠ cacheKey x y z →
               (cache1 !! key = Some entry
                ↔ cache !! key = Some entry
                  ∧ now w - time entry ≤ _cacheTime this)).
Proof.
  assert (∀ (w : World) (this this1 : Provider) x y z image t1,
    ready this = true → 0 < _cacheTime this →
    requestImage numOfZ w x y z this = (Ok (Some image), this1, t1) →
    minimumLevel this ≤ z ≤ maximumLevel this
    ∧ ((∃ cache entry, _imagesCache this = Some cache
          ∧ cache !! cacheKey x y z = Some entry
          ∧ data entry = image ∧ this1 = this ∧ t1 = [])
       ∨ (∃ cache, _imagesCache this = Some cache
            ∧ cache !! cacheKey x y z = None
            ∧ renderTile numOfZ w x y z this = (Ok (Some image), this1, t1))))
    as Hcases.
  { intros w this this1 x y z image t1 Hready HT.
    assert (truthyZ (_cacheTime this) = true) as Henabled.
    { unfold truthyZ. apply negb_true_iff, Z.eqb_neq. lia. }
    destruct (decide (minimumLevel this ≤ z ≤ maximumLevel this)) as [Hz|Hz].
    2: { rewrite requestImage_outside by (done || lia). done. }
    destruct (_imagesCache this) as [cache|] eqn:Hcache.
    2: { unfold requestImage. unfold mbind at 1, M_bind at 1, get.
         rewrite Hready. simpl negb. cbv iota.
         replace ((z <? minimumLevel this) || (maximumLevel this <? z))
           with false by (symmetry; apply orb_false_iff; lia).
         unfold mbind at 1, M_bind at 1. rewrite Henabled, Hcache. done. }
    destruct (cache !! cacheKey x y z) as [entry|] eqn:Hentry.
    - rewrite (requestImage_hit w this x y z cache entry) by (done || lia).
      intros [= <- <- <-]. split; [done|]. left. by exists cache, entry.
    - rewrite requestImage_miss by (done || right; eauto).
      unfold tryCatch.
      destruct (renderTile numOfZ w x y z this) as [[[res|e] s1] tr] eqn:Hrender.
      + intros [= -> <- <-]. split; [done|]. right. by exists cache.
      + munfold. simpl. done. }
  split; [|split].
  - intros. eapply requestImage_hit; eauto. lia.
  - intros w1 w2 this this1 x y z image t1 Hready HT Hrun.
    pose proof (requestImage_keepsSettings w1 x y z this) as Hkeep.
    rewrite Hrun in Hkeep. simpl in Hkeep.
    apply mutatedOnly_fields in Hkeep as (Hr & Hmin & Hmax & HT1 & _).
    destruct (Hcases _ _ _ _ _ _ _ _ Hready HT Hrun)
      as [Hz [(cache & entry & Hcache & Hentry & <- & -> & ->)
             | (cache & Hcache & Hnone & Hrender)]].
    + apply (requestImage_hit w2 this x y z cache entry); (done || lia).
    + apply renderTile_ok in Hrender as [_ Hstore].
      destruct Hstore as (cache' & Hcache' & Hcache1).
      { unfold truthyZ. apply negb_true_iff, Z.eqb_neq. lia. }
      eapply (requestImage_hit w2 this1 x y z _
                {| time := now w1; data := image |});
        [congruence | lia | lia | exact Hcache1 |].
      apply sweep_lookup. rewrite lookup_insert_eq. simpl. split; [done | lia].
  - intros w this this1 x y z cache image t1 Hready HT Hcache Hnone Hrun.
    destruct (Hcases _ _ _ _ _ _ _ _ Hready HT Hrun)
      as [Hz [(cache' & entry & Hcache' & Hentry & _)
             | (cache' & Hcache' & _ & Hrender)]].
    + congruence.
    + apply renderTile_ok in Hrender as [Hdec Hstore]. split; [done|].
      destruct Hstore as (cache'' & Hcache'' & Hcache1).
      { unfold truthyZ. apply negb_true_iff, Z.eqb_neq. lia. }
      assert (cache'' = cache) as -> by congruence.
      eexists. split; [exact Hcache1|]. split.
      * apply sweep_lookup. rewrite lookup_insert_eq. simpl. split; [done | lia].
      * intros key entry Hkey. rewrite sweep_lookup.
        by rewrite lookup_insert_ne.
Qed.

(** C3 on the code: when the windowed read of a tile fails, the error is
    thrown on to the caller after one read and no retry, but it is raised on
    the error channel twice, once by [_loadTile] and once by [requestImage];
    a failure of the compositing step is raised once. *)
Theorem requestImage_failure_reports :
  (∀ (w : World) (this : Provider) x y z image e,
     ready this = true → minimumLevel this ≤ z ≤ maximumLevel this →
     cacheMiss this (cacheKey x y z) →
     imageAvailable w this (lookupZ (cogLevels this) z) image →
     readOutcome w this image (tileReadOptions this image x y z) = Throw e →
     let run := requestImage numOfZ w x y z this in
     run.1.1 = Throw e ∧ raisedEvents run.2 = [e; e]
     ∧ decodeCalls run.2 = 1%nat)
  ∧ (∀ (w : World) (this s1 : Provider) x y z tile t1 e,
       ready this = true → minimumLevel this ≤ z ≤ maximumLevel this →
       cacheMiss this (cacheKey x y z) →
       _loadTile w x y z this = (Ok tile, s1, t1) →
       _destroyed s1 = false →
       (composite numOfZ w tile s1).1.1 = Throw e →
       let run := requestImage numOfZ w x y z this in
       run.1.1 = Throw e ∧ raisedEvents run.2 = [e]
       ∧ decodeCalls run.2 = 1%nat).
Proof.
  split.
  - intros w this x y z image e Hready Hz Hmiss Hav Hfail run.
    destruct (_loadTile_decode_fails w x y z this image e Hav Hfail)
      as (s1 & t & Hload & Hev & Hdec).
    assert (requestImage numOfZ w x y z this
            = (Throw e, s1, t ++ [ConsoleError e; RaiseEvent e])) as Hrun.
    { rewrite requestImage_miss by done.
      unfold tryCatch, renderTile. unfold mbind at 1, M_bind at 1.
      rewrite Hload. reflexivity. }
    subst run. rewrite Hrun. simpl.
    rewrite raisedEvents_app, decodeCalls_app, Hev, Hdec. done.
  - intros w this s1 x y z tile t1 e Hready Hz Hmiss Hload Hd Hfail run.
    pose proof (composite_trace w tile s1) as Hq.
    pose proof (composite_state w tile s1) as Hst.
    destruct (composite numOfZ w tile s1) as [[res s1'] tc] eqn:Hcomp;
      simpl in *. subst res s1'.
    assert (requestImage numOfZ w x y z this
            = (Throw e, s1, (t1 ++ tc) ++ [ConsoleError e; RaiseEvent e]))
      as Hrun.
    { rewrite requestImage_miss by done.
      unfold tryCatch, renderTile. unfold mbind at 1, M_bind at 1.
      rewrite Hload. unfold mbind at 1, M_bind at 1, get. rewrite Hd.
      unfold mbind at 1, M_bind at 1. rewrite Hcomp. reflexivity. }
    subst run. rewrite Hrun. simpl.
    apply _loadTile_ok in Hload as (Hdec & Hev & _).
    apply quiet_trace in Hq as (Hevc & Hdecc & _).
    rewrite !raisedEvents_app, !decodeCalls_app, Hev, Hdec, Hevc, Hdecc. done.
Qed.

(** ** The feature probe *)

Lemma pickFeatures_run (w : World) (this : Provider) (x y zoom : Z)
    (lon lat : double) image :
  truthyFlag (opt_enablePickFeatures (options this)) = true →
  imageAvailable w this
    (lookupZ (cogLevels this) (Z.min zoom (maximumLevel this))) image →
  let options :=
    pickOptions (pickPixel doubleOf (rectangle this) image lon lat) in
  ∃ v t0,
    Forall (λ ef, isQuiet ef = true) t0
    ∧ pickFeatures doubleOf w x y zoom lon lat this
      = ((λ res, Some [ {| feature_lon := toDegrees lon;
                           feature_lat := toDegrees lat;
                           feature_data := head <$> res |} ])
           <$> readOutcome w this image options,
         withImages this v,
         t0 ++ [readEffect this image options]).
Proof.
  intros Henabled Hav options.
  assert ((if maximumLevel this <? zoom then maximumLevel this else zoom)
          = Z.min zoom (maximumLevel this)) as Hclamp.
  { destruct (maximumLevel this <? zoom) eqn:H; lia. }
  pose proof (fetchImage_available _ _ _ _ Hav) as Hok.
  destruct (fetchImage_shape w
              (lookupZ (cogLevels this) (Z.min zoom (maximumLevel this))) this)
    as (v & Hstate & Hquiet).
  exists v. eexists. split; [exact Hquiet|].
  unfold pickFeatures. unfold mbind at 1, M_bind at 1, get.
  rewrite Henabled. cbn [negb]. rewrite Hclamp.
  unfold mbind at 1, M_bind at 1.
  destruct (fetchImage w _ this) as [[res s0] t0]; simpl in *. subst res s0.
  unfold readPixels, mbind, M_bind, call, mret, M_ret. fold options.
  destruct (readOutcome w this image options); simpl; by rewrite ?app_nil_r.
Qed.

(** The probe when the image of the level is not at hand and cannot be
    fetched. *)
Lemma pickFeatures_no_image (w : World) (this : Provider) (x y zoom : Z)
    (lon lat : double) :
  truthyFlag (opt_enablePickFeatures (options this)) = true →
  (∀ image,
     ¬ imageAvailable w this
         (lookupZ (cogLevels this) (Z.min zoom (maximumLevel this))) image) →
  ∃ e t,
    pickFeatures doubleOf w x y zoom lon lat this = (Throw e, this, t)
    ∧ Forall (λ ef, isQuiet ef = true) t.
Proof.
  intros Henabled Hnone.
  assert ((if maximumLevel this <? zoom then maximumLevel this else zoom)
          = Z.min zoom (maximumLevel this)) as Hclamp.
  { destruct (maximumLevel this <? zoom) eqn:H; lia. }
  unfold pickFeatures. unfold mbind at 1, M_bind at 1, get.
  rewrite Henabled. cbn [negb]. rewrite Hclamp.
  unfold mbind at 1, M_bind at 1, fetchImage. munfold.
  destruct (_images this) as [images|] eqn:Himages; simpl.
  2: { by eexists _, []. }
  destruct (images !! _) as [image|] eqn:Hmem; simpl.
  { destruct (Hnone image). exists images. split; [done | by left]. }
  destruct (getImage w _) as [image|e] eqn:Hget; simpl.
  { destruct (Hnone image). exists images. split; [done | by right]. }
  eexists e, _. split; [reflexivity | by repeat constructor].
Qed.

Lemma filter_isDecode_quiet (t : list (@Effect Num)) :
  Forall (λ ef, isQuiet ef = true) t → List.filter isDecode t = [].
Proof.
  induction 1 as [|ef t Hef _ IH]; [done|]. simpl. rewrite IH.
  by destruct ef.
Qed.

Lemma filter_isDecode_read (this : Provider) image options :
  List.filter isDecode [readEffect this image options]
  = [readEffect this image options].
Proof. unfold readEffect. by destruct (truthyFlag _). Qed.

(** C9, as the code has it: a disabled probe returns nothing and calls
    nobody.  An enabled probe works at the zoom clamped to [maximumLevel]
    and leaves the tile cache as it is.  With the image of that level at
    hand (memoised, or fetched from the decoder) it issues exactly one
    windowed read, of the window [posX, posY, posX + 1, posY + 1] read as one
    pixel, where [posX] and [posY] are computed in doubles from the offset
    of the point from the west and the north edge of the rectangle, a full
    turn being added to the longitude offset when the longitude is less than
    the west edge; and it returns what the read gives or throws what the read
    throws.  When that image is not at hand (it cannot be fetched, or the
    provider is destroyed) the probe throws and reads no pixel.  The tile
    cache is not consulted: the probe does the same whatever the cache
    holds. *)
Theorem pickFeatures_probe :
  (∀ (w : World) (this : Provider) x y zoom lon lat,
     truthyFlag (opt_enablePickFeatures (options this)) = false →
     pickFeatures doubleOf w x y zoom lon lat this = (Ok None, this, []))
  ∧ (∀ (w : World) (this : Provider) x y zoom lon lat,
       truthyFlag (opt_enablePickFeatures (options this)) = true →
       let index :=
         lookupZ (cogLevels this) (Z.min zoom (maximumLevel this)) in
       let run := pickFeatures doubleOf w x y zoom lon lat this in
       _imagesCache run.1.2 = _imagesCache this
       ∧ (∀ image,
            imageAvailable w this index image →
            let west := doubleOf (west (rectangle this)) in
            let south := doubleOf (south (rectangle this)) in
            let east := doubleOf (east (rectangle this)) in
            let north := doubleOf (north (rectangle this)) in
            let lonWidth :=
              Double.sub (if Double.ltb east west
                          then Double.add east Double.TWO_PI else east) west in
            let lonGap :=
              if Double.ltb lon west
              then Double.add (Double.sub lon west) Double.TWO_PI
              else Double.sub lon west in
            let posX :=
              Double.tildeTilde
                (Double.mul (Double.abs (Double.div lonGap lonWidth))
                            (Double.ofZ (getWidth image))) in
            let posY :=
              Double.tildeTilde
                (Double.mul
                   (Double.abs (Double.div (Double.sub north lat)
                                           (Double.sub north south)))
                   (Double.ofZ (getHeight image))) in
            let options :=
              {| read_window := Some (posX, posY, posX + 1, posY + 1);
                 read_width := Some 1; read_height := Some 1;
                 read_samples := None; read_resampleMethod := None;
                 read_interleave := Some false |} in
            List.filter isDecode run.2 = [readEffect this image options]
            ∧ run.1.1
              = (λ res, Some [ {| feature_lon := toDegrees lon;
                                  feature_lat := toDegrees lat;
                                  feature_data := head <$> res |} ])
                <$> readOutcome w this image options)
       ∧ ((∀ image, ¬ imageAvailable w this index image) →
          (∃ e, run.1.1 = Throw e) ∧ decodeCalls run.2 = 0%nat))
  ∧ (∀ (w : World) (this : Provider) x y zoom lon lat cache,
       let run := pickFeatures doubleOf w x y zoom lon lat this in
       pickFeatures doubleOf w x y zoom lon lat (withImagesCache this cache)
       = (run.1.1, withImagesCache run.1.2 cache, run.2)).
Proof.
  split; [|split].
  - intros w this x y zoom lon lat Hoff.
    unfold pickFeatures, mbind, M_bind, get. by rewrite Hoff.
  - intros w this x y zoom lon lat Hon index run. split; [|split].
    + subst run index. unfold pickFeatures, fetchImage, readPixels. munfold.
      rewrite Hon. destruct this; simpl.
      repeat (case_match; simpl in *; simplify_eq); reflexivity.
    + intros image Hav west south east north lonWidth lonGap posX posY options.
      destruct (pickFeatures_run w this x y zoom lon lat image Hon Hav)
        as (v & t0 & Hquiet & Hrun).
      subst run. rewrite Hrun. cbn [fst snd].
      split; [|done].
      rewrite List.filter_app, (filter_isDecode_quiet _ Hquiet).
      by rewrite filter_isDecode_read.
    + intros Hnone.
      destruct (pickFeatures_no_image w this x y zoom lon lat Hon Hnone)
        as (e & t & Hrun & Hquiet).
      subst run. rewrite Hrun. cbn [fst snd]. split; [eauto|].
      by apply quiet_trace in Hquiet as (_ & Hdec & _).
  - intros w this x y zoom lon lat cache run. subst run.
    destruct this. unfold pickFeatures, fetchImage, readPixels, readEffect,
      readOutcome. munfold. simpl.
    repeat (case_match; simpl in *; simplify_eq); reflexivity.
Qed.

(** ** The pyramid level selector: the exact map *)

Lemma ceilDiv_small (size tileSize : Z) :
  0 < size → size ≤ tileSize → ceilDiv (size - tileSize) tileSize = 0.
Proof.
  intros Hs Ht. unfold ceilDiv.
  replace (- (size - tileSize)) with (tileSize - size) by lia.
  by rewrite Z.div_small by lia.
Qed.

(** An image that is at most half a tile wide does not end the scan, and
    adds no padding when it is the last image. *)
Lemma scanImages_small (source : @GeoTIFF Num) (imageCount tileSize : Z)
    (n lo : nat) (levels : list Z) :
  0 < tileSize → (lo ≤ n)%nat →
  (∀ i, Z.of_nat lo ≤ i < Z.of_nat n →
     ∃ image, source (Some i) = Ok image
              ∧ 0 < imageSize image ∧ 2 * imageSize image ≤ tileSize) →
  scanImages source imageCount tileSize n levels
  = scanImages source imageCount tileSize lo levels.
Proof.
  intros Ht. induction n as [|n IH]; intros Hlo Hsmall.
  - by replace lo with 0%nat by lia.
  - destruct (decide (lo = S n)) as [->|Hne]; [done|].
    rewrite <- IH by (lia || intros i Hi; apply Hsmall; lia).
    destruct (Hsmall (Z.of_nat n)) as (image & Himg & Hpos & Hhalf); [lia|].
    unfold imageSize in *. simpl. rewrite Himg. simpl.
    destruct (tileSize <? 2 * Z.max (getWidth image) (getHeight image)) eqn:Hlt;
      [lia|].
    destruct (Z.of_nat n =? imageCount - 1); simpl; [|done].
    destruct (tileSize =? 0) eqn:H0; [lia|].
    rewrite ceilDiv_small by lia. simpl. by rewrite app_nil_r.
Qed.

(** X1: The map when the last image of the file is wider than half a tile: the
    zoom levels [0 .. k - 1], with [k = ceil((size - tileSize) / tileSize)],
    are all served from the last image, and from zoom [k] on the image index
    goes down by one per level until it reaches 0. *)
Theorem getCogLevels_padding (source : @GeoTIFF Num) (imageCount tileSize : Z)
    (image : GeoTIFFImage) :
  1 ≤ imageCount → 0 < tileSize →
  source (Some (imageCount - 1)) = Ok image →
  tileSize < 2 * imageSize image → imageSize image < 2 ^ 32 →
  let k := ceilDiv (imageSize image - tileSize) tileSize in
  0 ≤ k
  ∧ getCogLevels source imageCount tileSize
    = Ok (replicate (Z.to_nat k) (imageCount - 1)
          ++ countDown (Z.to_nat imageCount))
  ∧ ∀ levels, getCogLevels source imageCount tileSize = Ok levels →
      Z.of_nat (length levels) = k + imageCount
      ∧ ∀ z, 0 ≤ z < k + imageCount →
          lookupZ levels z = Some (imageCount - 1 - Z.max 0 (z - k)).
Proof.
  intros Hic Ht Himg Hwide Hfits k. unfold imageSize in *.
  assert (0 ≤ k < 2 ^ 32) as Hk by (apply ceilDiv_bounds; lia).
  assert (getCogLevels source imageCount tileSize
          = Ok (replicate (Z.to_nat k) (imageCount - 1)
                ++ countDown (Z.to_nat imageCount))) as Hrun.
  { unfold getCogLevels.
    replace (scanImages source imageCount tileSize (Z.to_nat imageCount) [])
      with (Ok (replicate (Z.to_nat k) (imageCount - 1), imageCount - 1)
            : Res (list Z * Z)).
    { simpl. by replace (imageCount - 1 + 1) with imageCount by lia. }
    symmetry.
    destruct (Z.to_nat imageCount) as [|n] eqn:Hn; [lia|]. simpl.
    replace (Z.of_nat n) with (imageCount - 1) by lia. rewrite Himg. simpl.
    rewrite Z.eqb_refl.
    destruct (tileSize =? 0) eqn:H0; [lia|].
    fold k. unfold newArrayFill.
    destruct (k <? 0) eqn:H1; [lia|]. destruct (2 ^ 32 <=? k) eqn:H2; [lia|].
    simpl.
    destruct (tileSize <? 2 * Z.max (getWidth image) (getHeight image)) eqn:Hlt;
      [|lia].
    reflexivity. }
  split; [lia|]. split; [exact Hrun|].
  intros levels. rewrite Hrun. intros [= <-]. split.
  - rewrite length_app, length_replicate.
    assert (∀ n, length (countDown n) = n) as Hlen
      by (induction n; simpl; congruence).
    rewrite Hlen. lia.
  - intros z Hz. unfold lookupZ. destruct (z <? 0) eqn:Hneg; [lia|].
    destruct (decide (z < k)) as [Hlow|Hhigh].
    + rewrite lookup_app_l by (rewrite length_replicate; lia).
      rewrite lookup_replicate_2 by lia. f_equal. lia.
    + rewrite lookup_app_r by (rewrite length_replicate; lia).
      rewrite length_replicate, countDown_lookup.
      case_decide; [|lia]. f_equal. lia.
Qed.

(** X2: Overviews that are at most half a tile wide are left out: when image
    [m] is wider than half a tile and all the images after it are not, the
    map is [m, m - 1, ..., 0].  But when no image at all is wider than half a
    tile nothing is left out: the map is [imageCount - 1, ..., 0]; for an
    empty file it is empty. *)
Theorem getCogLevels_narrow_overviews (source : @GeoTIFF Num)
    (imageCount tileSize : Z) :
  0 < tileSize →
  (∀ m image,
     0 ≤ m < imageCount - 1 →
     (∀ i, m < i < imageCount →
        ∃ small, source (Some i) = Ok small
                 ∧ 0 < imageSize small ∧ 2 * imageSize small ≤ tileSize) →
     source (Some m) = Ok image →
     tileSize < 2 * imageSize image →
     getCogLevels source imageCount tileSize = Ok (countDown (Z.to_nat (m + 1)))
     ∧ ∀ z, 0 ≤ z ≤ m → lookupZ (countDown (Z.to_nat (m + 1))) z = Some (m - z))
  ∧ ((∀ i, 0 ≤ i < imageCount →
        ∃ small, source (Some i) = Ok small
                 ∧ 0 < imageSize small ∧ 2 * imageSize small ≤ tileSize) →
     getCogLevels source imageCount tileSize
     = Ok (countDown (Z.to_nat imageCount))
     ∧ (imageCount ≤ 0 → getCogLevels source imageCount tileSize = Ok [])).
Proof.
  intros Ht. split.
  - intros m image Hm Hsmall Himg Hwide. split.
    + unfold getCogLevels.
      rewrite (scanImages_small source imageCount tileSize (Z.to_nat imageCount)
                 (S (Z.to_nat m)) [] Ht)
        by (lia || intros i Hi; apply Hsmall; lia).
      simpl. rewrite Z2Nat.id by lia. rewrite Himg. simpl.
      destruct (m =? imageCount - 1) eqn:Hlast; [lia|]. simpl.
      unfold imageSize in Hwide.
      destruct (tileSize <? 2 * Z.max (getWidth image) (getHeight image))
        eqn:Hlt; [|lia].
      reflexivity.
    + intros z Hz. unfold lookupZ. destruct (z <? 0) eqn:Hneg; [lia|].
      rewrite countDown_lookup. case_decide; [|lia]. f_equal. lia.
  - intros Hsmall.
    assert (getCogLevels source imageCount tileSize
            = Ok (countDown (Z.to_nat imageCount))) as Hrun.
    { unfold getCogLevels.
      rewrite (scanImages_small source imageCount tileSize (Z.to_nat imageCount)
                 0 [] Ht) by (lia || intros i Hi; apply Hsmall; lia).
      simpl. do 2 f_equal. lia. }
    split; [exact Hrun|]. intros Hempty. rewrite Hrun.
    by replace (Z.to_nat imageCount) with 0%nat by lia.
Qed.

(** ** The sample selector *)

(** X3: The samples to read depend on [multi], on the truthiness of
    [convertToRGB] and on [single.expression] only: [single.band] is not
    looked at.  The selector fails exactly when [multi] is given without one
    of its three channels, and then with a [TypeError], even when an
    expression would have replaced the samples. *)
Theorem getReadSamples_inputs :
  (∀ ro ro' : @TIFFImageryProviderRenderOptions Num,
     multi ro' = multi ro →
     truthyFlag (convertToRGB ro') = truthyFlag (convertToRGB ro) →
     single ro' ≫= expression = single ro ≫= expression →
     getReadSamples findAndSortBandNumbers ro'
     = getReadSamples findAndSortBandNumbers ro)
  ∧ (∀ (ro : @TIFFImageryProviderRenderOptions Num) e,
       getReadSamples findAndSortBandNumbers ro = Throw e
       ↔ e = TypeError "Cannot read properties of undefined (reading 'band')"
         ∧ ∃ m, multi ro = Some m
             ∧ (multiGet m key_r = None ∨ multiGet m key_g = None
                ∨ multiGet m key_b = None)).
Proof.
  split.
  - intros ro ro' Hmulti Hflag Hexpr. unfold getReadSamples.
    rewrite Hmulti, Hflag.
    destruct (single ro') as [s'|], (single ro) as [s|]; simpl in Hexpr;
      rewrite ?Hexpr; try rewrite <- Hexpr; reflexivity.
  - intros ro e. unfold getReadSamples, channelBand.
    assert (∀ l : list Z,
      match single ro with
      | Some s =>
          match expression s with
          | Some ex => if truthyString ex then Ok (findAndSortBandNumbers ex)
                       else Ok l
          | None => Ok l
          end
      | None => Ok l
      end ≠ Throw e) as Hsecond.
    { intros l. destruct (single ro) as [s|]; [|done].
      destruct (expression s) as [ex|]; [|done]. by destruct (truthyString ex). }
    destruct (multi ro) as [m|]; simpl.
    + destruct (multiGet m key_r) as [cr|] eqn:Hr; simpl;
        [destruct (multiGet m key_g) as [cg|] eqn:Hg; simpl;
           [destruct (multiGet m key_b) as [cb|] eqn:Hb; simpl|]|].
      * split; [by intros H%Hsecond|].
        intros [_ (m0 & [= <-] & [H|[H|H]])]; congruence.
      * split; [|by intros [-> _]].
        intros [= <-]. split; [done|]. exists m. split; [done|]. by right; right.
      * split; [|by intros [-> _]].
        intros [= <-]. split; [done|]. exists m. split; [done|]. by right; left.
      * split; [|by intros [-> _]].
        intros [= <-]. split; [done|]. exists m. split; [done|]. by left.
    + split; [by intros H%Hsecond|]. by intros [_ (m0 & [=] & _)].
Qed.

(** ** The band statistics resolver: configured ranges and sampling *)

(** One callback on a band without embedded statistics. *)
Lemma bandValuesSync_no_stats ro (image : @GeoTIFFImage Num) (i : Z)
    (bands : gmap Z BandRange) :
  statsOf toNumber image i = None →
  match configuredRange numOfZ ro (i + 1) with
  | Some range =>
      ∃ bands', bandValuesSync numOfZ toNumber ro image i bands
                = (Ok false, bands', [])
        ∧ bands' !! (i + 1) = Some range
        ∧ ∀ k, k ≠ i + 1 → bands' !! k = bands !! k
  | None =>
      bandValuesSync numOfZ toNumber ro image i bands
      = if negb (hasExpression (single ro))
           && negb (bool_decide (is_Some (bands !! (i + 1))))
        then (Ok true, bands,
              [ConsoleWarn ("Can not get band" +:+ pretty (i + 1) +:+ " min/max")])
        else (Ok false, bands, [])
  end.
Proof.
  unfold statsOf, bandValuesSync, configuredRange. intros Hstats.
  destruct (getGDALMetadata image i ≫= lookup "STATISTICS_MINIMUM") as [smin|];
    destruct (getGDALMetadata image i ≫= lookup "STATISTICS_MAXIMUM") as [smax|];
    try destruct (truthyString smin && truthyString smax); try done;
    destruct (truthyFlag (convertToRGB ro));
    (destruct (multi ro) as [m|];
       [destruct (inputBand m (i + 1)) as [[cb [mn|] [mx|]]|]|]);
    (destruct (single ro) as [sg|];
       [destruct (domain sg) as [[d0 d1]|];
          [destruct (negb (truthyOptString (expression sg))
                     && bool_decide (band sg = Some (i + 1)))|]|]);
    munfold; simpl;
    first
      [ rewrite lookup_insert_eq; simpl; rewrite ?andb_false_r;
        eexists; split; [reflexivity|];
        split; [by rewrite lookup_insert_eq
               | intros k Hk; by rewrite ?lookup_insert_ne by done]
      | by destruct (_ && _)
      | by destruct (negb _) ].
Qed.





Section BandsGrow.
Context {A B : Type}.
Implicit Types (m : BandsM A).

Lemma growsBands_ret (a : A) : growsBands (mret a : BandsM A).
Proof. by intros bands k H. Qed.

Lemma growsBands_throw (e : JsError) : growsBands (throw e : BandsM A).
Proof. by intros bands k H. Qed.

Lemma growsBands_call (ef : @Effect Num) (outcome : Res A) :
  growsBands (call ef outcome : BandsM A).
Proof. by intros bands k H. Qed.

Lemma growsBands_bind m (f : A → BandsM B) :
  growsBands m → (∀ a, growsBands (f a)) → growsBands (m ≫= f).
Proof.
  intros Hm Hf bands k Hk. specialize (Hm bands k Hk). unfold mbind, M_bind.
  destruct (m bands) as [[[a|e] bands1] t1]; simpl in *; [|done].
  specialize (Hf a bands1 k Hm).
  by destruct (f a bands1) as [[res bands2] t2].
Qed.

Lemma growsBands_tryCatch m (handler : JsError → BandsM A) :
  growsBands m → (∀ e, growsBands (handler e)) →
  growsBands (tryCatch m handler).
Proof.
  intros Hm Hh bands k Hk. specialize (Hm bands k Hk). unfold tryCatch.
  destruct (m bands) as [[[a|e] bands1] t1]; simpl in *; [done|].
  specialize (Hh e bands1 k Hm).
  by destruct (handler e bands1) as [[res bands2] t2].
Qed.
End BandsGrow.

Lemma growsBands_get : growsBands (get : BandsM _).
Proof. by intros bands k H. Qed.

Lemma growsBands_emit (ef : @Effect Num) : growsBands (emit ef : BandsM _).
Proof. by intros bands k H. Qed.

Lemma growsBands_insert (k : Z) (range : @BandRange Num) :
  growsBands (modify (<[k := range]>) : BandsM _).
Proof.
  intros bands k' H. simpl. destruct (decide (k = k')) as [->|Hne].
  - by rewrite lookup_insert_eq.
  - by rewrite lookup_insert_ne.
Qed.

Lemma growsBands_when (c : bool) (m : BandsM unit) :
  growsBands m → growsBands (when c m).
Proof. destruct c; [done|]. intros _. apply growsBands_ret. Qed.

Ltac grow_step :=
  first
    [ apply growsBands_ret | apply growsBands_throw | apply growsBands_get
    | apply growsBands_when | apply growsBands_insert
    | apply growsBands_emit | apply growsBands_call
    | apply growsBands_bind; [|intros ?]
    | apply growsBands_tryCatch; [|intros ?]
    | case_match ].

Lemma bandValuesSync_grows ro (image : @GeoTIFFImage Num) (j : Z) :
  growsBands (bandValuesSync numOfZ toNumber ro image j).
Proof. unfold bandValuesSync. repeat grow_step. Qed.

Lemma bandValuesFallback_grows (w : World) ro (image : @GeoTIFFImage Num)
    (levels : list Z) (j : Z) :
  growsBands (bandValuesFallback isNaN getMinMax w ro image levels j).
Proof. unfold bandValuesFallback. repeat grow_step. Qed.

Lemma startCallbacks_grows ro (image : @GeoTIFFImage Num) (l : list Z) :
  growsBands (startCallbacks numOfZ toNumber ro image l).
Proof.
  induction l as [|j l IH]; simpl; [apply growsBands_ret|].
  apply growsBands_bind; [apply bandValuesSync_grows | intros p].
  apply growsBands_bind; [apply IH | intros others]. apply growsBands_ret.
Qed.

Lemma resumeCallbacks_grows (w : World) ro (image : @GeoTIFFImage Num)
    (levels pending : list Z) :
  growsBands (resumeCallbacks isNaN getMinMax w ro image levels pending).
Proof.
  induction pending as [|j pending IH]; simpl; [apply growsBands_ret|].
  apply growsBands_bind.
  - apply growsBands_tryCatch; [|intros e; apply growsBands_ret].
    apply growsBands_bind; [apply bandValuesFallback_grows|].
    intros ?. apply growsBands_ret.
  - intros failure. apply growsBands_bind; [apply IH|].
    intros ?. apply growsBands_ret.
Qed.

(** Without an expression a callback that does not suspend has given its
    band a range. *)
Lemma bandValuesSync_done ro (image : @GeoTIFFImage Num) (i : Z)
    (bands bands1 : gmap Z BandRange) t :
  hasExpression (single ro) = false →
  bandValuesSync numOfZ toNumber ro image i bands = (Ok false, bands1, t) →
  is_Some (bands1 !! (i + 1)).
Proof.
  intros Hexpr. destruct (statsOf toNumber image i) as [range|] eqn:Hstats.
  - rewrite (bandValuesSync_stats _ _ _ _ _ Hstats). intros [= <- <-].
    rewrite lookup_insert_eq. eauto.
  - pose proof (bandValuesSync_no_stats ro image i bands Hstats) as H.
    destruct (configuredRange numOfZ ro (i + 1)) as [range|].
    + destruct H as (bands' & -> & Hb & _). intros [= <- <-]. eauto.
    + rewrite H, Hexpr. simpl. case_bool_decide; simpl; [|done].
      by intros [= <- <-].
Qed.

Lemma startCallbacks_covers ro (image : @GeoTIFFImage Num) (l : list Z)
    (bands bands1 : gmap Z BandRange) (pending : list Z) t :
  hasExpression (single ro) = false →
  startCallbacks numOfZ toNumber ro image l bands = (Ok pending, bands1, t) →
  ∀ i, i ∈ l → is_Some (bands1 !! (i + 1)) ∨ i ∈ pending.
Proof.
  intros Hexpr. revert bands bands1 pending t.
  induction l as [|j l IH]; intros bands bands2 pending t; simpl.
  - intros _ i Hi. by apply elem_of_nil in Hi.
  - unfold mbind, M_bind.
    destruct (bandValuesSync _ _ _ _ j bands) as [[[p|e] bands1] t1] eqn:Hsync;
      [|done].
    pose proof (startCallbacks_grows ro image l bands1) as Hgrow.
    destruct (startCallbacks _ _ _ _ l bands1) as [[[others|e] bands2'] t2]
      eqn:Hrest; [|done].
    simpl. intros [= <- <- <-] i Hi.
    apply elem_of_cons in Hi as [->|Hi].
    + destruct p; [right; by left|]. left.
      apply (Hgrow (j + 1)). by eapply bandValuesSync_done.
    + destruct (IH _ _ _ _ Hrest i Hi) as [H|H]; [by left|]. right.
      destruct p; [by right | done].
Qed.

Lemma bandValuesFallback_sets (w : World) ro (image : @GeoTIFFImage Num)
    (levels : list Z) (j : Z) (bands bands1 : gmap Z BandRange) t :
  bandValuesFallback isNaN getMinMax w ro image levels j bands = (Ok tt, bands1, t) →
  is_Some (bands1 !! (j + 1)).
Proof.
  unfold bandValuesFallback. munfold.
  destruct (getImage w _) as [preview|e]; simpl; [|done].
  destruct (readRasters w preview _) as [[|first rest]|e]; simpl; try done.
  intros [= <- <-]. rewrite lookup_insert_eq. eauto.
Qed.

Lemma resumeCallbacks_covers (w : World) ro (image : @GeoTIFFImage Num)
    (levels pending : list Z) (bands bands2 : gmap Z BandRange) t :
  resumeCallbacks isNaN getMinMax w ro image levels pending bands
  = (Ok None, bands2, t) →
  ∀ i, i ∈ pending → is_Some (bands2 !! (i + 1)).
Proof.
  revert bands bands2 t.
  induction pending as [|j pending IH]; intros bands bands2 t; simpl.
  - intros _ i Hi. by apply elem_of_nil in Hi.
  - unfold mbind at 1, M_bind at 1. unfold tryCatch, mbind at 1, M_bind at 1.
    destruct (bandValuesFallback _ _ w ro image levels j bands)
      as [[[[]|e] bands1] t1] eqn:Hfall; simpl.
    + pose proof (resumeCallbacks_grows w ro image levels pending bands1) as Hgrow.
      unfold mbind, M_bind.
      destruct (resumeCallbacks _ _ w ro image levels pending bands1)
        as [[[others|e] bands2'] t2] eqn:Hrest; simpl; [|done].
      intros [= -> <- <-] i Hi. apply elem_of_cons in Hi as [->|Hi].
      * apply (Hgrow (j + 1)). by eapply bandValuesFallback_sets.
      * by eapply IH.
    + unfold mbind, M_bind.
      destruct (resumeCallbacks _ _ w ro image levels pending bands1)
        as [[[others|e'] bands2'] t2]; simpl; done.
Qed.

Lemma getBandValues_ok (w : World) ro (readSamples : list Z)
    (image : @GeoTIFFImage Num) (levels : list Z)
    (bands0 bands final : gmap Z BandRange) t :
  hasExpression (single ro) = false →
  getBandValues numOfZ toNumber isNaN getMinMax w ro readSamples image levels
    bands0 = (Ok bands, final, t) →
  bands = final ∧ ∀ i, i ∈ readSamples → is_Some (bands !! (i + 1)).
Proof.
  intros Hexpr. unfold getBandValues, mbind, M_bind.
  destruct (startCallbacks _ _ ro image readSamples bands0)
    as [[[pending|e] bands1] t1] eqn:Hstart; [|done].
  pose proof (startCallbacks_covers _ _ _ _ _ _ _ Hexpr Hstart) as Hcov.
  pose proof (resumeCallbacks_grows w ro image levels pending bands1) as Hgrow.
  destruct (resumeCallbacks _ _ w ro image levels pending bands1)
    as [[[[e|]|e] bands2] t2] eqn:Hresume; simpl; try done.
  pose proof (resumeCallbacks_covers _ _ _ _ _ _ _ _ Hresume) as Hdone.
  intros [= <- <- <-]. split; [done|]. intros i Hi.
  destruct (Hcov i Hi) as [H|H]; [by apply (Hgrow (i + 1)) | by apply Hdone].
Qed.

(** X5: Without an expression, a resolver that returns has a range for every
    band of [readSamples]; what it returns is the object it has filled. *)
Theorem getBandValues_complete (w : World) ro (readSamples : list Z)
    (image : @GeoTIFFImage Num) (levels : list Z)
    (bands0 bands : gmap Z BandRange) :
  hasExpression (single ro) = false →
  let run := getBandValues numOfZ toNumber isNaN getMinMax w ro readSamples
               image levels bands0 in
  run.1.1 = Ok bands →
  bands = run.1.2 ∧ ∀ i, i ∈ readSamples → is_Some (bands !! (i + 1)).
Proof.
  intros Hexpr run. destruct run as [[res final] t] eqn:Hrun. simpl.
  intros ->. by eapply getBandValues_ok.
Qed.

Lemma startCallbacks_leavesBand ro (image : @GeoTIFFImage Num) (l : list Z)
    (i : Z) :
  i ∉ l → leavesBand i (startCallbacks numOfZ toNumber ro image l).
Proof.
  induction l as [|j l IH]; intros Hi; simpl; [apply leavesBand_ret|].
  apply not_elem_of_cons in Hi as [Hne Hi].
  apply leavesBand_bind; [by apply bandValuesSync_leavesBand | intros p].
  apply leavesBand_bind; [by apply IH | intros others]. apply leavesBand_ret.
Qed.

Lemma startCallbacks_subset ro (image : @GeoTIFFImage Num) (l : list Z)
    (bands : gmap Z BandRange) (pending : list Z) :
  (startCallbacks numOfZ toNumber ro image l bands).1.1 = Ok pending →
  ∀ j, j ∈ pending → j ∈ l.
Proof.
  revert bands pending. induction l as [|j l IH]; intros bands pending; simpl.
  - by intros [= <-].
  - unfold mbind, M_bind.
    destruct (bandValuesSync _ _ _ _ j bands) as [[[p|e] bands1] t1]; [|done].
    specialize (IH bands1).
    destruct (startCallbacks _ _ _ _ l bands1) as [[[others|e] bands2] t2];
      simpl in *; [|done].
    intros [= <-] k Hk. destruct p.
    + apply elem_of_cons in Hk as [->|Hk]; [by left | right; by eapply IH].
    + right. by eapply IH.
Qed.

Lemma getBandValues_leaves (w : World) ro (readSamples : list Z)
    (image : @GeoTIFFImage Num) (levels : list Z) (i : Z) :
  i ∉ readSamples →
  leavesBand i (getBandValues numOfZ toNumber isNaN getMinMax w ro readSamples
                  image levels).
Proof.
  intros Hi bands0. unfold getBandValues, mbind, M_bind.
  destruct (startCallbacks_leavesBand ro image readSamples i Hi bands0)
    as [Hb1 Ht1].
  pose proof (startCallbacks_subset ro image readSamples bands0) as Hsub.
  destruct (startCallbacks_returns ro image readSamples bands0) as [pending Hp].
  destruct (startCallbacks _ _ _ _ readSamples bands0) as [[res bands1] t1];
    simpl in *; subst res.
  specialize (Hsub pending eq_refl).
  assert (∀ j, j ∈ pending → j ≠ i) as Hne.
  { intros j Hj ->. by apply Hi, Hsub. }
  destruct (resumeCallbacks_leavesBand w ro image levels pending i Hne bands1)
    as [Hb2 Ht2].
  destruct (resumeCallbacks isNaN getMinMax w ro image levels pending bands1)
    as [[[failure|e] bands2] t2]; simpl in *.
  - destruct failure as [e|]; simpl;
      (split; [congruence|]; rewrite app_nil_r; by apply Forall_app).
  - split; [congruence|]. by apply Forall_app.
Qed.

(** X6: The resolver touches the bands of [readSamples] only: the entry of any
    other band is as it was, and no read of such a band's pixels is
    issued. *)
Theorem getBandValues_frame (w : World) ro (readSamples : list Z)
    (image : @GeoTIFFImage Num) (levels : list Z) (i : Z) :
  i ∉ readSamples →
  leavesBand i (getBandValues numOfZ toNumber isNaN getMinMax w ro readSamples
                  image levels).
Proof. apply getBandValues_leaves. Qed.

(** X7: A single band without statistics, without a configured range and
    without an expression is sampled: after one warning the resolver fetches
    the image of [cogLevels[0]], reads the whole band from it twice (the
    first read is only logged) and stores the minimum and maximum of the
    values that are not NaN, with the nodata value of the render options
    taking precedence over the one of the file. *)
Theorem getBandValues_sampling (w : World) ro (image preview : @GeoTIFFImage Num)
    (levels : list Z) (i : Z) (first : list Num) (rest : list (list Num))
    (bands0 : gmap Z BandRange) :
  statsOf toNumber image i = None →
  configuredRange numOfZ ro (i + 1) = None →
  hasExpression (single ro) = false →
  bands0 !! (i + 1) = None →
  getImage w (lookupZ levels 0) = Ok preview →
  readRasters w preview (sampleReadOptions i) = Ok (first :: rest) →
  let range := getMinMax (List.filter (λ item, negb (isNaN item)) first)
                 (match nodata ro with
                  | Some n => Some n
                  | None => getGDALNoData image
                  end) in
  getBandValues numOfZ toNumber isNaN getMinMax w ro [i] image levels bands0
  = (Ok (<[i + 1 := range]> bands0), <[i + 1 := range]> bands0,
     [ConsoleWarn ("Can not get band" +:+ pretty (i + 1) +:+ " min/max");
      CallGetImage (lookupZ levels 0);
      CallReadRasters preview (sampleReadOptions i);
      CallReadRasters preview (sampleReadOptions i)]).
Proof.
  intros Hstats Hconf Hexpr Hnone Himg Hread range.
  pose proof (bandValuesSync_no_stats ro image i bands0 Hstats) as Hsync.
  rewrite Hconf, Hexpr, Hnone in Hsync.
  rewrite bool_decide_eq_false_2 in Hsync by (by intros [? ?]).
  simpl in Hsync.
  unfold getBandValues. simpl. unfold mbind, M_bind.
  rewrite Hsync. simpl.
  unfold bandValuesFallback. munfold. rewrite Himg. simpl. rewrite Hread.
  reflexivity.
Qed.

(** ** The constructor: what a provider is built with *)

Lemma constructor_settings (w : World) (opts : @TIFFImageryProviderOptions Num)
    (p : Provider) :
  (constructor w opts tt).1.1 = Ok p →
  maximumLevel p
  = Z.min (default 18 (opt_maximumLevel opts))
          (Z.of_nat (length (opt_cogLevels opts)) - 1)
  ∧ minimumLevel p = default 0 (opt_minimumLevel opts)
  ∧ cogLevels p = opt_cogLevels opts
  ∧ readSamples p = opt_readSamples opts
  ∧ _cacheTime p = default (60 * 1000) (opt_cache opts)
  ∧ tileWidth p
    = orElseZ (opt_tileSize opts)
        (orElseZ (Some (getTileWidth (opt_image opts))) 512)
  ∧ tileHeight p
    = orElseZ (opt_tileSize opts)
        (orElseZ (Some (getTileHeight (opt_image opts))) 512)
  ∧ tileSize p = tileWidth p
  ∧ hasAlphaChannel p = default true (opt_hasAlphaChannel opts)
  ∧ credit p = default "" (opt_credit opts)
  ∧ _imageCount p = opt_imageCount opts
  ∧ renderOptions p
    = defaultRenderOptions (getSamplesPerPixel (opt_image opts))
        (default emptyRenderOptions (opt_renderOptions opts))
  ∧ bands p = opt_bands opts
  ∧ options p = opts.
Proof.
  destruct ((getSamplesPerPixel (opt_image opts) <? 3)
            && truthyFlag (convertToRGB
                 (default emptyRenderOptions (opt_renderOptions opts))))
    eqn:Hguard.
  { by rewrite constructor_guard. }
  destruct (resolveRectangle w opts tt) as [[[rect0|e] []] t0] eqn:Hrect.
  2: { by rewrite (constructor_no_rectangle w opts e t0). }
  destruct (newArrayFill (opt_imageCount opts) tt) as [arr|e] eqn:Hcount.
  2: { by rewrite (constructor_bad_count w opts rect0 e t0). }
  destruct (initPlot w
              (single (defaultRenderOptions (getSamplesPerPixel (opt_image opts))
                 (default emptyRenderOptions (opt_renderOptions opts))))
              (opt_bands opts)
              (match nodata (default emptyRenderOptions (opt_renderOptions opts)) with
               | Some n => Some n
               | None => getGDALNoData (opt_image opts)
               end) None) as [[outcome plot'] tp] eqn:Hplot.
  unfold constructor. munfold. cbv zeta.
  rewrite Hguard, Hrect, Hcount, Hplot.
  destruct outcome as [[]|e]; simpl; intros [= <-]; simpl;
    (split; [|by repeat split]);
    destruct (Z.of_nat (length (opt_cogLevels opts)) - 1
              <? default 18 (opt_maximumLevel opts)) eqn:Hclamp; lia.
Qed.

(** X8: The highest level a provider serves is the requested one (18 by
    default), lowered to the last index of the level map; so every zoom
    from 0 up to [maximumLevel] has an entry in the level map, and a
    provider over an empty level map answers every request at a zoom of 0 or
    more with [undefined], calling nobody. *)
Theorem constructor_level_range (w : World)
    (opts : @TIFFImageryProviderOptions Num) (p : Provider) :
  (constructor w opts tt).1.1 = Ok p →
  maximumLevel p
  = Z.min (default 18 (opt_maximumLevel opts))
          (Z.of_nat (length (opt_cogLevels opts)) - 1)
  ∧ minimumLevel p = default 0 (opt_minimumLevel opts)
  ∧ levelsCovered p
  ∧ (opt_cogLevels opts = [] →
     ∀ (w' : World) x y z, 0 ≤ z →
       requestImage numOfZ w' x y z p = (Ok None, p, [])).
Proof.
  intros Hok.
  destruct (constructor_settings w opts p Hok) as (Hmax & Hmin & Hlevels & _).
  destruct (constructor_cases w opts)
    as [[_ Hrun] | [(_ & e0 & t0 & _ & Hrun)
       | [(_ & rect0 & e0 & t0 & _ & _ & Hrun)
       | (_ & rect0 & t0 & p0 & outcome & plot' & tp & _ & _ & Hrun
          & Hready & _)]]];
    rewrite Hrun in Hok; simpl in Hok; try done.
  injection Hok as ->.
  split; [done|]. split; [done|]. split.
  - intros z Hz. rewrite Hlevels. unfold lookupZ.
    destruct (z <? 0) eqn:Hneg; [lia|]. apply lookup_lt_is_Some. lia.
  - intros Hempty w' x y z Hz. apply requestImage_outside; [done|].
    right. rewrite Hmax, Hempty. simpl. lia.
Qed.

(** X9: The tile size is [options.tileSize], else the tile size of the image,
    else 512, a zero counting as absent: it is never 0, and with an explicit
    size the tiles are square. *)
Theorem constructor_tile_size (w : World)
    (opts : @TIFFImageryProviderOptions Num) (p : Provider) :
  (constructor w opts tt).1.1 = Ok p →
  tileWidth p ≠ 0 ∧ tileHeight p ≠ 0 ∧ tileSize p = tileWidth p
  ∧ (∀ n, opt_tileSize opts = Some n → n ≠ 0 →
       tileWidth p = n ∧ tileHeight p = n)
  ∧ (opt_tileSize opts = None ∨ opt_tileSize opts = Some 0 →
     tileWidth p = (if getTileWidth (opt_image opts) =? 0 then 512
                    else getTileWidth (opt_image opts))
     ∧ tileHeight p = (if getTileHeight (opt_image opts) =? 0 then 512
                       else getTileHeight (opt_image opts))).
Proof.
  intros Hok.
  destruct (constructor_settings w opts p Hok)
    as (_ & _ & _ & _ & _ & Hw & Hh & Hs & _).
  rewrite Hw, Hh, Hs. unfold orElseZ, truthyZ.
  split; [|split; [|split; [done|split]]].
  - destruct (opt_tileSize opts) as [n|]; repeat case_match; simpl in *; lia.
  - destruct (opt_tileSize opts) as [n|]; repeat case_match; simpl in *; lia.
  - intros n -> Hn. destruct (n =? 0) eqn:H0; [lia | done].
  - intros [-> | ->]; simpl; by repeat case_match.
Qed.

(** X10: The render mode of a provider: [multi] and [nodata] are the caller's;
    a [single] of the caller is kept with its band defaulted to 1, so a
    [single] always has a band.  When the caller configured no mode, the
    default mode is filled in - [convertToRGB] for an image with several
    samples, band 1 otherwise - unless the key of that default is among the
    own keys of the caller's options ([convertToRGB: false], or a key whose
    value is [undefined]): the spread then keeps the caller's value.  This
    is the only way in which a provider ends up with no render mode at
    all. *)
Theorem constructor_render_mode (w : World)
    (opts : @TIFFImageryProviderOptions Num) (p : Provider) :
  (constructor w opts tt).1.1 = Ok p →
  let ro0 := default emptyRenderOptions (opt_renderOptions opts) in
  let ro := renderOptions p in
  let samples := getSamplesPerPixel (opt_image opts) in
  let unconfigured (o : @TIFFImageryProviderRenderOptions Num) :=
    single o = None ∧ multi o = None ∧ truthyFlag (convertToRGB o) = false in
  multi ro = multi ro0 ∧ nodata ro = nodata ro0
  ∧ (∀ s, single ro0 = Some s →
       single ro = Some {| band := Some (default 1 (band s));
                           colorScale := colorScale s; colors := colors s;
                           domain := domain s; expression := expression s |})
  ∧ (∀ s, single ro = Some s → is_Some (band s))
  ∧ (unconfigured ro
     ↔ unconfigured ro0
       ∧ (if 1 <? samples then ownsConvertToRGB ro0 else ownsSingle ro0) = true)
  ∧ (unconfigured ro0 →
     (1 < samples → ownsConvertToRGB ro0 = false →
      convertToRGB ro = Some true ∧ single ro = None)
     ∧ (samples ≤ 1 → ownsSingle ro0 = false →
        (single ro ≫= band) = Some 1 ∧ convertToRGB ro = convertToRGB ro0)).
Proof.
  intros Hok ro0 ro samples unconfigured.
  destruct (constructor_settings w opts p Hok)
    as (_ & _ & _ & _ & _ & _ & _ & _ & _ & _ & _ & Hro & _).
  subst ro unconfigured. rewrite Hro. fold ro0. fold samples.
  unfold defaultRenderOptions, ownsConvertToRGB, ownsSingle.
  destruct (single ro0) as [s0|] eqn:Hs; destruct (multi ro0) as [m0|] eqn:Hm;
    destruct (convertToRGB ro0) as [[]|] eqn:Hc;
    destruct (1 <? samples) eqn:Hn;
    destruct (bool_decide (key_convertToRGB ∈ undefinedKeys ro0));
    destruct (bool_decide (key_single ∈ undefinedKeys ro0));
    simpl; rewrite ?Hs, ?Hm, ?Hc; simpl;
    (split; [done|]); (split; [done|]);
    (split; [by intros ? [= <-]|]);
    (split; [intros ? [= <-]; simpl; eauto|]);
    (split; [split; [intros (? & ? & ?) | intros ((? & ? & ?) & ?)]; done|]);
    intros (? & ? & ?); (split; intros; done || lia).
Qed.

Lemma resolveRectangle_no_decoder (w : World)
    (opts : @TIFFImageryProviderOptions Num) :
  Forall (λ ef, isDecoderCall ef = false) (resolveRectangle w opts tt).2.
Proof.
  unfold resolveRectangle.
  destruct (callProjFunc opts (prjCodeOf (geoKeys (opt_image opts))))
    as [[proj|]|e0]; unfold projectCorners; munfold; simpl; [| |constructor].
  - destruct (getBoundingBox _) as [[[w0 s0] e0] n0].
    destruct (proj (w0, s0)); simpl; [|constructor].
    destruct (proj (e0, n0)); simpl; constructor.
  - case_bool_decide.
    + destruct (getBoundingBox _) as [[[w0 s0] e0] n0]. constructor.
    + destruct (toProj4 w _) as [project|e]; simpl.
      * destruct (getBoundingBox _) as [[[w0 s0] e0] n0].
        destruct (project (w0, s0)); simpl; [|by repeat constructor].
        destruct (project (e0, n0)); simpl; by repeat constructor.
      * by repeat constructor.
Qed.

Lemma initPlot_no_decoder (w : World) single (bands : gmap Z (@BandRange Num))
    noData plot0 :
  Forall (λ ef, isDecoderCall ef = false) (initPlot w single bands noData plot0).2.
Proof.
  unfold initPlot. munfold. destruct single as [single|]; [|constructor].
  destruct (_ && _); [constructor|].
  destruct (domain single) as [d|]; [|destruct (bands !! _)]; simpl;
    try (by constructor);
    destruct (newPlot w _); simpl; by repeat constructor.
Qed.

(** X11: The constructor does not call the decoder, neither for an image handle
    nor for pixels, and raises at most one error event; the provider it
    returns has fetched no image, cached no tile and is not destroyed. *)
Theorem constructor_calls_no_decoder (w : World)
    (opts : @TIFFImageryProviderOptions Num) :
  let run := constructor w opts tt in
  Forall (λ ef, isDecoderCall ef = false) run.2
  ∧ (length (raisedEvents run.2) ≤ 1)%nat
  ∧ ∀ p, run.1.1 = Ok p →
      _images p = Some ∅ ∧ _imagesCache p = Some ∅ ∧ isDestroyed p = false.
Proof.
  pose proof (resolveRectangle_trace w opts) as Hquiet.
  pose proof (resolveRectangle_no_decoder w opts) as Hnodec.
  destruct (constructor_cases w opts)
    as [[_ Hrun] | [(_ & e0 & t0 & Hrect & Hrun)
       | [(_ & rect0 & e0 & t0 & Hrect & _ & Hrun)
       | (_ & rect0 & t0 & p0 & outcome & plot' & tp & Hrect & Hplot & Hrun
          & _ & _ & _ & _ & _ & _ & _ & Hd & Himages & Hcache)]]];
    simpl; rewrite Hrun; simpl.
  - split; [by repeat constructor|]. split; [simpl; lia | done].
  - rewrite Hrect in Hquiet, Hnodec. simpl in Hquiet, Hnodec.
    apply quiet_trace in Hquiet as (Hev & _ & _).
    split; [by constructor|]. split; [|done].
    simpl in Hev. rewrite Hev. simpl. lia.
  - rewrite Hrect in Hquiet, Hnodec. simpl in Hquiet, Hnodec.
    apply quiet_trace in Hquiet as (Hev & _ & _).
    split; [by constructor|]. split; [|done].
    simpl in Hev. rewrite Hev. simpl. lia.
  - rewrite Hrect in Hquiet, Hnodec. simpl in Hquiet, Hnodec.
    apply quiet_trace in Hquiet as (Hev & _ & _).
    pose proof (initPlot_trace w
      (single (defaultRenderOptions (getSamplesPerPixel (opt_image opts))
                 (default emptyRenderOptions (opt_renderOptions opts))))
      (opt_bands opts)
      (match nodata (default emptyRenderOptions (opt_renderOptions opts)) with
       | Some n => Some n
       | None => getGDALNoData (opt_image opts)
       end) None) as Hq.
    pose proof (initPlot_no_decoder w
      (single (defaultRenderOptions (getSamplesPerPixel (opt_image opts))
                 (default emptyRenderOptions (opt_renderOptions opts))))
      (opt_bands opts)
      (match nodata (default emptyRenderOptions (opt_renderOptions opts)) with
       | Some n => Some n
       | None => getGDALNoData (opt_image opts)
       end) None) as Hn.
    rewrite Hplot in Hq, Hn. simpl in Hq, Hn.
    apply quiet_trace in Hq as (Hev' & _ & _).
    split; [|split].
    + constructor; [done|]. apply Forall_app. split; [done|].
      apply Forall_app. split; [|by repeat constructor].
      apply Forall_app. split; [done|]. destruct outcome; by repeat constructor.
    + change (SetReady false :: ?l) with ([SetReady false] ++ l).
      rewrite !raisedEvents_app, Hev, Hev'. destruct outcome; simpl; lia.
    + by intros p [= <-].
Qed.

Lemma resolveRectangle_errors (w : World)
    (opts : @TIFFImageryProviderOptions Num) (e : JsError) :
  let prjCode := prjCodeOf (geoKeys (opt_image opts)) in
  let proj := callProjFunc opts prjCode in
  (resolveRectangle w opts tt).1.1 = Throw e →
  proj = Throw e
  ∨ (proj = Ok None ∧ prjCode ≠ Some 4326
     ∧ e = DeveloperError
             ("Unspported projection type: EPSG:" +:+ prjCodeText prjCode
              +:+ ", please add projFunc parameter to handle projection"))
  ∨ ∃ f, proj = Ok (Some f)
      ∧ (f ((getBoundingBox (opt_image opts)).1.1.1,
            (getBoundingBox (opt_image opts)).1.1.2) = Throw e
         ∨ f ((getBoundingBox (opt_image opts)).1.2,
              (getBoundingBox (opt_image opts)).2) = Throw e).
Proof.
  intros prjCode proj. unfold resolveRectangle. fold prjCode. fold proj.
  destruct proj as [[f|]|e0]; unfold projectCorners; munfold; simpl.
  - destruct (getBoundingBox _) as [[[w0 s0] e0] n0]. simpl.
    destruct (f (w0, s0)) eqn:H1; simpl; [|intros [= <-]; eauto 6].
    destruct (f (e0, n0)) eqn:H2; simpl; [done | intros [= <-]; eauto 6].
  - case_bool_decide as Hcode.
    + by destruct (getBoundingBox _) as [[[w0 s0] e0] n0].
    + destruct (toProj4 w _) as [project|e1]; simpl.
      * destruct (getBoundingBox _) as [[[w0 s0] e0] n0].
        destruct (project (w0, s0)); simpl; [|intros [= <-]; right; by left].
        destruct (project (e0, n0)); simpl;
          [done | intros [= <-]; right; by left].
      * intros [= <-]. right. by left.
  - intros [= <-]. by left.
Qed.

(** X12: What the constructor can throw: its own [DeveloperError] for an RGB
    rendering of an image with fewer than three samples; unchanged, what the
    caller's [projFunc] throws when it is called with the projection code;
    its [DeveloperError] for an unsupported projection, which replaces
    whatever went wrong with proj4, and only when [projFunc] gives no
    function and the code is not 4326; a [RangeError] for an image count
    that is no array length; and, unchanged, what the function that
    [projFunc] gives throws on a corner of the bounding box.  (The getters
    of the image and the constructors of cesium's objects are values in the
    embedding.)  A throwing [projFunc] is indeed passed on as it is, with
    nothing logged or raised. *)
Theorem constructor_errors (w : World)
    (opts : @TIFFImageryProviderOptions Num) (e : JsError) :
  let prjCode := prjCodeOf (geoKeys (opt_image opts)) in
  let proj := callProjFunc opts prjCode in
  ((constructor w opts tt).1.1 = Throw e →
   e = DeveloperError
         "Can not render the image as RGB, please check the convertToRGB parameter"
   ∨ proj = Throw e
   ∨ (proj = Ok None ∧ prjCode ≠ Some 4326
      ∧ e = DeveloperError
              ("Unspported projection type: EPSG:" +:+ prjCodeText prjCode
               +:+ ", please add projFunc parameter to handle projection"))
   ∨ e = RangeError "Invalid array length"
   ∨ ∃ f, proj = Ok (Some f)
       ∧ (f ((getBoundingBox (opt_image opts)).1.1.1,
             (getBoundingBox (opt_image opts)).1.1.2) = Throw e
          ∨ f ((getBoundingBox (opt_image opts)).1.2,
               (getBoundingBox (opt_image opts)).2) = Throw e))
  ∧ (proj = Throw e →
     (getSamplesPerPixel (opt_image opts) <? 3)
     && truthyFlag (convertToRGB
          (default emptyRenderOptions (opt_renderOptions opts))) = false →
     constructor w opts tt = (Throw e, tt, [SetReady false])).
Proof.
  intros prjCode proj. split.
  - destruct (constructor_cases w opts)
      as [[_ Hrun] | [(_ & e0 & t0 & Hrect & Hrun)
         | [(_ & rect0 & e0 & t0 & _ & Hcount & Hrun)
         | (_ & rect0 & t0 & p0 & outcome & plot' & tp & _ & _ & Hrun & _)]]];
      rewrite Hrun; simpl; intros Hthrow; try done.
    + left. congruence.
    + injection Hthrow as ->. right.
      destruct (resolveRectangle_errors w opts e) as [H|[H|H]];
        [by rewrite Hrect | by left | by right; left | by right; right; right].
    + injection Hthrow as ->. right. right. right. left.
      unfold newArrayFill in Hcount. case_match; congruence.
  - intros Hproj Hguard.
    rewrite (constructor_no_rectangle w opts e []); [done | done |].
    unfold resolveRectangle. fold prjCode. fold proj. rewrite Hproj. done.
Qed.

(** ** Tiles: the read that a request issues, and what it leaves behind *)

Lemma housekeeping_trace (t : list (@Effect Num)) :
  Forall (λ ef, isHousekeeping ef = true) t →
  Forall (λ ef, isQuiet ef = true) t
  ∧ Forall (λ ef, isRender ef = false) t
  ∧ List.filter isDecode t = [].
Proof.
  intros H. split; [|split].
  - eapply Forall_impl; [exact H|]. by intros [].
  - eapply Forall_impl; [exact H|]. by intros [].
  - apply filter_isDecode_quiet. eapply Forall_impl; [exact H|]. by intros [].
Qed.

Lemma fetchImage_run (w : World) index (this : Provider) image :
  imageAvailable w this index image →
  ∃ images t0,
    fetchImage w index this = (Ok image, withImages this (Some images), t0)
    ∧ Forall (λ ef, isHousekeeping ef = true) t0
    ∧ images !! index = Some image.
Proof.
  intros (images & Himages & [Hmem | [Hnone Hget]]);
    unfold fetchImage; munfold; rewrite Himages; simpl.
  - rewrite Hmem. exists images, []. split; [|by split].
    do 2 f_equal. destruct this; simpl in *; by subst.
  - rewrite Hnone, Hget. simpl.
    exists (<[index := image]> images), [CallGetImage index].
    split; [done|]. split; [by repeat constructor | apply lookup_insert_eq].
Qed.

Lemma destroy_housekeeping (this : Provider) :
  ∃ t, destroy this
       = (Ok tt,
          withDestroyed (withImagesCache (withImages this None) None) true, t)
       ∧ Forall (λ ef : @Effect Num, isHousekeeping ef = true) t.
Proof.
  unfold destroy. munfold. simpl.
  destruct (bool_decide (is_Some (plot this))); simpl;
    (eexists; split; [reflexivity | by repeat constructor]).
Qed.

(** The run of [_loadTile] when the image of the level is at hand. *)
Lemma _loadTile_shape (w : World) (x y z : Z) (this : Provider) image :
  imageAvailable w this (lookupZ (cogLevels this) z) image →
  ∃ images t0,
    Forall (λ ef, isHousekeeping ef = true) t0
    ∧ images !! lookupZ (cogLevels this) z = Some image
    ∧ _loadTile w x y z this
      = (let s1 :=
           if destroyedWhileLoading w
           then withDestroyed
                  (withImagesCache
                     (withImages (withImages this (Some images)) None) None) true
           else withImages this (Some images) in
         match readOutcome w this image (tileReadOptions this image x y z) with
         | Ok res =>
             (Ok {| tile_data := res; tile_width := tileWidth this;
                    tile_height := tileHeight this |}, s1,
              t0 ++ [readEffect this image (tileReadOptions this image x y z)])
         | Throw e =>
             (Throw e, s1,
              t0 ++ [readEffect this image (tileReadOptions this image x y z);
                     RaiseEvent e])
         end).
Proof.
  intros Hav.
  destruct (fetchImage_run w _ this image Hav) as (images & tf & Hfetch & Hh & Hi).
  unfold _loadTile, readPixels. unfold mbind at 1, M_bind at 1, get.
  unfold mbind at 1, M_bind at 1. rewrite Hfetch.
  unfold tryCatch, mbind, M_bind, when, call, mret, M_ret, emit, throw.
  destruct (destroyedWhileLoading w).
  - destruct (destroy_housekeeping (withImages this (Some images)))
      as (td & -> & Hd).
    exists images, (tf ++ td). split; [by apply Forall_app|]. split; [done|].
    destruct (readOutcome w this image _) as [res|e]; simpl;
      by rewrite <- ?app_assoc.
  - exists images, tf. split; [done|]. split; [done|].
    destruct (readOutcome w this image _) as [res|e]; simpl;
      by rewrite <- ?app_assoc.
Qed.

(** After the tile is loaded [renderTile] reads no more pixels, raises no
    event and does not set [ready]. *)
Lemma renderTile_trace (w : World) (x y z : Z) (this : Provider) :
  ∃ t2, (renderTile numOfZ w x y z this).2 = (_loadTile w x y z this).2 ++ t2
        ∧ Forall (λ ef, isQuiet ef = true) t2.
Proof.
  unfold renderTile. unfold mbind at 1, M_bind at 1.
  destruct (_loadTile w x y z this) as [[[tile|e] s1] t1]; simpl.
  2: { exists []. by rewrite app_nil_r. }
  unfold mbind at 1, M_bind at 1, get.
  destruct (_destroyed s1). { exists []. by split. }
  unfold mbind at 1, M_bind at 1.
  pose proof (composite_state w tile s1) as Hst.
  pose proof (composite_trace w tile s1) as Hq.
  destruct (composite numOfZ w tile s1) as [[[result|e] s1'] tc];
    simpl in Hst, Hq; subst s1'.
  2: { exists tc. by split. }
  destruct result as [img|].
  - destruct (truthyZ (_cacheTime s1)); simpl.
    + destruct (_imagesCache s1); munfold; simpl;
        (eexists; split; [reflexivity|]); rewrite ?app_nil_r; done.
    + munfold. simpl. eexists. split; [reflexivity|]. by rewrite ?app_nil_r.
  - munfold. simpl. eexists. split; [reflexivity|]. by rewrite ?app_nil_r.
Qed.

(** On a miss [requestImage] is [renderTile], with a failure logged and
    raised. *)
Lemma requestImage_miss_run (w : World) (this : Provider) (x y z : Z) :
  ready this = true →
  minimumLevel this ≤ z ≤ maximumLevel this →
  cacheMiss this (cacheKey x y z) →
  let inner := renderTile numOfZ w x y z this in
  requestImage numOfZ w x y z this
  = (inner.1.1, inner.1.2,
     inner.2 ++ match inner.1.1 with
                | Ok _ => []
                | Throw e => [ConsoleError e; RaiseEvent e]
                end).
Proof.
  intros Hready Hz Hmiss inner. rewrite requestImage_miss by done.
  subst inner. unfold tryCatch.
  destruct (renderTile numOfZ w x y z this) as [[[res|e] s1] t1]; simpl.
  - by rewrite app_nil_r.
  - munfold. simpl. done.
Qed.

Lemma readEffect_not_render (this : Provider) image options :
  isRender (readEffect this image options) = false.
Proof. unfold readEffect. by destruct (truthyFlag _). Qed.

Lemma requestImage_miss_reads (w : World) (this : Provider) (x y z : Z) image :
  ready this = true →
  minimumLevel this ≤ z ≤ maximumLevel this →
  cacheMiss this (cacheKey x y z) →
  imageAvailable w this (lookupZ (cogLevels this) z) image →
  List.filter isDecode (requestImage numOfZ w x y z this).2
  = [readEffect this image (tileReadOptions this image x y z)].
Proof.
  intros Hready Hz Hmiss Hav.
  rewrite requestImage_miss_run by done. cbn [snd].
  destruct (renderTile_trace w x y z this) as (t2 & -> & Hq2).
  destruct (_loadTile_shape w x y z this image Hav) as (images & t0 & Hh & _ & ->).
  apply housekeeping_trace in Hh as (_ & _ & Hd0).
  apply filter_isDecode_quiet in Hq2.
  assert (List.filter isDecode
            match (renderTile numOfZ w x y z this).1.1 with
            | Ok _ => []
            | Throw e => [ConsoleError e; @RaiseEvent Num e]
            end = []) as Hd3 by (by destruct (renderTile _ _ _ _ _ _).1.1).
  destruct (readOutcome w this image _) as [res|e]; cbn [snd];
    rewrite !List.filter_app, Hd0, Hq2, Hd3.
  - by rewrite filter_isDecode_read.
  - change [readEffect this image (tileReadOptions this image x y z); RaiseEvent e]
      with ([readEffect this image (tileReadOptions this image x y z)]
            ++ [RaiseEvent e]).
    by rewrite List.filter_app, filter_isDecode_read.
Qed.

(** Fetching an image handle that is neither memoised nor delivered. *)
Lemma fetchImage_unavailable (w : World) index (this : Provider) :
  (∀ image, ¬ imageAvailable w this index image) →
  ∃ e t, fetchImage w index this = (Throw e, this, t)
         ∧ List.filter isDecode t = [].
Proof.
  intros Hnone. unfold fetchImage. munfold.
  destruct (_images this) as [images|] eqn:Himages; simpl.
  2: { by eexists _, []. }
  destruct (images !! index) as [image|] eqn:Hmem; simpl.
  { destruct (Hnone image). exists images. split; [done | by left]. }
  destruct (getImage w index) as [image|e] eqn:Hget; simpl.
  { destruct (Hnone image). exists images. split; [done | by right]. }
  by eexists e, _.
Qed.

Lemma requestImage_miss_no_image (w : World) (this : Provider) (x y z : Z) :
  ready this = true →
  minimumLevel this ≤ z ≤ maximumLevel this →
  cacheMiss this (cacheKey x y z) →
  (∀ image, ¬ imageAvailable w this (lookupZ (cogLevels this) z) image) →
  ∃ e t, requestImage numOfZ w x y z this = (Throw e, this, t)
         ∧ List.filter isDecode t = [].
Proof.
  intros Hready Hz Hmiss Hnone.
  destruct (fetchImage_unavailable w _ this Hnone) as (e & t & Hfetch & Hdec).
  rewrite requestImage_miss_run by done.
  assert (renderTile numOfZ w x y z this = (Throw e, this, t)) as ->.
  { unfold renderTile, _loadTile. unfold mbind at 1, M_bind at 1.
    unfold mbind at 1, M_bind at 1, get. unfold mbind at 1, M_bind at 1.
    by rewrite Hfetch. }
  cbn [fst snd]. eexists e, _. split; [reflexivity|].
  by rewrite List.filter_app, Hdec.
Qed.

(** X13: A request that is not answered from the cache issues exactly one
    windowed read when the image of the level is at hand (memoised, or
    fetched from the decoder), whatever happens afterwards: a read of that
    image, resampled to the tile size of the provider, of the samples
    [readSamples], with the resampling method of the options, not
    interleaved, through [readRGB] exactly when [convertToRGB] is set.  When
    the image is not at hand (the decoder cannot deliver it, or the provider
    is destroyed) the request rejects and no read is issued. *)
Theorem requestImage_reads_once (w : World) (this : Provider) (x y z : Z) :
  ready this = true →
  minimumLevel this ≤ z ≤ maximumLevel this →
  cacheMiss this (cacheKey x y z) →
  let run := requestImage numOfZ w x y z this in
  let index := lookupZ (cogLevels this) z in
  (∀ image,
     imageAvailable w this index image →
     ∃ window,
       let options :=
         {| read_window := Some window;
            read_width := Some (tileWidth this);
            read_height := Some (tileHeight this);
            read_samples := Some (readSamples this);
            read_resampleMethod := opt_resampleMethod (options this);
            read_interleave := Some false |} in
       List.filter isDecode run.2
       = [if truthyFlag (convertToRGB (renderOptions this))
          then CallReadRGB image options else CallReadRasters image options])
  ∧ ((∀ image, ¬ imageAvailable w this index image) →
     (∃ e, run.1.1 = Throw e) ∧ decodeCalls run.2 = 0%nat).
Proof.
  intros Hready Hz Hmiss run index. split.
  - intros image Hav.
    exists (pixelBounds (getWidth image) (getHeight image) x y z).
    subst run. by rewrite (requestImage_miss_reads w this x y z image).
  - intros Hnone.
    destruct (requestImage_miss_no_image w this x y z Hready Hz Hmiss Hnone)
      as (e & t & Hrun & Hdec).
    subst run. rewrite Hrun. cbn [fst snd]. split; [eauto|].
    unfold decodeCalls. by rewrite Hdec.
Qed.

Lemma decodeCalls_filter (t : list (@Effect Num)) :
  decodeCalls t = length (List.filter isDecode t).
Proof. done. Qed.

(** X14: A [destroy] that arrives while the tile is being decoded: the decoded
    pixels are dropped.  The request returns [undefined] without an error;
    nothing is rendered and the provider is left destroyed. *)
Theorem requestImage_destroyed_while_loading (w : World) (this : Provider)
    (x y z : Z) image res :
  destroyedWhileLoading w = true →
  ready this = true →
  minimumLevel this ≤ z ≤ maximumLevel this →
  cacheMiss this (cacheKey x y z) →
  imageAvailable w this (lookupZ (cogLevels this) z) image →
  readOutcome w this image (tileReadOptions this image x y z) = Ok res →
  let run := requestImage numOfZ w x y z this in
  run.1.1 = Ok None
  ∧ _destroyed run.1.2 = true ∧ _imagesCache run.1.2 = None
  ∧ raisedEvents run.2 = [] ∧ decodeCalls run.2 = 1%nat
  ∧ Forall (λ ef, isRender ef = false) run.2.
Proof.
  intros Hd Hready Hz Hmiss Hav Hread run.
  pose proof (requestImage_miss_reads w this x y z image Hready Hz Hmiss Hav)
    as Hreads.
  destruct (_loadTile_shape w x y z this image Hav)
    as (images & t0 & Hh & _ & Hload).
  rewrite Hd, Hread in Hload. cbv zeta in Hload.
  assert (∃ s1, _destroyed s1 = true ∧ _imagesCache s1 = None
            ∧ renderTile numOfZ w x y z this
              = (Ok None, s1,
                 t0 ++ [readEffect this image (tileReadOptions this image x y z)]))
    as (s1 & Hs1 & Hc1 & Hinner).
  { eexists. split; [|split]; [| |unfold renderTile, mbind, M_bind, get;
      rewrite Hload; cbn [_destroyed withDestroyed]; unfold mret, M_ret;
      by rewrite app_nil_r]; done. }
  subst run. rewrite decodeCalls_filter, Hreads.
  rewrite requestImage_miss_run by done. rewrite Hinner. cbn [fst snd].
  apply housekeeping_trace in Hh as (Hq & Hr & _).
  apply quiet_trace in Hq as (Hev & _ & _).
  split; [done|]. split; [done|]. split; [done|]. split; [|split; [done|]].
  - rewrite app_nil_r, raisedEvents_app, Hev.
    apply (readEffect_counts this image (tileReadOptions this image x y z)).
  - rewrite app_nil_r. apply Forall_app. split; [done|].
    repeat constructor. apply readEffect_not_render.
Qed.

(** X15: A provider with nothing to render with (no [multi], no [convertToRGB]
    and either no [single] or a [single] whose plot could not be set up)
    still decodes every tile it is asked for, and then returns [undefined]:
    without an error event, without a rendering call and without a cache
    entry, so the next request for the tile decodes it again. *)
Theorem requestImage_nothing_to_render (w : World) (this : Provider)
    (x y z : Z) image res :
  destroyedWhileLoading w = false →
  ready this = true →
  minimumLevel this ≤ z ≤ maximumLevel this →
  cacheMiss this (cacheKey x y z) →
  imageAvailable w this (lookupZ (cogLevels this) z) image →
  readOutcome w this image (tileReadOptions this image x y z) = Ok res →
  multi (renderOptions this) = None →
  truthyFlag (convertToRGB (renderOptions this)) = false →
  single (renderOptions this) = None ∨ plot this = None →
  let run := requestImage numOfZ w x y z this in
  run.1.1 = Ok None
  ∧ _imagesCache run.1.2 = _imagesCache this
  ∧ cacheMiss run.1.2 (cacheKey x y z)
  ∧ raisedEvents run.2 = [] ∧ decodeCalls run.2 = 1%nat
  ∧ Forall (λ ef, isRender ef = false) run.2.
Proof.
  intros Hd Hready Hz Hmiss Hav Hread Hmulti Hflag Hmode run.
  pose proof (requestImage_miss_reads w this x y z image Hready Hz Hmiss Hav)
    as Hreads.
  destruct (_loadTile_shape w x y z this image Hav)
    as (images & t0 & Hh & _ & Hload).
  rewrite Hd, Hread in Hload. cbv zeta in Hload.
  assert (renderTile numOfZ w x y z this
          = (Ok None, withImages this (Some images),
             t0 ++ [readEffect this image (tileReadOptions this image x y z)]))
    as Hinner.
  { unfold renderTile. unfold mbind at 1, M_bind at 1. rewrite Hload.
    unfold mbind at 1, M_bind at 1, get. cbn [_destroyed withImages].
    destruct (_destroyed this); [unfold mret, M_ret; by rewrite app_nil_r|].
    unfold composite, mbind, M_bind, get. cbn [renderOptions plot withImages].
    rewrite Hmulti, Hflag. cbn [bool_decide orb].
    rewrite bool_decide_eq_false_2 by (by intros [? ?]). cbn [orb].
    destruct Hmode as [-> | ->]; [|destruct (single _)];
      unfold mret, M_ret; cbn; by rewrite ?app_nil_r. }
  subst run. rewrite decodeCalls_filter, Hreads.
  rewrite requestImage_miss_run by done. rewrite Hinner. cbn [fst snd].
  apply housekeeping_trace in Hh as (Hq & Hr & _).
  apply quiet_trace in Hq as (Hev & _ & _).
  split; [done|]. split; [by destruct this|]. split.
  { destruct Hmiss as [Hoff | (cache & Hcache & Hnone)]; [by left|].
    right. exists cache. by destruct this. }
  split; [|split; [done|]].
  - rewrite app_nil_r, raisedEvents_app, Hev.
    apply (readEffect_counts this image (tileReadOptions this image x y z)).
  - rewrite app_nil_r. apply Forall_app. split; [done|].
    repeat constructor. apply readEffect_not_render.
Qed.

Lemma _loadTile_state (w : World) (x y z : Z) (this : Provider) :
  destroyedWhileLoading w = false →
  ∃ v, (_loadTile w x y z this).1.2 = withImages this v.
Proof.
  intros Hd. unfold _loadTile, readPixels. unfold mbind at 1, M_bind at 1, get.
  unfold mbind at 1, M_bind at 1.
  destruct (fetchImage_shape w (lookupZ (cogLevels this) z) this)
    as (v & Hstate & _).
  destruct (fetchImage w _ this) as [[[image|e] s0] t0]; simpl in *; subst s0;
    [|by exists v].
  unfold tryCatch, mbind, M_bind, when, call, mret, M_ret, emit, throw.
  rewrite Hd. exists v.
  by destruct (readOutcome w this image _).
Qed.

Lemma requestImage_cache_off (w : World) (this : Provider) (x y z : Z) :
  _cacheTime this = 0 → ready this = true →
  minimumLevel this ≤ z ≤ maximumLevel this →
  destroyedWhileLoading w = false →
  ∃ v, (requestImage numOfZ w x y z this).1.2 = withImages this v.
Proof.
  intros Hoff Hready Hz Hd.
  rewrite requestImage_miss_run by (done || by left; rewrite Hoff).
  cbn [fst snd]. unfold renderTile. unfold mbind at 1, M_bind at 1.
  destruct (_loadTile_state w x y z this Hd) as (v & Hstate).
  destruct (_loadTile w x y z this) as [[[tile|e] s1] t1]; simpl in Hstate;
    subst s1; [|by exists v].
  unfold mbind at 1, M_bind at 1, get.
  destruct (_destroyed (withImages this v)); [by exists v|].
  unfold mbind at 1, M_bind at 1.
  pose proof (composite_state w tile (withImages this v)) as Hst.
  destruct (composite numOfZ w tile (withImages this v))
    as [[[result|e] s1'] tc]; simpl in Hst; subst s1'; [|by exists v].
  cbn [_cacheTime withImages]. rewrite Hoff. exists v.
  by destruct result.
Qed.

(** X16: With a cache time of 0 the tile cache is out of use: an entry that sits
    in it is not served, the tile is decoded on every request, and the
    request leaves the cache as it was. *)
Theorem requestImage_cache_disabled (w : World) (this : Provider) (x y z : Z) :
  _cacheTime this = 0 → ready this = true →
  minimumLevel this ≤ z ≤ maximumLevel this →
  destroyedWhileLoading w = false →
  let run := requestImage numOfZ w x y z this in
  _imagesCache run.1.2 = _imagesCache this
  ∧ _cacheTime run.1.2 = 0
  ∧ ∀ image, imageAvailable w this (lookupZ (cogLevels this) z) image →
      decodeCalls run.2 = 1%nat.
Proof.
  intros Hoff Hready Hz Hd run. subst run.
  destruct (requestImage_cache_off w this x y z Hoff Hready Hz Hd) as (v & ->).
  split; [by destruct this|]. split; [by destruct this|].
  intros image Hav. rewrite decodeCalls_filter.
  rewrite (requestImage_miss_reads w this x y z image); try done.
  left. by rewrite Hoff.
Qed.

(** X17: [destroy] and what follows it.  A destroyed provider has lost its image
    handles and its tile cache, and nothing else; destroying it again
    changes nothing.  A tile request in the zoom range then fails with a
    [TypeError] before any decoder or rendering call: with caching on, the
    error escapes before the [try], so it is not even raised on the error
    channel.  An enabled feature probe fails the same way. *)
Theorem destroy_then_use (this : Provider) :
  let s := (destroy this).1.2 in
  (destroy this).1.1 = Ok tt
  ∧ isDestroyed s = true ∧ _images s = None ∧ _imagesCache s = None
  ∧ mutatedOnly this s
  ∧ (destroy s).1.2 = s
  ∧ (∀ (w : World) x y z,
       ready this = true → minimumLevel this ≤ z ≤ maximumLevel this →
       let run := requestImage numOfZ w x y z s in
       ∃ msg,
         run.1.1 = Throw (TypeError msg)
         ∧ run.1.2 = s
         ∧ Forall (λ ef, isDecoderCall ef = false ∧ isRender ef = false) run.2
         ∧ raisedEvents run.2
           = if truthyZ (_cacheTime this) then [] else [TypeError msg])
  ∧ (∀ (w : World) x y zoom lon lat,
       truthyFlag (opt_enablePickFeatures (options this)) = true →
       ∃ msg, pickFeatures doubleOf w x y zoom lon lat s
              = (Throw (TypeError msg), s, [])).
Proof.
  intros s. destruct (destroy_run this) as (t & Hrun & _).
  subst s. rewrite Hrun. cbn [fst snd].
  split; [done|]. split; [done|]. split; [done|]. split; [done|].
  split; [by destruct this|]. split.
  { destruct (destroy_run
                (withDestroyed (withImagesCache (withImages this None) None) true))
      as (t' & -> & _). by destruct this. }
  split.
  - intros w x y z Hready Hz.
    assert ((z <? minimumLevel this) || (maximumLevel this <? z) = false) as Hin
      by (apply orb_false_iff; lia).
    destruct this. simpl in *. subst.
    unfold requestImage, renderTile, _loadTile, fetchImage. munfold. simpl.
    rewrite Hin. destruct (truthyZ _); simpl; eexists; by repeat constructor.
  - intros w x y zoom lon lat Hon. destruct this. simpl in *.
    unfold pickFeatures, fetchImage. munfold. simpl. rewrite Hon. simpl.
    by eexists.
Qed.

Lemma fetchImage_ok (w : World) index (this s0 : Provider) image t0 :
  fetchImage w index this = (Ok image, s0, t0) →
  ∃ images, s0 = withImages this (Some images)
    ∧ images !! index = Some image
    ∧ (length (List.filter isGetImage t0) ≤ 1)%nat.
Proof.
  unfold fetchImage. munfold.
  destruct (_images this) as [images|] eqn:Himages; simpl; [|done].
  destruct (images !! index) as [image'|] eqn:Hmem; simpl.
  - intros [= <- <- <-]. exists images. split; [by destruct this; simpl in *; subst|].
    split; [done | simpl; lia].
  - destruct (getImage w index) as [image'|e]; simpl; [|done].
    intros [= <- <- <-]. eexists. split; [done|].
    split; [apply lookup_insert_eq | simpl; lia].
Qed.

Lemma _loadTile_memoised (w : World) (x y z : Z) (this : Provider) images image :
  _images this = Some images →
  images !! lookupZ (cogLevels this) z = Some image →
  List.filter isGetImage (_loadTile w x y z this).2 = [].
Proof.
  intros Himages Hmem.
  unfold _loadTile, fetchImage, readPixels, readEffect, destroy. munfold.
  rewrite Himages. simpl. rewrite Hmem. simpl.
  destruct (destroyedWhileLoading w), (bool_decide (is_Some (plot this)));
    simpl; destruct (readOutcome w this image _); simpl;
    by destruct (truthyFlag _).
Qed.

(** X18: The image handle of a level is fetched once: a load that succeeded has
    asked the decoder for at most one handle, and afterwards no load at the
    same zoom, of whatever tile, asks for a handle again. *)
Theorem loadTile_memoises (w : World) (x y z : Z) (this s1 : Provider) tile t :
  _loadTile w x y z this = (Ok tile, s1, t) →
  _destroyed s1 = false →
  (length (List.filter isGetImage t) ≤ 1)%nat
  ∧ ∀ (w' : World) x' y',
      List.filter isGetImage (_loadTile w' x' y' z s1).2 = [].
Proof.
  unfold _loadTile at 1, readPixels. unfold mbind at 1, M_bind at 1, get.
  unfold mbind at 1, M_bind at 1.
  destruct (fetchImage w _ this) as [[[image|e] s0] t0] eqn:Hfetch; [|done].
  apply fetchImage_ok in Hfetch as (images & -> & Hmem & Hlen).
  unfold tryCatch, mbind, M_bind, when, call, mret, M_ret, emit, throw.
  destruct (destroyedWhileLoading w).
  - destruct (destroy_run (withImages this (Some images))) as (td & -> & _).
    destruct (readOutcome w this image _); simpl; [|done].
    by intros [= <- <- <-].
  - destruct (readOutcome w this image _); simpl; [|done].
    intros [= <- <- <-] _. split.
    + rewrite List.filter_app, length_app.
      unfold readEffect. destruct (truthyFlag _); simpl; lia.
    + intros w' x' y'.
      apply (_loadTile_memoised w' x' y' z _ images image); by destruct this.
Qed.

(** ** Tile windows *)

Lemma tiles_at_level (z : Z) :
  0 ≤ z ≤ 30 →
  getNumberOfXTilesAtLevel z = 2 ^ z ∧ getNumberOfYTilesAtLevel z = 2 ^ z.
Proof.
  intros Hz.
  unfold getNumberOfXTilesAtLevel, getNumberOfYTilesAtLevel, shiftLeft32, toInt32.
  rewrite (Z.mod_small z 32) by lia.
  assert (0 < 2 ^ z) by (apply Z.pow_pos_nonneg; lia).
  assert (2 ^ z ≤ 2 ^ 30) by (apply Z.pow_le_mono_r; lia).
  change (2 ^ 30) with 1073741824 in *. change (2 ^ 31) with 2147483648.
  change (2 ^ 32) with 4294967296.
  rewrite Z.mul_1_l, Z.mod_small by lia. lia.
Qed.

Lemma roundDiv_mono (n1 n2 d : Z) :
  0 < d → n1 ≤ n2 → roundDiv n1 d ≤ roundDiv n2 d.
Proof. intros Hd Hn. unfold roundDiv. apply Z.div_le_mono; lia. Qed.

Lemma roundDiv_0 (d : Z) : 0 < d → roundDiv 0 d = 0.
Proof. intros Hd. unfold roundDiv. apply Z.div_small. lia. Qed.

Lemma roundDiv_exact (k d : Z) : 0 < d → roundDiv (d * k) d = k.
Proof.
  intros Hd. unfold roundDiv.
  replace (2 * (d * k) + d) with (d + k * (2 * d)) by lia.
  rewrite Z.div_add by lia. rewrite Z.div_small by lia. lia.
Qed.

(** X19: At a zoom level of at most 30 the pixel windows of the [2^z] by [2^z]
    tiles partition the image: the window of a tile lies inside the image,
    the first window starts at 0, the last one ends at the image size, and
    each window ends where the window of the next tile starts. *)
Theorem pixelBounds_partition (W H x y z : Z) :
  0 ≤ z ≤ 30 → 0 ≤ W → 0 ≤ H → 0 ≤ x < 2 ^ z → 0 ≤ y < 2 ^ z →
  let '(x0, y0, x1, y1) := pixelBounds W H x y z in
  0 ≤ x0 ≤ x1 ∧ x1 ≤ W ∧ 0 ≤ y0 ≤ y1 ∧ y1 ≤ H
  ∧ (x = 0 → x0 = 0) ∧ (x = 2 ^ z - 1 → x1 = W)
  ∧ (y = 0 → y0 = 0) ∧ (y = 2 ^ z - 1 → y1 = H)
  ∧ (pixelBounds W H (x + 1) y z).1.1.1 = x1
  ∧ (pixelBounds W H x (y + 1) z).1.1.2 = y1.
Proof.
  intros Hz HW HH Hx Hy. unfold pixelBounds.
  destruct (tiles_at_level z Hz) as [-> ->].
  assert (0 < 2 ^ z) as Hd by lia.
  pose proof (roundDiv_0 (2 ^ z) Hd) as H0.
  pose proof (roundDiv_exact W (2 ^ z) Hd) as HxW.
  pose proof (roundDiv_exact H (2 ^ z) Hd) as HyH.
  pose proof (roundDiv_mono 0 (x * W) (2 ^ z) Hd ltac:(nia)) as Hx0.
  pose proof (roundDiv_mono (x * W) ((x + 1) * W) (2 ^ z) Hd ltac:(nia)) as Hx1.
  pose proof (roundDiv_mono ((x + 1) * W) (2 ^ z * W) (2 ^ z) Hd ltac:(nia)) as Hx2.
  pose proof (roundDiv_mono 0 (y * H) (2 ^ z) Hd ltac:(nia)) as Hy0.
  pose proof (roundDiv_mono (y * H) ((y + 1) * H) (2 ^ z) Hd ltac:(nia)) as Hy1.
  pose proof (roundDiv_mono ((y + 1) * H) (2 ^ z * H) (2 ^ z) Hd ltac:(nia)) as Hy2.
  cbn [fst snd].
  split; [lia|]. split; [lia|]. split; [lia|]. split; [lia|].
  split; [by intros ->|].
  split; [intros ->; by replace ((2 ^ z - 1 + 1) * W) with (2 ^ z * W) by lia|].
  split; [by intros ->|].
  split; [intros ->; by replace ((2 ^ z - 1 + 1) * H) with (2 ^ z * H) by lia|].
  done.
Qed.

(** ** The probed pixel, in doubles *)

Lemma Double_sub_diag (d : double) : zeroOrNaN (Double.sub d d).
Proof.
  destruct d as [[]|[]| |s m e]; simpl; try done.
  unfold Double.sub, SFsub. rewrite Z.sub_diag. done.
Qed.

Lemma Double_ltb_irrefl (d : double) : Double.ltb d d = false.
Proof.
  destruct d as [[]|[]| |s m e]; try done.
  unfold Double.ltb, SFltb, SFcompare.
  rewrite Z.compare_refl, Pos.compare_cont_refl. by destruct s.
Qed.

Lemma Double_div_zero_l (a b : double) :
  zeroOrNaN a → zeroOrNaN (Double.div a b).
Proof. by destruct a, b. Qed.

Lemma Double_div_zero_r (a b : double) :
  zeroOrNaN b → infinityOrNaN (Double.div a b).
Proof. by destruct a, b. Qed.

Lemma Double_mul_zero_l (a b : double) :
  zeroOrNaN a → zeroOrNaN (Double.mul a b).
Proof. by destruct a, b. Qed.

Lemma Double_mul_infinity_l (a b : double) :
  infinityOrNaN a → infinityOrNaN (Double.mul a b).
Proof. by destruct a, b. Qed.

Lemma Double_abs_zero (a : double) : zeroOrNaN a → zeroOrNaN (Double.abs a).
Proof. by destruct a. Qed.

Lemma Double_abs_infinity (a : double) :
  infinityOrNaN a → infinityOrNaN (Double.abs a).
Proof. by destruct a. Qed.

Lemma Double_tildeTilde_zero (a : double) :
  zeroOrNaN a ∨ infinityOrNaN a → Double.tildeTilde a = 0.
Proof. by destruct a; intros [|]. Qed.

(** X20: The probe's arithmetic at the edges.  A point whose longitude is that
    of the west edge is read in column 0, and a point whose latitude is that
    of the north edge in row 0, whatever the rectangle and the image are.
    Over a rectangle of zero width (east equal to west) the offset is divided
    by zero and every point is read in column 0; over one of zero height
    every point is read in row 0.  A longitude that is NaN is read in column
    0 and a latitude that is NaN in row 0. *)
Theorem pickPixel_edges (rect : Rectangle) (image : @GeoTIFFImage Num)
    (lon lat : double) :
  let pixel := pickPixel doubleOf rect image lon lat in
  (lon = doubleOf (west rect) → pixel.1 = 0)
  ∧ (lat = doubleOf (north rect) → pixel.2 = 0)
  ∧ (doubleOf (east rect) = doubleOf (west rect) → pixel.1 = 0)
  ∧ (doubleOf (north rect) = doubleOf (south rect) → pixel.2 = 0)
  ∧ (lon = S754_nan → pixel.1 = 0)
  ∧ (lat = S754_nan → pixel.2 = 0).
Proof.
  unfold pickPixel, rectangleWidth. cbn [fst snd].
  split; [|split; [|split; [|split; [|split]]]].
  - intros ->. rewrite Double_ltb_irrefl.
    apply Double_tildeTilde_zero. left.
    apply Double_mul_zero_l, Double_abs_zero, Double_div_zero_l,
      Double_sub_diag.
  - intros ->. apply Double_tildeTilde_zero. left.
    apply Double_mul_zero_l, Double_abs_zero, Double_div_zero_l,
      Double_sub_diag.
  - intros ->. rewrite Double_ltb_irrefl.
    apply Double_tildeTilde_zero. right.
    apply Double_mul_infinity_l, Double_abs_infinity, Double_div_zero_r,
      Double_sub_diag.
  - intros ->. apply Double_tildeTilde_zero. right.
    apply Double_mul_infinity_l, Double_abs_infinity, Double_div_zero_r,
      Double_sub_diag.
  - intros ->. apply Double_tildeTilde_zero. left.
    by apply Double_mul_zero_l, Double_abs_zero, Double_div_zero_l.
  - intros ->. apply Double_tildeTilde_zero. left.
    apply Double_mul_zero_l, Double_abs_zero, Double_div_zero_l.
    by destruct (doubleOf (north rect)).
Qed.

(** ** Creation from a source *)

Lemma fromGeoTIFF_wraps (w : World) ro e :
  (fromGeoTIFF numOfZ toNumber isNaN findAndSortBandNumbers getMinMax w ro tt).1.1
  = Throw e →
  ∃ cause, e = Error ("Error creating ImageryProvider from GeoTIFF: "
                      +:+ message cause).
Proof.
  unfold fromGeoTIFF, tryCatch.
  destruct (_ ≫= _) as [[[p|cause] []] t]; [done|].
  unfold throw. simpl. intros [= <-]. eauto.
Qed.


(** The steps of a creation that succeeds. *)
Lemma fromGeoTIFF_ok (w : World) ro (p : Provider) :
  let run := fromGeoTIFF numOfZ toNumber isNaN findAndSortBandNumbers getMinMax
               w ro tt in
  run.1.1 = Ok p →
  ∃ image imageCount levels samples bands final tb tc,
    getImage w None = Ok image
    ∧ getImageCount w = Ok imageCount
    ∧ getCogLevels (getImage w) imageCount
        (orElseZ (Some (getTileWidth image)) 512) = Ok levels
    ∧ getReadSamples findAndSortBandNumbers ro = Ok samples
    ∧ getBandValues numOfZ toNumber isNaN getMinMax w ro samples image levels ∅
      = (Ok bands, final, tb)
    ∧ constructor w (geoTIFFOptions image imageCount levels samples bands ro) tt
      = (Ok p, tt, tc)
    ∧ run.2 = [CallGetImage None] ++ tb ++ tc.
Proof.
  intros run. subst run.
  destruct (getImage w None) as [image|e] eqn:Himage.
  2: { unfold fromGeoTIFF, tryCatch, mbind, M_bind, call, throw.
       by rewrite Himage. }
  destruct (getImageCount w) as [imageCount|e] eqn:Hcount.
  2: { unfold fromGeoTIFF, tryCatch, mbind, M_bind, call, liftRes, throw.
       by rewrite Himage, Hcount. }
  destruct (getCogLevels (getImage w) imageCount
              (orElseZ (Some (getTileWidth image)) 512)) as [levels|e] eqn:Hlevels.
  2: { unfold fromGeoTIFF, tryCatch, mbind, M_bind, call, liftRes, throw.
       by rewrite Himage, Hcount, Hlevels. }
  destruct (getReadSamples findAndSortBandNumbers ro) as [samples|e] eqn:Hsamples.
  2: { unfold fromGeoTIFF, tryCatch, mbind, M_bind, call, liftRes, throw.
       by rewrite Himage, Hcount, Hlevels, Hsamples. }
  destruct (getBandValues numOfZ toNumber isNaN getMinMax w ro samples image
              levels ∅) as [[[bands|e] final] tb] eqn:Hbands.
  2: { unfold fromGeoTIFF, tryCatch, mbind, M_bind, call, liftRes, throw,
         withLocal.
       by rewrite Himage, Hcount, Hlevels, Hsamples, Hbands. }
  destruct (constructor w
              (geoTIFFOptions image imageCount levels samples bands ro) tt)
    as [[[p'|e] []] tc] eqn:Hctor;
    unfold fromGeoTIFF, tryCatch, mbind, M_bind, call, liftRes, throw, withLocal;
    rewrite Himage, Hcount, Hlevels, Hsamples, Hbands; cbn [fmap Res_fmap];
    fold (geoTIFFOptions image imageCount levels samples bands ro);
    rewrite Hctor; simpl; [|done].
  intros [= <-].
  by exists image, imageCount, levels, samples, bands, final, tb, tc.
Qed.

Lemma getBandValues_returns_state (w : World) ro (l : list Z)
    (image : @GeoTIFFImage Num) (levels : list Z)
    (bands0 bands final : gmap Z BandRange) t :
  getBandValues numOfZ toNumber isNaN getMinMax w ro l image levels bands0
  = (Ok bands, final, t) →
  bands = final.
Proof.
  unfold getBandValues, mbind, M_bind.
  destruct (startCallbacks _ _ ro image l bands0) as [[[pending|e] bands1] t1];
    [|done].
  destruct (resumeCallbacks _ _ w ro image levels pending bands1)
    as [[[[e|]|e] bands2] t2]; simpl; try done.
  by intros [= <- <- <-].
Qed.

(** The bands of a provider created from a source are bands of the samples
    that were selected. *)
Lemma fromGeoTIFF_bands (w : World) ro (samples : list Z)
    (image : @GeoTIFFImage Num) (levels : list Z)
    (bands final : gmap Z BandRange) t (k : Z) :
  getBandValues numOfZ toNumber isNaN getMinMax w ro samples image levels ∅
  = (Ok bands, final, t) →
  k - 1 ∉ samples → bands !! k = None.
Proof.
  intros Hrun Hk.
  pose proof (getBandValues_returns_state _ _ _ _ _ _ _ _ _ Hrun) as ->.
  destruct (getBandValues_leaves w ro samples image levels (k - 1) Hk ∅)
    as [Hband _].
  rewrite Hrun in Hband. simpl in Hband.
  replace (k - 1 + 1) with k in Hband by lia. by rewrite Hband.
Qed.

Lemma raisedEvents_elem (t : list (@Effect Num)) (e : JsError) :
  RaiseEvent e ∈ t → e ∈ raisedEvents t.
Proof.
  intros H. unfold raisedEvents. apply list_elem_of_omap. by exists (RaiseEvent e).
Qed.

(** Creation from a source succeeds when each of its steps does. *)
Lemma fromGeoTIFF_completes (w : World) ro (image : @GeoTIFFImage Num)
    (imageCount : Z) (levels samples : list Z)
    (bands final : gmap Z BandRange) tb (rect0 : Rectangle) :
  getImage w None = Ok image →
  getImageCount w = Ok imageCount →
  getCogLevels (getImage w) imageCount
    (orElseZ (Some (getTileWidth image)) 512) = Ok levels →
  getReadSamples findAndSortBandNumbers ro = Ok samples →
  getBandValues numOfZ toNumber isNaN getMinMax w ro samples image levels ∅
  = (Ok bands, final, tb) →
  (getSamplesPerPixel image <? 3) && truthyFlag (convertToRGB ro) = false →
  (resolveRectangle w
     (geoTIFFOptions image imageCount levels samples bands ro) tt).1.1
  = Ok rect0 →
  0 ≤ imageCount < 2 ^ 32 →
  ∃ p, (fromGeoTIFF numOfZ toNumber isNaN findAndSortBandNumbers getMinMax
          w ro tt).1.1 = Ok p.
Proof.
  intros Himage Hcount Hlevels Hsamples Hbands Hguard Hrect Hrange.
  destruct (constructor_completes w
              (geoTIFFOptions image imageCount levels samples bands ro) rect0
              Hguard Hrect Hrange) as (p & tc & Hctor).
  exists p.
  unfold fromGeoTIFF, tryCatch, mbind, M_bind, call, liftRes, throw, withLocal.
  rewrite Himage, Hcount, Hlevels, Hsamples, Hbands. cbn [fmap Res_fmap].
  fold (geoTIFFOptions image imageCount levels samples bands ro).
  by rewrite Hctor.
Qed.

(** X22: Creation from a source in single band mode reads sample 0 whatever band
    was asked for.  So for a band other than 1 (and without an expression)
    no range is known when the plot is set up: the provider is created, but
    without a plot, and "Invalid band" is raised on its error channel.  The
    provider is indeed created whenever the steps before the plot succeed
    (the first image and the image count are delivered, the level map and
    the band values are computed, the extent resolves). *)
Theorem fromGeoTIFF_single_band (w : World) ro s (k : Z) :
  single ro = Some s → band s = Some k → k ≠ 1 →
  truthyOptString (expression s) = false →
  multi ro = None → truthyFlag (convertToRGB ro) = false →
  let run := fromGeoTIFF numOfZ toNumber isNaN findAndSortBandNumbers getMinMax
               w ro tt in
  (∀ p : Provider,
     run.1.1 = Ok p →
     readSamples p = [0] ∧ bands p !! k = None ∧ plot p = None
     ∧ DeveloperError ("Invalid band" +:+ pretty k) ∈ raisedEvents run.2)
  ∧ (∀ image imageCount levels bands final tb rect0,
       getImage w None = Ok image →
       getImageCount w = Ok imageCount →
       getCogLevels (getImage w) imageCount
         (orElseZ (Some (getTileWidth image)) 512) = Ok levels →
       getBandValues numOfZ toNumber isNaN getMinMax w ro [0] image levels ∅
       = (Ok bands, final, tb) →
       (resolveRectangle w
          (geoTIFFOptions image imageCount levels [0] bands ro) tt).1.1
       = Ok rect0 →
       0 ≤ imageCount < 2 ^ 32 →
       ∃ p, run.1.1 = Ok p).
Proof.
  intros Hs Hband Hk Hexpr Hmulti Hflag run. split.
  2: { intros image imageCount levels bands final tb rect0
         Himage Hcount Hlevels Hbands Hrect Hrange.
       eapply fromGeoTIFF_completes; try done.
       - unfold getReadSamples. rewrite Hmulti, Hflag, Hs. simpl.
         destruct (expression s) as [ex|]; simpl in *; [by rewrite Hexpr | done].
       - rewrite Hflag. apply andb_false_r. }
  intros p Hok.
  destruct (fromGeoTIFF_ok w ro p Hok)
    as (image & imageCount & levels & samples & bands & final & tb & tc
        & _ & _ & _ & Hsamples & Hbands & Hctor & Htrace).
  fold run in Htrace. rewrite Htrace.
  assert (samples = [0]) as ->.
  { unfold getReadSamples in Hsamples. rewrite Hmulti, Hflag, Hs in Hsamples.
    simpl in Hsamples. destruct (expression s) as [ex|]; simpl in *;
      [rewrite Hexpr in Hsamples|]; by injection Hsamples. }
  assert (bands !! k = None) as Hnone.
  { eapply fromGeoTIFF_bands; [exact Hbands|].
    intros H. apply elem_of_cons in H as [H|H]; [lia | by apply elem_of_nil in H]. }
  destruct (constructor_cases w
              (geoTIFFOptions image imageCount levels [0] bands ro))
    as [[_ Hrun] | [(_ & e0 & t0 & _ & Hrun)
       | [(_ & rect0 & e0 & t0 & _ & _ & Hrun)
       | (_ & rect0 & t0 & p0 & outcome & plot' & tp & _ & Hplot & Hrun
          & _ & Hp & _ & _ & Hb & _)]]];
    rewrite Hrun in Hctor; try done.
  injection Hctor as -> <-.
  destruct (constructor_settings w _ p ltac:(by rewrite Hrun))
    as (_ & _ & _ & Hread & _).
  cbn [geoTIFFOptions opt_renderOptions opt_bands opt_readSamples opt_image
       default] in *.
  change (Datatypes.id ro) with ro in *.
  assert (initPlot w
            (single (defaultRenderOptions (getSamplesPerPixel image) ro)) bands
            match nodata ro with
            | Some n => Some n
            | None => getGDALNoData image
            end None
          = (Throw (DeveloperError ("Invalid band" +:+ pretty k)), None, []))
    as Hinit.
  { unfold defaultRenderOptions. rewrite Hs. simpl. rewrite Hs. simpl.
    unfold initPlot. simpl. rewrite Hband. simpl. rewrite Hexpr, Hnone.
    reflexivity. }
  rewrite Hinit in Hplot. injection Hplot as <- <- <-.
  split; [done|]. split; [by rewrite Hb|]. split; [done|].
  apply raisedEvents_elem. simpl.
  apply elem_of_cons; right. apply elem_of_app; right.
  apply elem_of_cons; right. apply elem_of_app; right.
  apply elem_of_cons; right. by left.
Qed.

(** X23: Creation from a source with render options in which [single],
    [multi] and [convertToRGB] read as [undefined] resolves sample 0 only,
    whatever the image is; the mode is chosen afterwards by the constructor.
    For an image with several samples it is RGB when the options have no
    [convertToRGB] key; for an image with one sample it is band 1 when they
    have no [single] key.  When they have that key (its value being
    [undefined]), the provider is created with no render mode. *)
Theorem fromGeoTIFF_default_mode (w : World) ro (p : Provider) :
  single ro = None → multi ro = None → convertToRGB ro = None →
  let run := fromGeoTIFF numOfZ toNumber isNaN findAndSortBandNumbers getMinMax
               w ro tt in
  run.1.1 = Ok p →
  readSamples p = [0]
  ∧ (∀ k, k ≠ 1 → bands p !! k = None)
  ∧ getImage w None = Ok (opt_image (options p))
  ∧ multi (renderOptions p) = None
  ∧ (1 < getSamplesPerPixel (opt_image (options p)) →
     single (renderOptions p) = None
     ∧ (key_convertToRGB ∉ undefinedKeys ro →
        convertToRGB (renderOptions p) = Some true)
     ∧ (key_convertToRGB ∈ undefinedKeys ro →
        convertToRGB (renderOptions p) = None))
  ∧ (getSamplesPerPixel (opt_image (options p)) ≤ 1 →
     convertToRGB (renderOptions p) = None
     ∧ (key_single ∉ undefinedKeys ro →
        (single (renderOptions p) ≫= band) = Some 1)
     ∧ (key_single ∈ undefinedKeys ro → single (renderOptions p) = None)).
Proof.
  intros Hs Hmulti Hflag run Hok.
  destruct (fromGeoTIFF_ok w ro p Hok)
    as (image & imageCount & levels & samples & bands & final & tb & tc
        & Himage & _ & _ & Hsamples & Hbands & Hctor & _).
  assert (samples = [0]) as ->.
  { unfold getReadSamples in Hsamples. rewrite Hmulti, Hflag, Hs in Hsamples.
    simpl in Hsamples. by injection Hsamples. }
  destruct (constructor_settings w _ p ltac:(by rewrite Hctor))
    as (_ & _ & _ & Hread & _ & _ & _ & _ & _ & _ & _ & Hro & Hb & Hopts).
  rewrite Hopts, Hro, Hb, Hread.
  cbn [geoTIFFOptions opt_renderOptions opt_bands opt_readSamples opt_image
       default].
  split; [done|]. split.
  { intros k Hk. eapply fromGeoTIFF_bands; [exact Hbands|].
    intros H. apply elem_of_cons in H as [H|H]; [lia | by apply elem_of_nil in H]. }
  split; [done|]. change (Datatypes.id ro) with ro.
  unfold defaultRenderOptions, ownsConvertToRGB, ownsSingle.
  rewrite Hs, Hmulti, Hflag. simpl.
  split; [by destruct (1 <? getSamplesPerPixel image)|].
  split; intros Hn.
  - destruct (1 <? getSamplesPerPixel image) eqn:H1; [|lia].
    simpl. rewrite ?Hflag, ?Hs. split; [done|]. split; intros Hkey.
    + by rewrite bool_decide_eq_false_2.
    + by rewrite bool_decide_eq_true_2.
  - destruct (1 <? getSamplesPerPixel image) eqn:H1; [lia|].
    simpl. rewrite ?Hflag, ?Hs. split; [done|]. split; intros Hkey.
    + by rewrite bool_decide_eq_false_2.
    + by rewrite bool_decide_eq_true_2.
Qed.

(** X24: A provider created from a source has its optional settings at their
    defaults: a cache time of 60 s, levels from 0 to 18 or to the end of the
    level map, which was computed for the tile width the provider has.  It
    has no projection function, and feature picking is off: a probe returns
    [undefined] without calling anyone. *)
Theorem fromGeoTIFF_defaults (w : World) ro (p : Provider) :
  let run := fromGeoTIFF numOfZ toNumber isNaN findAndSortBandNumbers getMinMax
               w ro tt in
  run.1.1 = Ok p →
  ready p = true ∧ _cacheTime p = 60000 ∧ minimumLevel p = 0
  ∧ maximumLevel p = Z.min 18 (Z.of_nat (length (cogLevels p)) - 1)
  ∧ hasAlphaChannel p = true
  ∧ getImageCount w = Ok (_imageCount p)
  ∧ getCogLevels (getImage w) (_imageCount p) (tileWidth p) = Ok (cogLevels p)
  ∧ getReadSamples findAndSortBandNumbers ro = Ok (readSamples p)
  ∧ opt_projFunc (options p) = None
  ∧ ∀ (w' : World) x y zoom lon lat,
      pickFeatures doubleOf w' x y zoom lon lat p = (Ok None, p, []).
Proof.
  intros run Hok.
  destruct (fromGeoTIFF_ok w ro p Hok)
    as (image & imageCount & levels & samples & bands & final & tb & tc
        & Himage & Hcount & Hlevels & Hsamples & Hbands & Hctor & _).
  destruct (constructor_settings w _ p ltac:(by rewrite Hctor))
    as (Hmax & Hmin & Hlev & Hread & Hcache & Hw & _ & _ & Halpha & _ & Hic
        & _ & _ & Hopts).
  destruct (constructor_cases w
              (geoTIFFOptions image imageCount levels samples bands ro))
    as [[_ Hrun] | [(_ & e0 & t0 & _ & Hrun)
       | [(_ & rect0 & e0 & t0 & _ & _ & Hrun)
       | (_ & rect0 & t0 & p0 & outcome & plot' & tp & _ & _ & Hrun
          & Hready & _)]]];
    rewrite Hrun in Hctor; try done.
  injection Hctor as -> <-.
  cbn [geoTIFFOptions opt_maximumLevel opt_minimumLevel opt_cogLevels
       opt_readSamples opt_cache opt_tileSize opt_image opt_hasAlphaChannel
       opt_imageCount default orElseZ] in *.
  rewrite Hmax, Hmin, Hlev, Hread, Hcache, Hw, Halpha, Hic.
  repeat (split; [done|]).
  split; [by rewrite Hopts|].
  intros w' x y zoom lon lat. unfold pickFeatures, mbind, M_bind, get.
  by rewrite Hopts.
Qed.

(** X25: [fromUrl] and [fromBlob]: a source that cannot be opened is reported,
    after being logged, as a plain [Error] that names the URL (or "Blob").
    Once the source is open the outcome is that of [fromGeoTIFF] as it is:
    its errors are not wrapped a second time. *)
Theorem fromUrl_fromBlob_errors {Blob : Type}
    (tiffFromUrl : string → Res Source) (tiffFromBlob : Blob → Res Source)
    (w : World) (url : string) (blob : Blob) ro :
  let viaUrl := fromUrl numOfZ toNumber isNaN findAndSortBandNumbers getMinMax
                  tiffFromUrl w url ro tt in
  let viaBlob := fromBlob numOfZ toNumber isNaN findAndSortBandNumbers getMinMax
                   tiffFromBlob w blob ro tt in
  (∀ e, tiffFromUrl url = Throw e →
     viaUrl = (Throw (Error ("Error creating GeoTIFF from " +:+ url +:+ ": "
                             +:+ message e)), tt, [ConsoleError e]))
  ∧ (∀ e, tiffFromBlob blob = Throw e →
       viaBlob = (Throw (Error ("Error creating GeoTIFF from Blob: "
                                +:+ message e)), tt, [ConsoleError e]))
  ∧ (∀ source, tiffFromUrl url = Ok source →
       viaUrl = fromGeoTIFF numOfZ toNumber isNaN findAndSortBandNumbers
                  getMinMax (withSource w source)
                  (default emptyRenderOptions ro) tt)
  ∧ (∀ source, tiffFromBlob blob = Ok source →
       viaBlob = fromGeoTIFF numOfZ toNumber isNaN findAndSortBandNumbers
                   getMinMax (withSource w source)
                   (default emptyRenderOptions ro) tt)
  ∧ (∀ e, viaUrl.1.1 = Throw e →
       ∃ cause,
         e = Error ("Error creating GeoTIFF from " +:+ url +:+ ": "
                    +:+ message cause)
         ∨ e = Error ("Error creating ImageryProvider from GeoTIFF: "
                      +:+ message cause)).
Proof.
  intros viaUrl viaBlob.
  assert (∀ source, tiffFromUrl url = Ok source →
       viaUrl = fromGeoTIFF numOfZ toNumber isNaN findAndSortBandNumbers
                  getMinMax (withSource w source)
                  (default emptyRenderOptions ro) tt) as Hopen.
  { intros source Hsource. subst viaUrl.
    unfold fromUrl, tryCatch, mbind, M_bind, liftRes. rewrite Hsource.
    by destruct (fromGeoTIFF _ _ _ _ _ _ _ tt) as [[res []] t]. }
  split; [|split; [|split; [exact Hopen|split]]].
  - intros e Hfail. subst viaUrl.
    unfold fromUrl, tryCatch, mbind, M_bind, liftRes, emit, throw.
    by rewrite Hfail.
  - intros e Hfail. subst viaBlob.
    unfold fromBlob, tryCatch, mbind, M_bind, liftRes, emit, throw.
    by rewrite Hfail.
  - intros source Hsource. subst viaBlob.
    unfold fromBlob, tryCatch, mbind, M_bind, liftRes. rewrite Hsource.
    by destruct (fromGeoTIFF _ _ _ _ _ _ _ tt) as [[res []] t].
  - intros e. destruct (tiffFromUrl url) as [source|cause] eqn:Hsource.
    + rewrite (Hopen source eq_refl). intros H%fromGeoTIFF_wraps.
      destruct H as [cause ->]. exists cause. by right.
    + subst viaUrl.
      unfold fromUrl, tryCatch, mbind, M_bind, liftRes, emit, throw.
      rewrite Hsource. simpl. intros [= <-]. exists cause. by left.
Qed.

(** ** The shared decoder pool *)

Lemma getWorkerPool_run (newPool : Pool) (workerPool : option Pool) :
  @getWorkerPool Num newPool workerPool
  = let kept := match workerPool with
                | Some pool => Some pool
                | None => if pool_workers newPool then Some newPool else None
                end in
    (Ok kept, kept, []).
Proof.
  unfold getWorkerPool. munfold.
  destruct workerPool as [pool|]; simpl; [done|].
  by destruct (pool_workers newPool).
Qed.

(** X26: The module keeps the first pool that has workers.  Over any sequence of
    calls, what the last call returns is the first pool with workers among
    those that the calls would construct (and [undefined] when none has
    workers); a call returns what it leaves in the module variable, and with
    a pool at hand it keeps that pool. *)
Theorem getWorkerPool_keeps_first (pools : list Pool) :
  foldl (λ workerPool newPool, (@getWorkerPool Num newPool workerPool).1.2)
    None pools
  = List.find pool_workers pools
  ∧ ∀ (newPool : Pool) (workerPool : option Pool),
      (@getWorkerPool Num newPool workerPool).1.1
      = Ok (@getWorkerPool Num newPool workerPool).1.2
      ∧ (is_Some workerPool →
         (@getWorkerPool Num newPool workerPool).1.2 = workerPool)
      ∧ (∀ pool, (@getWorkerPool Num newPool workerPool).1.2 = Some pool →
           workerPool = Some pool ∨ pool_workers pool = true).
Proof.
  split.
  - assert (∀ st, foldl (λ workerPool newPool,
                           (@getWorkerPool Num newPool workerPool).1.2) st pools
                  = match st with
                    | Some pool => Some pool
                    | None => List.find pool_workers pools
                    end) as H; [|apply H].
    induction pools as [|pool pools IH]; intros st; simpl.
    + by destruct st.
    + rewrite IH, getWorkerPool_run. simpl.
      destruct st as [kept|]; [done|]. by destruct (pool_workers pool).
  - intros newPool workerPool. rewrite getWorkerPool_run. simpl.
    split; [done|]. split.
    + by intros [pool ->].
    + intros pool. destruct workerPool as [kept|]; [intros [= <-]; by left|].
      destruct (pool_workers newPool) eqn:Hw; [|done].
      intros [= <-]. by right.
Qed.

(** ** Rendering *)

Lemma filter_none {A} (f : A → bool) (l : list A) :
  Forall (λ x, f x = false) l → List.filter f l = [].
Proof. induction 1 as [|x l Hx _ IH]; [done|]. simpl. by rewrite Hx. Qed.

Lemma composite_withImages (w : World) (tile : TileData) (this : Provider) v :
  composite numOfZ w tile (withImages this v)
  = ((composite numOfZ w tile this).1.1, withImages this v,
     (composite numOfZ w tile this).2).
Proof.
  unfold composite. munfold. cbn [renderOptions plot bands noData options
    readSamples withImages].
  repeat case_match; simplify_eq; reflexivity.
Qed.

(** The run of a request that gets as far as rendering. *)
Lemma requestImage_render_run (w : World) (this : Provider) (x y z : Z)
    image res :
  destroyedWhileLoading w = false → _destroyed this = false →
  ready this = true →
  minimumLevel this ≤ z ≤ maximumLevel this →
  cacheMiss this (cacheKey x y z) →
  imageAvailable w this (lookupZ (cogLevels this) z) image →
  readOutcome w this image (tileReadOptions this image x y z) = Ok res →
  let c := composite numOfZ w
             {| tile_data := res; tile_width := tileWidth this;
                tile_height := tileHeight this |} this in
  ∃ t0 t3,
    Forall (λ ef, isHousekeeping ef = true) t0
    ∧ t3 = match c.1.1 with
           | Ok _ => []
           | Throw e => [ConsoleError e; RaiseEvent e]
           end
    ∧ (requestImage numOfZ w x y z this).1.1 = c.1.1
    ∧ (requestImage numOfZ w x y z this).2
      = t0 ++ [readEffect this image (tileReadOptions this image x y z)]
        ++ c.2 ++ t3.
Proof.
  intros Hd Hnd Hready Hz Hmiss Hav Hread c.
  destruct (_loadTile_shape w x y z this image Hav)
    as (images & t0 & Hh & _ & Hload).
  rewrite Hd, Hread in Hload. cbv zeta in Hload.
  exists t0. eexists. split; [done|]. split; [reflexivity|].
  rewrite requestImage_miss_run by done. cbn [fst snd].
  assert (∃ s2, renderTile numOfZ w x y z this
            = (c.1.1, s2,
               t0 ++ [readEffect this image (tileReadOptions this image x y z)]
               ++ c.2)) as [s2 Hinner].
  { unfold renderTile. unfold mbind at 1, M_bind at 1. rewrite Hload.
    unfold mbind at 1, M_bind at 1, get. cbn [_destroyed withImages].
    rewrite Hnd. unfold mbind at 1, M_bind at 1.
    rewrite composite_withImages. fold c.
    destruct c as [[[result|e] sc] tc]; cbn [fst snd].
    - destruct result as [img|].
      + cbn [_cacheTime _imagesCache withImages].
        destruct Hmiss as [Hoff | (cache & Hcache & _)].
        * rewrite Hoff. munfold. simpl. eexists.
          by rewrite <- !app_assoc, !app_nil_r.
        * rewrite Hcache. destruct (truthyZ (_cacheTime this)); munfold; simpl;
            eexists; by rewrite <- !app_assoc, !app_nil_r.
      + munfold. simpl. eexists. by rewrite <- !app_assoc, !app_nil_r.
    - eexists. by rewrite <- !app_assoc. }
  rewrite Hinner. cbn [fst snd]. split; [done|]. by rewrite <- !app_assoc.
Qed.

Lemma composite_rgb (w : World) (tile : TileData) (this : Provider) :
  is_Some (multi (renderOptions this))
  ∨ truthyFlag (convertToRGB (renderOptions this)) = true →
  let task :=
    {| composite_width := tile_width tile;
       composite_height := tile_height tile;
       composite_renderOptions :=
         default (rgbChannels numOfZ) (multi (renderOptions this));
       composite_bands := bands this;
       composite_noData := noData this;
       composite_resampleMethod := opt_resampleMethod (options this) |} in
  composite numOfZ w tile this
  = if workerFarm_worker w
    then (scheduleTask w (tile_data tile) task, this,
          [CallScheduleTask (tile_data tile) task])
    else (Throw (DeveloperError "web workers bootstrap error"), this, []).
Proof.
  intros Hmode task. unfold composite, mbind, M_bind, get.
  assert (bool_decide (is_Some (multi (renderOptions this)))
          || truthyFlag (convertToRGB (renderOptions this)) = true) as ->.
  { destruct Hmode as [Hm | ->]; [|by rewrite orb_true_r].
    by rewrite bool_decide_eq_true_2. }
  fold task. destruct (workerFarm_worker w); cbn [negb]; unfold throw, call;
    [|done].
  by destruct (scheduleTask w (tile_data tile) task).
Qed.

Lemma composite_plot (w : World) (tile : TileData) (this : Provider) s po :
  multi (renderOptions this) = None →
  truthyFlag (convertToRGB (renderOptions this)) = false →
  single (renderOptions this) = Some s → plot this = Some po →
  let render :=
    {| render_datasets :=
         imap (λ index sample,
                 ("b" +:+ pretty (sample + 1), tile_data tile !! index))
              (readSamples this);
       render_width := tile_width tile;
       render_height := tile_height tile;
       render_target :=
         if truthyOptString (expression s) then None
         else Some ("b" +:+ pretty (default 1 (band s))) |} in
  composite numOfZ w tile this
  = (Some <$> plotRender w render, this, [CallPlotRender render]).
Proof.
  intros Hmulti Hflag Hs Hpo render. unfold composite, mbind, M_bind, get.
  rewrite Hmulti, Hflag, Hs, Hpo.
  rewrite bool_decide_eq_false_2 by (by intros [? ?]). cbn [orb].
  fold render. unfold call, mret, M_ret.
  by destruct (plotRender w render).
Qed.

(** X27: What a request renders with, once its tile is decoded.  With [multi] or
    [convertToRGB] it needs the worker of the worker farm: without one it
    fails with "web workers bootstrap error", raised once, after the decode;
    with one it schedules a single task on the decoded pixels, with the
    channels of [multi] if given and else r, g, b = bands 1, 2, 3 scaled
    from 0 to 255, and returns what the task gives.  Otherwise, with a
    [single] whose plot exists, it renders once on the plot: every sample of
    [readSamples] is registered as dataset "b<sample + 1>", and the dataset
    "b<band>" is rendered unless an expression is set. *)
Theorem requestImage_rendering (w : World) (this : Provider) (x y z : Z)
    image res :
  destroyedWhileLoading w = false → _destroyed this = false →
  ready this = true →
  minimumLevel this ≤ z ≤ maximumLevel this →
  cacheMiss this (cacheKey x y z) →
  imageAvailable w this (lookupZ (cogLevels this) z) image →
  readOutcome w this image (tileReadOptions this image x y z) = Ok res →
  let ro := renderOptions this in
  let run := requestImage numOfZ w x y z this in
  let task :=
    {| composite_width := tileWidth this;
       composite_height := tileHeight this;
       composite_renderOptions := default (rgbChannels numOfZ) (multi ro);
       composite_bands := bands this;
       composite_noData := noData this;
       composite_resampleMethod := opt_resampleMethod (options this) |} in
  (is_Some (multi ro) ∨ truthyFlag (convertToRGB ro) = true →
   (workerFarm_worker w = false →
    run.1.1 = Throw (DeveloperError "web workers bootstrap error")
    ∧ raisedEvents run.2 = [DeveloperError "web workers bootstrap error"]
    ∧ List.filter isRender run.2 = [] ∧ decodeCalls run.2 = 1%nat)
   ∧ (workerFarm_worker w = true →
      run.1.1 = scheduleTask w res task
      ∧ List.filter isRender run.2 = [CallScheduleTask res task]))
  ∧ (∀ s po, multi ro = None → truthyFlag (convertToRGB ro) = false →
       single ro = Some s → plot this = Some po →
       let render :=
         {| render_datasets :=
              imap (λ index sample,
                      ("b" +:+ pretty (sample + 1), res !! index))
                   (readSamples this);
            render_width := tileWidth this;
            render_height := tileHeight this;
            render_target :=
              if truthyOptString (expression s) then None
              else Some ("b" +:+ pretty (default 1 (band s))) |} in
       run.1.1 = Some <$> plotRender w render
       ∧ List.filter isRender run.2 = [CallPlotRender render]).
Proof.
  intros Hd Hnd Hready Hz Hmiss Hav Hread ro run task.
  destruct (requestImage_render_run w this x y z image res Hd Hnd Hready Hz
              Hmiss Hav Hread) as (t0 & t3 & Hh & Ht3 & Hres & Htrace).
  pose proof (requestImage_miss_reads w this x y z image Hready Hz Hmiss Hav)
    as Hreads.
  apply housekeeping_trace in Hh as (Hq0 & Hr0%filter_none & _).
  apply quiet_trace in Hq0 as (Hev0 & _ & _).
  pose proof (readEffect_not_render this image (tileReadOptions this image x y z))
    as Hrr.
  pose proof (readEffect_counts this image (tileReadOptions this image x y z))
    as [_ Hre].
  set (tile := {| tile_data := res; tile_width := tileWidth this;
                  tile_height := tileHeight this |}) in *.
  assert (List.filter isRender run.2
          = List.filter isRender (composite numOfZ w tile this).2) as Hrender.
  { subst run. rewrite Htrace, !List.filter_app, Hr0. cbn [List.filter].
    rewrite Hrr. subst t3.
    destruct (composite numOfZ w tile this).1.1; cbn [List.filter isRender app];
      by rewrite app_nil_r. }
  assert (raisedEvents run.2
          = raisedEvents (composite numOfZ w tile this).2
            ++ match (composite numOfZ w tile this).1.1 with
               | Ok _ => []
               | Throw e => [e]
               end) as Hevents.
  { subst run. rewrite Htrace, !raisedEvents_app, Hev0, Hre. subst t3.
    by destruct (composite numOfZ w tile this).1.1. }
  assert (decodeCalls run.2 = 1%nat) as Hdec
    by (subst run; by rewrite decodeCalls_filter, Hreads).
  fold run in Hres. rewrite Hres, Hrender, Hevents, Hdec.
  clear Hres Hrender Hevents Hdec Htrace Hreads. split.
  - intros Hmode. rewrite (composite_rgb w tile this Hmode).
    cbn [tile_data tile_width tile_height tile]. fold ro. fold task.
    split; intros ->; cbn [fst snd]; by repeat split.
  - intros s po Hmulti Hflag Hs Hpo render.
    rewrite (composite_plot w tile this s po Hmulti Hflag Hs Hpo).
    by cbn [fst snd tile_data tile_width tile_height tile].
Qed.

(** ** What the operations leave alone *)

(** X28: The operations of a provider change nothing but the image handles, the
    tile cache and the destroyed flag: after a tile request, a feature probe
    or [destroy] the provider has the levels, the render options, the
    rectangle, the cache time and the credits it had before, and is as ready
    as before. *)
Theorem provider_settings_stable (w : World) (this : Provider) (x y z : Z)
    (lon lat : double) :
  ∀ s, s = (requestImage numOfZ w x y z this).1.2
       ∨ s = (pickFeatures doubleOf w x y z lon lat this).1.2
       ∨ s = (destroy this).1.2 →
    mutatedOnly this s
    ∧ ready s = ready this
    ∧ minimumLevel s = minimumLevel this ∧ maximumLevel s = maximumLevel this
    ∧ cogLevels s = cogLevels this ∧ renderOptions s = renderOptions this
    ∧ rectangle s = rectangle this ∧ _cacheTime s = _cacheTime this
    ∧ (∀ x' y' level,
         getTileCredits s x' y' level = getTileCredits this x' y' level).
Proof.
  intros s Hs.
  assert (mutatedOnly this s) as Hkeep.
  { destruct Hs as [-> | [-> | ->]].
    - apply requestImage_keepsSettings.
    - apply pickFeatures_keepsSettings.
    - apply (destroy_keepsSettings this). }
  split; [done|]. unfold getTileCredits. rewrite Hkeep. by destruct this.
Qed.

(** ** The plot of a single band provider *)

Lemma initPlot_run (w : World) (s : @SingleBandRenderOptions Num)
    (bands : gmap Z BandRange) noData (d : Num * Num) :
  let bandNum := default 1 (band s) in
  truthyOptString (expression s) = true ∨ is_Some (bands !! bandNum) →
  domain s = Some d
  ∨ (domain s = None
     ∧ ∃ range, bands !! bandNum = Some range
                ∧ d = (band_min range, band_max range)) →
  let opts := {| plot_single := s; plot_domain := d |} in
  let setup :=
    {| setup_noData := noData; setup_expression := expression s;
       setup_colorScale :=
         match colors s with
         | Some cs => inr cs
         | None => inl (default "blackwhite" (colorScale s))
         end |} in
  initPlot w (Some s) bands noData None
  = match newPlot w opts with
    | Throw e => (Throw e, None, [CallNewPlot opts])
    | Ok _ =>
        (plotSetup w setup, Some opts, [CallNewPlot opts; CallPlotSetup setup])
    end.
Proof.
  intros bandNum Hguard Hdomain opts setup. unfold initPlot. fold bandNum.
  assert (negb (truthyOptString (expression s))
          && negb (bool_decide (is_Some (bands !! bandNum))) = false) as ->.
  { destruct Hguard as [-> | H]; [done|].
    rewrite bool_decide_eq_true_2 by done. apply andb_false_r. }
  munfold.
  destruct Hdomain as [-> | (-> & range & -> & ->)]; simpl;
    fold opts; fold setup;
    (destruct (newPlot w opts) as [[]|e]; simpl; [|done];
     by destruct (plotSetup w setup)).
Qed.

(** X29: The plot of a single band provider.  Whenever the constructor gets as
    far as the plot (the RGB guard passes, the extent resolves, the image
    count is an array length) it returns a ready provider, whatever happens
    to the plot.  The plot is created with [single.domain] if there is one,
    and else with the range of the band.  With an expression the band need
    not be resolved; but then, without a domain, setting up the plot fails on
    the missing range: the provider has no plot and the [TypeError] is
    raised on its error channel.  When [new plot] throws, the provider has no
    plot and the error is raised.  A plot that was created stays in place
    when the calls that configure it fail; it is configured with the nodata
    value of the provider, the expression, and the custom colors if given,
    else the named color scale, else "blackwhite". *)
Theorem constructor_plot (w : World) (opts : @TIFFImageryProviderOptions Num)
    (s : SingleBandRenderOptions) (rect0 : Rectangle) :
  let run := constructor w opts tt in
  let ro0 := default emptyRenderOptions (opt_renderOptions opts) in
  let bandNum := default 1 (band s) in
  single ro0 = Some s →
  (getSamplesPerPixel (opt_image opts) <? 3)
  && truthyFlag (convertToRGB ro0) = false →
  (resolveRectangle w opts tt).1.1 = Ok rect0 →
  0 ≤ opt_imageCount opts < 2 ^ 32 →
  let s' := {| band := Some bandNum; colorScale := colorScale s;
               colors := colors s; domain := domain s;
               expression := expression s |} in
  ∃ p, run.1.1 = Ok p ∧ ready p = true
  ∧ (truthyOptString (expression s) = true → domain s = None →
     opt_bands opts !! bandNum = None →
     plot p = None
     ∧ raisedEvents run.2
       = [TypeError "Cannot read properties of undefined (reading 'min')"])
  ∧ (∀ d,
       truthyOptString (expression s) = true
       ∨ is_Some (opt_bands opts !! bandNum) →
       domain s = Some d
       ∨ (domain s = None
          ∧ ∃ range, opt_bands opts !! bandNum = Some range
                     ∧ d = (band_min range, band_max range)) →
       let po := {| plot_single := s'; plot_domain := d |} in
       let setup :=
         {| setup_noData := noData p; setup_expression := expression s;
            setup_colorScale :=
              match colors s with
              | Some cs => inr cs
              | None => inl (default "blackwhite" (colorScale s))
              end |} in
       (∀ e, newPlot w po = Throw e →
          plot p = None ∧ raisedEvents run.2 = [e])
       ∧ (newPlot w po = Ok tt →
          plot p = Some po
          ∧ CallPlotSetup setup ∈ run.2
          ∧ raisedEvents run.2
            = match plotSetup w setup with Ok _ => [] | Throw e => [e] end)).
Proof.
  intros run ro0 bandNum Hs Hguard Hrect Hcount s'.
  pose proof (resolveRectangle_trace w opts) as Hquiet.
  destruct (resolveRectangle w opts tt) as [[res []] t0] eqn:Hrun0.
  simpl in Hrect, Hquiet. subst res.
  apply quiet_trace in Hquiet as (Hev0 & _ & _).
  destruct (newArrayFill_Ok_range (opt_imageCount opts) tt Hcount) as [arr Harr].
  destruct (constructor_built w opts rect0 t0 arr Hguard Hrun0 Harr)
    as (p & outcome & plot' & tp & Hplot & Hrun & Hready & Hp & _ & _ & _
        & HnoData & _).
  exists p. subst run. rewrite Hrun. cbn [fst snd].
  split; [done|]. split; [done|].
  assert (single (defaultRenderOptions (getSamplesPerPixel (opt_image opts))
            (default emptyRenderOptions (opt_renderOptions opts))) = Some s')
    as Hsingle.
  { unfold defaultRenderOptions. fold ro0. rewrite Hs. simpl. by rewrite Hs. }
  rewrite Hsingle in Hplot. rewrite Hp, HnoData.
  rewrite !raisedEvents_app, Hev0. cbn [raisedEvents omap app].
  split.
  - intros Hexpr Hdom Hnone. revert Hplot. unfold initPlot.
    cbn [band expression domain s' default].
    change (Datatypes.id bandNum) with bandNum.
    rewrite Hexpr, Hdom, Hnone. cbn [negb andb]. munfold.
    intros H. injection H as H1 H2 H3. by subst.
  - intros d Hexpr Hdomain.
    rewrite (initPlot_run w s' (opt_bands opts) _ d Hexpr Hdomain) in Hplot.
    cbv zeta in Hplot. split.
    + intros e Hnew. rewrite Hnew in Hplot. injection Hplot as <- <- <-.
      done.
    + intros Hnew. rewrite Hnew in Hplot. injection Hplot as <- <- <-.
      split; [done|]. split.
      * apply elem_of_cons. right. apply elem_of_app. right.
        apply elem_of_app. left. apply elem_of_app. left.
        apply elem_of_cons. right. by left.
      * cbn [raisedEvents omap app]. by destruct (plotSetup w _).
Qed.

(** ** What a tile request can throw *)

Lemma fetchImage_cases (w : World) index (this : Provider) :
  is_Some (_images this) →
  (∃ image images t0,
     fetchImage w index this = (Ok image, withImages this (Some images), t0))
  ∨ (∃ e t0, fetchImage w index this = (Throw e, this, t0)
             ∧ getImage w index = Throw e).
Proof.
  intros [images Himages]. unfold fetchImage. munfold. rewrite Himages. simpl.
  destruct (images !! index) as [image|]; simpl.
  - left. exists image, images, []. do 2 f_equal.
    destruct this; simpl in *; by subst.
  - destruct (getImage w index) as [image|e]; simpl.
    + left. by eexists image, _, _.
    + right. by exists e, [CallGetImage index].
Qed.

Lemma _loadTile_cases (w : World) (x y z : Z) (this : Provider) :
  is_Some (_images this) →
  match _loadTile w x y z this with
  | (Ok tile, s1, _) =>
      (destroyedWhileLoading w = true ∧ _destroyed s1 = true)
      ∨ ∃ images, s1 = withImages this (Some images)
  | (Throw e, s1, _) =>
      (destroyedWhileLoading w = false →
       ∃ images, s1 = withImages this (Some images))
      ∧ (getImage w (lookupZ (cogLevels this) z) = Throw e
         ∨ ∃ image options, readOutcome w this image options = Throw e)
  end.
Proof.
  intros Himages. unfold _loadTile, readPixels.
  unfold mbind at 1, M_bind at 1, get. unfold mbind at 1, M_bind at 1.
  destruct (fetchImage_cases w (lookupZ (cogLevels this) z) this Himages)
    as [(image & images & t0 & ->) | (e & t0 & -> & Hget)].
  2: { split; [|by left].
       intros _. destruct Himages as [images Himages]. exists images.
       destruct this; simpl in *; by subst. }
  unfold tryCatch, mbind, M_bind, when, call, mret, M_ret, emit, throw.
  destruct (destroyedWhileLoading w).
  - destruct (destroy_run (withImages this (Some images))) as (td & -> & _).
    destruct (readOutcome w this image _) as [res|e] eqn:Hread; simpl.
    + by left.
    + split; [done|]. right. eauto.
  - destruct (readOutcome w this image _) as [res|e] eqn:Hread; simpl.
    + right. by exists images.
    + split; [by exists images|]. right. eauto.
Qed.

Lemma composite_throws (w : World) (tile : TileData) (this : Provider) e :
  (composite numOfZ w tile this).1.1 = Throw e →
  e = DeveloperError "web workers bootstrap error"
  ∨ (∃ data task, scheduleTask w data task = Throw e)
  ∨ (∃ render, plotRender w render = Throw e).
Proof.
  unfold composite, mbind, M_bind, get.
  destruct (bool_decide _ || truthyFlag _).
  - destruct (workerFarm_worker w); cbn [negb]; unfold throw, call;
      cbn [fst snd].
    + destruct (scheduleTask w _ _) eqn:Htask; [done|].
      intros [= <-]. right. left. eauto.
    + intros [= <-]. by left.
  - destruct (single _) as [s|]; [|done]. destruct (plot this); [|done].
    unfold call, mret, M_ret.
    destruct (plotRender w _) eqn:Hrender; [done|].
    cbn [fst snd]. intros [= <-]. right. right. eauto.
Qed.

(** The run of [renderTile] over a provider that has its handles and its
    cache. *)
Lemma renderTile_intact (w : World) (x y z : Z) (this : Provider) :
  intact this →
  match renderTile numOfZ w x y z this with
  | (r, s, _) =>
      (∀ e, r = Throw e →
         getImage w (lookupZ (cogLevels this) z) = Throw e
         ∨ (∃ image options, readOutcome w this image options = Throw e)
         ∨ e = DeveloperError "web workers bootstrap error"
         ∨ (∃ data task, scheduleTask w data task = Throw e)
         ∨ (∃ render, plotRender w render = Throw e))
      ∧ (destroyedWhileLoading w = false → intact s)
  end.
Proof.
  intros [Himages Hcache]. unfold renderTile.
  unfold mbind at 1, M_bind at 1.
  pose proof (_loadTile_cases w x y z this Himages) as Hs1.
  destruct (_loadTile w x y z this) as [[[tile|e] s1] t1].
  2: { cbn [fst snd]. destruct Hs1 as [Hs1 He]. split.
       - intros ? [= <-]. destruct He as [He|He]; [by left | right; by left].
       - intros Hd. destruct (Hs1 Hd) as [images ->]. split; [by eexists|].
         by destruct this. }
  unfold mbind at 1, M_bind at 1, get.
  destruct (_destroyed s1) eqn:Hdestroyed.
  { unfold mret, M_ret. cbn [fst snd]. split; [done|]. intros Hd.
    destruct Hs1 as [[Hs1 _] | [images ->]]; [congruence|].
    split; [by eexists | by destruct this]. }
  destruct Hs1 as [[_ Hno] | [images ->]]; [congruence|].
  unfold mbind at 1, M_bind at 1. rewrite composite_withImages.
  pose proof (composite_throws w tile this) as Hthrows.
  destruct (composite numOfZ w tile this) as [[[result|e] sc] tc];
    cbn [fst snd] in *.
  2: { split; [|intros _; split; [by eexists | by destruct this]].
       intros ? [= <-]. right. right. by apply Hthrows. }
  destruct Hcache as [cache Hcache].
  destruct result as [img|]; cbn [_cacheTime _imagesCache withImages].
  - rewrite Hcache. destruct (truthyZ (_cacheTime this)); munfold; simpl;
      (split; [done|]); intros _; (split; [by eexists|]);
      destruct this; simpl in *; by (eexists || subst).
  - munfold. simpl. split; [done|]. intros _.
    split; [by eexists | by destruct this; simpl in *; subst; eexists].
Qed.

(** X30: What a tile request can throw.  On a ready provider that has its image
    handles and its tile cache, [requestImage] rejects only with an error of
    one of its collaborators - of [getImage] for the level's image, of the
    pixel read, of the worker task or of the plot's render - or with the
    "web workers bootstrap error"; never with an error of its own code.
    Unless the provider is destroyed meanwhile it is still ready and still has
    its handles and its cache afterwards, so the same holds for every later
    request. *)
Theorem requestImage_errors (w : World) (this : Provider) (x y z : Z) :
  ready this = true →
  intact this →
  let run := requestImage numOfZ w x y z this in
  (∀ e, run.1.1 = Throw e →
     getImage w (lookupZ (cogLevels this) z) = Throw e
     ∨ (∃ image options, readOutcome w this image options = Throw e)
     ∨ e = DeveloperError "web workers bootstrap error"
     ∨ (∃ data task, scheduleTask w data task = Throw e)
     ∨ (∃ render, plotRender w render = Throw e))
  ∧ (destroyedWhileLoading w = false → ready run.1.2 = true ∧ intact run.1.2).
Proof.
  intros Hready Hintact run.
  assert (ready run.1.2 = true) as Hready'.
  { destruct (mutatedOnly_fields _ _ (requestImage_keepsSettings w x y z this))
      as [Hr _].
    subst run. congruence. }
  destruct (decide (minimumLevel this ≤ z ≤ maximumLevel this)) as [Hz|Hz].
  2: { assert (run = (Ok None, this, [])) as ->.
       { subst run. unfold requestImage, mbind, M_bind, get, mret, M_ret.
         rewrite Hready. cbn [negb].
         assert ((z <? minimumLevel this) || (maximumLevel this <? z) = true)
           as -> by (apply orb_true_iff; lia).
         done. }
       by cbn [fst snd]. }
  destruct Hintact as [Himages [cache Hcache]].
  destruct (truthyZ (_cacheTime this)) eqn:Htime.
  - destruct (cache !! cacheKey x y z) as [entry|] eqn:Hentry.
    + assert (run = (Ok (Some (data entry)), this, [])) as ->.
      { subst run. unfold requestImage, mbind, M_bind, get, mret, M_ret.
        rewrite Hready. cbn [negb].
        assert ((z <? minimumLevel this) || (maximumLevel this <? z) = false)
          as -> by (apply orb_false_iff; lia).
        by rewrite Htime, Hcache, Hentry. }
      cbn [fst snd]. repeat split; by eauto.
    + subst run. rewrite requestImage_miss_run in * by (done || right; eauto).
      cbn [fst snd] in *.
      pose proof (renderTile_intact w x y z this) as Hrun.
      destruct (renderTile numOfZ w x y z this) as [[r s] t].
      destruct Hrun as [Hthrow Hkeep]; [split; eauto|]. by split; [|split; auto].
  - subst run. rewrite requestImage_miss_run in * by (done || by left).
    cbn [fst snd] in *.
    pose proof (renderTile_intact w x y z this) as Hrun.
    destruct (renderTile numOfZ w x y z this) as [[r s] t].
    destruct Hrun as [Hthrow Hkeep]; [split; eauto|]. by split; [|split; auto].
Qed.

End Properties.

(** ** Instances of the theorems on the concrete pyramid and provider *)

Lemma getCogLevels_level_map_witness :
  (∃ levels, getCogLevels (sourceOfSizes [(1024, 1024); (512, 512)]) 2 512
             = Ok levels)
  ∧ nonIncreasing [1; 0] ∧ last [1; 0] = Some 0 ∧ lookupZ [1; 0] 0 = Some 1.
Proof.
  destruct (getCogLevels_level_map
              (sourceOfSizes [(1024, 1024); (512, 512)]) 2 512 ltac:(lia))
    as [Htotal Hshape].
  split.
  - apply Htotal; [lia|]. intros i Hi.
    assert (i = 0 ∨ i = 1) as [-> | ->] by lia;
      (eexists; split; [reflexivity | simpl; lia]).
  - destruct (Hshape [1; 0] eq_refl) as (Hmono & Hlast & _ & Htop).
    split; [exact Hmono|]. split; [exact Hlast|].
    eapply (Htop _ eq_refl). simpl. lia.
Defined.


Lemma requestImage_out_of_range_witness :
  requestImage numZ (worldAt 0) 0 0 1 demoProvider = (Ok None, demoProvider, [])
  ∧ decodeCalls (requestImage numZ (worldAt 0) 0 0 1 demoProvider).2 = 0%nat.
Proof.
  apply (@requestImage_out_of_range Z string numZ (worldAt 0) demoProvider 0 0 1);
    [reflexivity | right; simpl; lia].
Defined.

(** C2 as stated fails: with two images of 1024 and 512 pixels and 512 pixel
    tiles the map is [[1; 0]]; its entry for zoom 0 is 1, not 0, and from
    zoom 1 down to zoom 0 the index increases. *)
Lemma getCogLevels_zoom0_not_index0 :
  getCogLevels (sourceOfSizes [(1024, 1024); (512, 512)]) 2 512 = Ok [1; 0]
  ∧ lookupZ [1; 0] 0 = Some 1
  ∧ lookupZ [1; 0] 0 ≠ Some 0
  ∧ ¬ (∀ z1 z2 i1 i2, z1 ≤ z2 → lookupZ [1; 0] z1 = Some i1 →
         lookupZ [1; 0] z2 = Some i2 → i1 ≤ i2).
Proof.
  split; [reflexivity|]. split; [reflexivity|]. split; [discriminate|].
  intros H. specialize (H 0 1 1 0 ltac:(lia) eq_refl eq_refl). lia.
Qed.


(** C7 on an image with embedded statistics. *)
Lemma getBandValues_embedded_statistics_witness :
  (getBandValues numZ demoToNumber (λ _, false) demoGetMinMax (worldAt 0)
     emptyRenderOptions [0] statsImage [0] ∅).1.2 !! 1
  = Some {| band_min := 3; band_max := 250 |}.
Proof.
  assert ((0 : Z) ∈ [0 : Z]) as Hin by (by left).
  destruct (getBandValues_embedded_statistics numZ demoToNumber (λ _, false)
              demoGetMinMax (worldAt 0) emptyRenderOptions [0] statsImage [0] 0
              (<["STATISTICS_MINIMUM" := "3"]>
                 (<["STATISTICS_MAXIMUM" := "250"]> ∅))
              "3" "250" ∅ Hin eq_refl eq_refl eq_refl
              ltac:(discriminate) ltac:(discriminate)) as (H & _ & _ & _).
  exact H.
Defined.

(** C5 on a one band image. *)
Lemma convertToRGB_needs_three_samples_witness :
  constructor (worldAt 0) (demoOptions 1 (Some rgbOptions) ∅) tt
  = (Throw (DeveloperError
       "Can not render the image as RGB, please check the convertToRGB parameter"),
     tt, [SetReady false])
  ∧ decodeCalls
      (fromGeoTIFF numZ demoToNumber (λ _, false) (λ _, []) demoGetMinMax
         (demoWorld 1 0) rgbOptions tt).2 = 0%nat.
Proof.
  destruct (@convertToRGB_needs_three_samples Z string numZ demoToNumber
              (λ _, false) (λ _, []) demoGetMinMax (worldAt 0)) as [Hctor _].
  destruct (@convertToRGB_needs_three_samples Z string numZ demoToNumber
              (λ _, false) (λ _, []) demoGetMinMax (demoWorld 1 0))
    as [_ Hfrom].
  split.
  - apply Hctor; [simpl; lia | reflexivity].
  - apply (Hfrom rgbOptions (demoImage 1)); [reflexivity | simpl; lia | reflexivity].
Defined.


(** C1 as stated fails: a tile rendered at time 0 with a cache time of
    1000 ms is requested again at time 5000.  The entry is 5000 ms old, yet
    it is returned, and no decode call is issued. *)
Lemma requestImage_serves_stale_entry :
  let first := requestImage numZ (worldAt 0) 0 0 0 demoProvider in
  let second := requestImage numZ (worldAt 5000) 0 0 0 first.1.2 in
  _cacheTime demoProvider = 1000
  ∧ first.1.1 = Ok (Some "tile") ∧ decodeCalls first.2 = 1%nat
  ∧ _imagesCache first.1.2 ≫= (.!! "0_0_0")
    = Some {| time := 0; data := "tile" |}
  ∧ now (worldAt 5000) - 0 > 1000
  ∧ second.1.1 = Ok (Some "tile") ∧ decodeCalls second.2 = 0%nat.
Proof. vm_compute. repeat split; congruence. Qed.

(** C1, as the code has it, on the same two requests. *)
Lemma requestImage_cache_witness :
  let first := requestImage numZ (worldAt 0) 0 0 0 demoProvider in
  requestImage numZ (worldAt 5000) 0 0 0 first.1.2
  = (Ok (Some "tile"), first.1.2, [])
  ∧ decodeCalls first.2 = 1%nat.
Proof.
  intros first.
  destruct (@requestImage_cache Z string numZ) as (_ & Hrepeat & Hstore).
  split.
  - apply (Hrepeat (worldAt 0) (worldAt 5000) demoProvider first.1.2 0 0 0
             "tile" first.2); [reflexivity | simpl; lia | reflexivity].
  - apply (Hstore (worldAt 0) demoProvider first.1.2 0 0 0 ∅ "tile" first.2);
      [reflexivity | simpl; lia | reflexivity | reflexivity | reflexivity].
Defined.

(** C3 on the code: the decoder fails on tile (0, 0, 0); the error reaches
    the error channel twice. *)
Lemma requestImage_decode_failure_raised_twice :
  let run := requestImage numZ failingDecodeWorld 0 0 0 demoProvider in
  run.1.1 = Throw (Error "decode failed")
  ∧ raisedEvents run.2 = [Error "decode failed"; Error "decode failed"]
  ∧ decodeCalls run.2 = 1%nat.
Proof. vm_compute. by repeat split. Qed.

Lemma requestImage_failure_reports_witness :
  raisedEvents (requestImage numZ failingDecodeWorld 0 0 0 demoProvider).2
  = [Error "decode failed"; Error "decode failed"]
  ∧ raisedEvents (requestImage numZ failingCompositeWorld 0 0 0 demoProvider).2
    = [Error "composite failed"].
Proof.
  destruct (@requestImage_failure_reports Z string numZ) as [Hdecode Hcomposite].
  assert (cacheMiss demoProvider (cacheKey 0 0 0)) as Hmiss.
  { right. exists ∅. split; reflexivity. }
  split.
  - apply (Hdecode failingDecodeWorld demoProvider 0 0 0 (demoImage 3)
             (Error "decode failed")).
    + reflexivity.
    + simpl. lia.
    + exact Hmiss.
    + exists ∅. split; [reflexivity|]. right. split; reflexivity.
    + reflexivity.
  - pose (load := _loadTile failingCompositeWorld 0 0 0 demoProvider).
    apply (Hcomposite failingCompositeWorld demoProvider load.1.2 0 0 0
             {| tile_data := [[10]; [20]; [30]]; tile_width := 512;
                tile_height := 512 |}
             load.2 (Error "composite failed")).
    + reflexivity.
    + simpl. lia.
    + exact Hmiss.
    + reflexivity.
    + reflexivity.
    + reflexivity.
Defined.

(** C4 as stated fails: a single band provider whose band 1 has no range.
    Setting up the plot fails with "Invalid band1"; the error is raised on
    the error channel, and the constructor returns a provider that is
    ready. *)
Lemma constructor_ready_despite_invalid_band :
  let run := constructor (worldAt 0) (demoOptions 1 None ∅) tt in
  (∃ p, run.1.1 = Ok p ∧ ready p = true ∧ plot p = None)
  ∧ raisedEvents run.2 = [DeveloperError "Invalid band1"]
  ∧ last run.2 = Some (SetReady true).
Proof.
  split; [|split].
  - eexists. split; [reflexivity|]. split; reflexivity.
  - reflexivity.
  - reflexivity.
Qed.

(** C4, as the code has it, on the same options and on a one band image for
    which RGB conversion is requested. *)
Lemma constructor_failures_witness :
  let run := constructor (worldAt 0) (demoOptions 1 None ∅) tt in
  (∃ p, run.1.1 = Ok p ∧ ready p = true ∧ plot p = None)
  ∧ raisedEvents run.2 = [DeveloperError "Invalid band1"]
  ∧ SetReady true
    ∉ (constructor (worldAt 0) (demoOptions 1 (Some rgbOptions) ∅) tt).2.
Proof.
  intros run.
  destruct (@constructor_failures Z string (worldAt 0) (demoOptions 1 None ∅))
    as (_ & _ & _ & Hband).
  destruct (@constructor_failures Z string (worldAt 0)
              (demoOptions 1 (Some rgbOptions) ∅)) as [Hthrow _].
  destruct (Hband (fromDegrees 0 0 1 1)
              {| band := Some 1; colorScale := None; colors := None;
                 domain := None; expression := None |}
              eq_refl eq_refl ltac:(simpl; lia) eq_refl eq_refl eq_refl)
    as (p & Hok & Hready & Hplot & Hev & _).
  split; [by exists p|]. split; [exact Hev | by eapply Hthrow].
Defined.

Lemma demoDoubleOf_IZR (n : Z) : demoDoubleOf (IZR n) = Double.ofZ n.
Proof.
  unfold demoDoubleOf. f_equal. symmetry. apply Int_part_spec. lra.
Qed.

(** C9 as stated fails: the probe is enabled, but the decoder cannot deliver
    the image of the level.  The probe rejects with the decoder's error and
    no windowed read is issued. *)
Lemma pickFeatures_no_decode_without_image :
  let run := pickFeatures demoDoubleOf noImageWorld 0 0 0 half half
               demoProvider in
  truthyFlag (opt_enablePickFeatures (options demoProvider)) = true
  ∧ run.1.1 = Throw (Error "no image")
  ∧ decodeCalls run.2 = 0%nat.
Proof. vm_compute. by repeat split. Qed.

(** C9, as the code has it, on the demo provider, whose rectangle is
    [0, 1] x [0, 1]: the point (1/2, 1/2) is read at pixel (512, 512) of the
    1024 x 1024 image. *)
Lemma pickFeatures_probe_witness :
  let run := pickFeatures demoDoubleOf (worldAt 0) 0 0 5 half half
               demoProvider in
  List.filter isDecode run.2
  = [CallReadRGB (demoImage 3)
       {| read_window := Some (512, 512, 513, 513);
          read_width := Some 1; read_height := Some 1;
          read_samples := None; read_resampleMethod := None;
          read_interleave := Some false |}]
  ∧ _imagesCache run.1.2 = _imagesCache demoProvider.
Proof.
  intros run.
  destruct (@pickFeatures_probe Z string demoDoubleOf) as (_ & Hprobe & _).
  destruct (Hprobe (worldAt 0) demoProvider 0 0 5 half half eq_refl)
    as (Hcache & Hread & _).
  split; [|exact Hcache].
  destruct (Hread (demoImage 3)) as [Hdecode _].
  { exists ∅. split; [reflexivity|]. right. split; reflexivity. }
  etransitivity; [exact Hdecode|].
  cbn [rectangle demoProvider west south east north].
  rewrite !demoDoubleOf_IZR. vm_compute. reflexivity.
Defined.

(** In doubles a point strictly inside the rectangle can fall on a pixel
    outside the image: at the latitude 2^-60, just north of the south edge,
    [north - latitude] rounds to 1 and the row is 1024, one past the last
    row of the image. *)
Example pickPixel_row_outside :
  Double.ltb (Double.ofZ 0) tiny = true
  ∧ Double.ltb tiny (Double.ofZ 1) = true
  ∧ pickPixel demoDoubleOf (rectangle demoProvider) (demoImage 3) half tiny
    = (512, 1024).
Proof.
  split; [reflexivity|]. split; [reflexivity|].
  unfold pickPixel. cbn [rectangle demoProvider west south east north].
  rewrite !demoDoubleOf_IZR. vm_compute. reflexivity.
Qed.



(** ** Instances of the further properties *)

(** Three images of 4096, 2048 and 1024 pixels with 512 pixel tiles: one
    level of padding. *)
Lemma getCogLevels_padding_witness :
  getCogLevels (sourceOfSizes [(4096, 4096); (2048, 2048); (1024, 1024)]) 3 512
  = Ok [2; 2; 1; 0].
Proof.
  destruct (getCogLevels_padding
              (sourceOfSizes [(4096, 4096); (2048, 2048); (1024, 1024)]) 3 512
              _ ltac:(lia) ltac:(lia) eq_refl
              ltac:(unfold imageSize; simpl; lia)
              ltac:(unfold imageSize; simpl; lia)) as (_ & Hrun & _).
  exact Hrun.
Defined.

(** Overviews of 200 and 50 pixels under an 800 pixel image; and a file
    whose two images are both narrower than half a tile. *)
Lemma getCogLevels_narrow_overviews_witness :
  getCogLevels (sourceOfSizes [(800, 600); (200, 150); (50, 38)]) 3 512 = Ok [0]
  ∧ getCogLevels (sourceOfSizes [(200, 150); (50, 38)]) 2 512 = Ok [1; 0].
Proof.
  split.
  - destruct (getCogLevels_narrow_overviews
                (sourceOfSizes [(800, 600); (200, 150); (50, 38)]) 3 512
                ltac:(lia)) as [Hskip _].
    refine (proj1 (Hskip 0 _ ltac:(lia) _ eq_refl
                     ltac:(unfold imageSize; simpl; lia))).
    intros i Hi. assert (i = 1 ∨ i = 2) as [-> | ->] by lia;
      (eexists; split; [reflexivity | unfold imageSize; simpl; lia]).
  - destruct (getCogLevels_narrow_overviews
                (sourceOfSizes [(200, 150); (50, 38)]) 2 512 ltac:(lia))
      as [_ Hall].
    refine (proj1 (Hall _)).
    intros i Hi. assert (i = 0 ∨ i = 1) as [-> | ->] by lia;
      (eexists; split; [reflexivity | unfold imageSize; simpl; lia]).
Defined.

(** The samples of a single band provider do not depend on its band. *)
Lemma getReadSamples_inputs_witness :
  getReadSamples (λ _, []) (singleOptions 2 None)
  = getReadSamples (λ _, []) (singleOptions 1 None).
Proof.
  destruct (@getReadSamples_inputs Z (λ _, [])) as [Hsame _].
  apply Hsame; reflexivity.
Defined.


(** The band of a one band image is resolved, here by sampling. *)
Lemma getBandValues_complete_witness :
  is_Some (sampledBands !! (0 + 1)).
Proof.
  assert ((0 : Z) ∈ [0 : Z]) as Hin by (by left).
  assert ((getBandValues numZ demoToNumber (λ _, false) demoGetMinMax
             (worldAt 0) emptyRenderOptions [0] (demoImage 1) [0] ∅).1.1
          = Ok sampledBands) as Hrun by (vm_compute; reflexivity).
  destruct (getBandValues_complete numZ demoToNumber (λ _, false)
              demoGetMinMax (worldAt 0) emptyRenderOptions [0] (demoImage 1)
              [0] ∅ sampledBands eq_refl Hrun) as [_ H].
  exact (H 0 Hin).
Defined.

(** Band 2 is no band of [readSamples = [0]]. *)
Lemma getBandValues_frame_witness :
  (getBandValues numZ demoToNumber (λ _, false) demoGetMinMax (worldAt 0)
     emptyRenderOptions [0] (demoImage 1) [0] ∅).1.2 !! (1 + 1) = None.
Proof.
  assert ((1 : Z) ∉ [0 : Z]) as Hout.
  { intros H. apply elem_of_cons in H as [H|H]; [done | by apply elem_of_nil in H]. }
  destruct (getBandValues_frame numZ demoToNumber (λ _, false) demoGetMinMax
              (worldAt 0) emptyRenderOptions [0] (demoImage 1) [0] 1 Hout ∅)
    as [H _].
  exact H.
Defined.

(** Sampling band 1 of the demo image. *)
Lemma getBandValues_sampling_witness :
  (getBandValues numZ demoToNumber (λ _, false) demoGetMinMax (worldAt 0)
     emptyRenderOptions [0] (demoImage 1) [0] ∅).1.1
  = Ok {[ 1 := {| band_min := 10; band_max := 10 |} ]}.
Proof.
  rewrite (getBandValues_sampling numZ demoToNumber (λ _, false) demoGetMinMax
             (worldAt 0) emptyRenderOptions (demoImage 1) (demoImage 3) [0] 0
             [10] [[20]; [30]] ∅ eq_refl eq_refl eq_refl (lookup_empty _)
             eq_refl eq_refl).
  reflexivity.
Defined.

(** A provider over the one level map [[0]]. *)
Lemma constructor_level_range_witness :
  ∃ p, (constructor (worldAt 0) (demoOptions 2 None ∅) tt).1.1 = Ok p
       ∧ maximumLevel p = Z.min 18 0 ∧ levelsCovered p.
Proof.
  eexists. split; [reflexivity|].
  edestruct (@constructor_level_range Z string numZ (worldAt 0)
               (demoOptions 2 None ∅)) as (Hmax & _ & Hcov & _); [reflexivity|].
  split; [exact Hmax | exact Hcov].
Defined.

(** The demo image has tiles of 512 pixels and the options give no size. *)
Lemma constructor_tile_size_witness :
  ∃ p, (constructor (worldAt 0) (demoOptions 2 None ∅) tt).1.1 = Ok p
       ∧ tileWidth p ≠ 0 ∧ tileHeight p ≠ 0.
Proof.
  eexists. split; [reflexivity|].
  edestruct (@constructor_tile_size Z string (worldAt 0)
               (demoOptions 2 None ∅)) as (Hw & Hh & _); [reflexivity|].
  split; [exact Hw | exact Hh].
Defined.

(** A three band image with render options whose [convertToRGB] key is
    there and [undefined]: the provider has no render mode. *)
Lemma constructor_render_mode_witness :
  ∃ p, (constructor (worldAt 0)
          (demoOptions 3 (Some undefinedFlagOptions) ∅) tt).1.1 = Ok p
       ∧ single (renderOptions p) = None ∧ multi (renderOptions p) = None
       ∧ truthyFlag (convertToRGB (renderOptions p)) = false.
Proof.
  eexists. split; [reflexivity|].
  edestruct (@constructor_render_mode Z string (worldAt 0)
               (demoOptions 3 (Some undefinedFlagOptions) ∅))
    as (_ & _ & _ & _ & Hnone & _); [reflexivity|].
  apply Hnone. by repeat split.
Defined.

(** A projection function that throws. *)
Lemma constructor_errors_witness :
  constructor (worldAt 0) brokenProjFuncOptions tt
  = (Throw (Error "no projection"), tt, [SetReady false]).
Proof.
  by apply (proj2 (@constructor_errors Z string (worldAt 0)
                     brokenProjFuncOptions (Error "no projection"))).
Defined.

(** The one read of tile (0, 0, 0) of the demo provider; and the same
    request when the decoder cannot deliver the image. *)
Lemma requestImage_reads_once_witness :
  length (List.filter isDecode
            (requestImage numZ (worldAt 0) 0 0 0 demoProvider).2) = 1%nat
  ∧ decodeCalls (requestImage numZ noImageWorld 0 0 0 demoProvider).2 = 0%nat.
Proof.
  assert (cacheMiss demoProvider (cacheKey 0 0 0)) as Hmiss.
  { right. exists ∅. split; reflexivity. }
  split.
  - destruct (@requestImage_reads_once Z string numZ (worldAt 0) demoProvider
                0 0 0 eq_refl ltac:(simpl; lia) Hmiss) as [Hread _].
    destruct (Hread (demoImage 3)) as [window Hone].
    { exists ∅. split; [reflexivity|]. right. split; reflexivity. }
    cbv zeta in Hone. by rewrite Hone.
  - destruct (@requestImage_reads_once Z string numZ noImageWorld demoProvider
                0 0 0 eq_refl ltac:(simpl; lia) Hmiss) as [_ Hnone].
    apply Hnone. intros image (images & Himages & [Hmem | [_ Hget]]).
    + injection Himages as <-. by rewrite lookup_empty in Hmem.
    + discriminate Hget.
Defined.

(** The demo provider destroyed while tile (0, 0, 0) is decoded. *)
Lemma requestImage_destroyed_while_loading_witness :
  let run := requestImage numZ destroyingWorld 0 0 0 demoProvider in
  run.1.1 = Ok None ∧ _destroyed run.1.2 = true ∧ decodeCalls run.2 = 1%nat.
Proof.
  intros run.
  destruct (@requestImage_destroyed_while_loading Z string numZ destroyingWorld
              demoProvider 0 0 0 (demoImage 3) [[10]; [20]; [30]])
    as (H1 & H2 & _ & _ & H3 & _).
  - reflexivity.
  - reflexivity.
  - simpl. lia.
  - right. exists ∅. split; reflexivity.
  - exists ∅. split; [reflexivity|]. right. split; reflexivity.
  - reflexivity.
  - split; [exact H1|]. split; [exact H2 | exact H3].
Defined.

(** A single band provider without a plot. *)
Lemma requestImage_nothing_to_render_witness :
  let run := requestImage numZ (demoWorld 1 0) 0 0 0 plotlessProvider in
  run.1.1 = Ok None ∧ decodeCalls run.2 = 1%nat
  ∧ _imagesCache run.1.2 = Some ∅.
Proof.
  intros run.
  destruct (@requestImage_nothing_to_render Z string numZ (demoWorld 1 0)
              plotlessProvider 0 0 0 (demoImage 1) [[10]; [20]; [30]])
    as (H1 & H2 & _ & _ & H3 & _).
  - reflexivity.
  - reflexivity.
  - simpl. lia.
  - right. exists ∅. split; reflexivity.
  - exists ∅. split; [reflexivity|]. right. split; reflexivity.
  - reflexivity.
  - reflexivity.
  - reflexivity.
  - by right.
  - split; [exact H1|]. split; [exact H3 | exact H2].
Defined.

(** Two requests for the same tile with a cache time of 0. *)
Lemma requestImage_cache_disabled_witness :
  let first := requestImage numZ (worldAt 0) 0 0 0 uncachedProvider in
  _imagesCache first.1.2 = Some ∅ ∧ decodeCalls first.2 = 1%nat.
Proof.
  intros first.
  destruct (@requestImage_cache_disabled Z string numZ (worldAt 0)
              uncachedProvider 0 0 0 eq_refl eq_refl ltac:(simpl; lia) eq_refl)
    as (H1 & _ & H2).
  split; [exact H1|]. apply (H2 (demoImage 3)).
  exists ∅. split; [reflexivity|]. right. split; reflexivity.
Defined.

(** The demo provider after [destroy]. *)
Lemma destroy_then_use_witness :
  ∃ msg,
    (requestImage numZ (worldAt 0) 0 0 0 (destroy demoProvider).1.2).1.1
    = Throw (TypeError msg).
Proof.
  destruct (@destroy_then_use Z string numZ demoDoubleOf demoProvider)
    as (_ & _ & _ & _ & _ & _ & Hrequest & _).
  destruct (Hrequest (worldAt 0) 0 0 0 eq_refl ltac:(simpl; lia))
    as (msg & H & _).
  by exists msg.
Defined.

(** A second load at zoom 0, by another decoder. *)
Lemma loadTile_memoises_witness :
  List.filter isGetImage
    (_loadTile failingDecodeWorld 0 0 0
       (_loadTile (worldAt 0) 0 0 0 demoProvider).1.2).2 = [].
Proof.
  pose (load := _loadTile (worldAt 0) 0 0 0 demoProvider).
  destruct (@loadTile_memoises Z string (worldAt 0) 0 0 0 demoProvider load.1.2
              {| tile_data := [[10]; [20]; [30]]; tile_width := 512;
                 tile_height := 512 |} load.2 eq_refl eq_refl) as [_ H].
  exact (H failingDecodeWorld 0 0).
Defined.

(** The right upper tile of a 1024 by 768 image at zoom 1. *)
Lemma pixelBounds_partition_witness :
  let '(x0, y0, x1, y1) := pixelBounds 1024 768 1 0 1 in
  0 ≤ x0 ≤ x1 ∧ x1 ≤ 1024 ∧ 0 ≤ y0 ≤ y1 ∧ y1 ≤ 768
  ∧ ((1 : Z) = 0 → x0 = 0) ∧ (1 = 2 ^ 1 - 1 → x1 = 1024)
  ∧ ((0 : Z) = 0 → y0 = 0) ∧ (0 = 2 ^ 1 - 1 → y1 = 768)
  ∧ (pixelBounds 1024 768 (1 + 1) 0 1).1.1.1 = x1
  ∧ (pixelBounds 1024 768 1 (0 + 1) 1).1.1.2 = y1.
Proof.
  apply (pixelBounds_partition 1024 768 1 0 1); change (2 ^ 1) with 2; lia.
Defined.


(** Band 2 of a one band source. *)
Lemma fromGeoTIFF_single_band_witness :
  ∃ p, (fromGeoTIFF numZ demoToNumber (λ _, false) (λ _, []) demoGetMinMax
          (demoWorld 1 0) (singleOptions 2 None) tt).1.1 = Ok p
       ∧ readSamples p = [0] ∧ plot p = None.
Proof.
  eexists. split; [reflexivity|].
  lazymatch goal with
  | |- readSamples ?p = _ ∧ _ =>
      destruct (@fromGeoTIFF_single_band Z string numZ demoToNumber
                  (λ _, false) (λ _, []) demoGetMinMax (demoWorld 1 0)
                  (singleOptions 2 None)
                  {| band := Some 2; colorScale := None; colors := None;
                     domain := None; expression := None |}
                  2 eq_refl eq_refl ltac:(lia) eq_refl eq_refl eq_refl)
        as [Hcreated _];
      destruct (Hcreated p eq_refl) as (Hread & _ & Hplot & _)
  end.
  split; [exact Hread | exact Hplot].
Defined.

(** A three band source without render options. *)
Lemma fromGeoTIFF_default_mode_witness :
  ∃ p, (fromGeoTIFF numZ demoToNumber (λ _, false) (λ _, []) demoGetMinMax
          (worldAt 0) emptyRenderOptions tt).1.1 = Ok p
       ∧ readSamples p = [0]
       ∧ (1 < getSamplesPerPixel (opt_image (options p)) →
          convertToRGB (renderOptions p) = Some true).
Proof.
  eexists. split; [reflexivity|].
  lazymatch goal with
  | |- readSamples ?p = _ ∧ _ =>
      destruct (@fromGeoTIFF_default_mode Z string numZ demoToNumber
                  (λ _, false) (λ _, []) demoGetMinMax (worldAt 0)
                  emptyRenderOptions p eq_refl eq_refl eq_refl eq_refl)
        as (Hread & _ & _ & _ & Hrgb & _)
  end.
  split; [exact Hread|]. intros Hn.
  destruct (Hrgb Hn) as (_ & Hdefault & _). apply Hdefault, not_elem_of_nil.
Defined.

(** The same provider asked for features. *)
Lemma fromGeoTIFF_defaults_witness :
  ∃ p, (fromGeoTIFF numZ demoToNumber (λ _, false) (λ _, []) demoGetMinMax
          (worldAt 0) emptyRenderOptions tt).1.1 = Ok p
       ∧ _cacheTime p = 60000
       ∧ pickFeatures demoDoubleOf (worldAt 0) 0 0 0 half half p
         = (Ok None, p, []).
Proof.
  eexists. split; [reflexivity|].
  lazymatch goal with
  | |- _cacheTime ?p = _ ∧ _ =>
      destruct (@fromGeoTIFF_defaults Z string numZ demoToNumber (λ _, false)
                  (λ _, []) demoGetMinMax demoDoubleOf (worldAt 0)
                  emptyRenderOptions p eq_refl)
        as (_ & Hcache & _ & _ & _ & _ & _ & _ & _ & Hpick)
  end.
  split; [exact Hcache | exact (Hpick (worldAt 0) 0 0 0 half half)].
Defined.

(** A URL that cannot be opened. *)
Lemma fromUrl_fromBlob_errors_witness :
  fromUrl numZ demoToNumber (λ _, false) (λ _, []) demoGetMinMax brokenUrl
    (worldAt 0) "tiles.tif" None tt
  = (Throw (Error "Error creating GeoTIFF from tiles.tif: 404"), tt,
     [ConsoleError (Error "404")]).
Proof.
  destruct (@fromUrl_fromBlob_errors Z string numZ demoToNumber (λ _, false)
              (λ _, []) demoGetMinMax unit brokenUrl (λ _, Ok demoSource)
              (worldAt 0) "tiles.tif" tt None) as (Hurl & _).
  exact (Hurl (Error "404") eq_refl).
Defined.

(** The second of three pools is the first with workers. *)
Lemma getWorkerPool_keeps_first_witness :
  foldl (λ workerPool newPool, (@getWorkerPool Z newPool workerPool).1.2)
    None demoPools
  = Some {| pool_id := 2; pool_workers := true |}.
Proof.
  destruct (@getWorkerPool_keeps_first Z demoPools) as [H _].
  exact H.
Defined.

(** Tile (0, 0, 0) of the demo provider is composed by the worker farm. *)
Lemma requestImage_rendering_witness :
  let run := requestImage numZ (worldAt 0) 0 0 0 demoProvider in
  run.1.1 = Ok (Some "tile")
  ∧ List.filter isRender run.2
    = [CallScheduleTask [[10]; [20]; [30]]
         {| composite_width := 512; composite_height := 512;
            composite_renderOptions := rgbChannels numZ;
            composite_bands := ∅; composite_noData := None;
            composite_resampleMethod := None |}].
Proof.
  intros run.
  destruct (@requestImage_rendering Z string numZ (worldAt 0) demoProvider 0 0 0
              (demoImage 3) [[10]; [20]; [30]]) as [Hrgb _].
  - reflexivity.
  - reflexivity.
  - reflexivity.
  - simpl. lia.
  - right. exists ∅. split; reflexivity.
  - exists ∅. split; [reflexivity|]. right. split; reflexivity.
  - reflexivity.
  - destruct (Hrgb (or_intror eq_refl)) as [_ Htask].
    exact (Htask eq_refl).
Defined.

(** The demo provider after [destroy]. *)
Lemma provider_settings_stable_witness :
  cogLevels (destroy demoProvider).1.2 = [0]
  ∧ getTileCredits (destroy demoProvider).1.2 0 0 0 = [""].
Proof.
  destruct (@provider_settings_stable Z string numZ demoDoubleOf (worldAt 0)
              demoProvider 0 0 0 half half (destroy demoProvider).1.2
              (or_intror (or_intror eq_refl)))
    as (_ & _ & _ & _ & Hlevels & _ & _ & _ & Hcredits).
  split; [exact Hlevels | exact (Hcredits 0 0 0)].
Defined.

(** An expression without a domain over a band without a range. *)
Lemma constructor_plot_witness :
  let run := constructor (worldAt 0)
               (demoOptions 1 (Some (expressionOptions "b1 * 2")) ∅) tt in
  ∃ p, run.1.1 = Ok p ∧ ready p = true ∧ plot p = None
       ∧ raisedEvents run.2
         = [TypeError "Cannot read properties of undefined (reading 'min')"].
Proof.
  intros run.
  destruct (@constructor_plot Z string (worldAt 0)
              (demoOptions 1 (Some (expressionOptions "b1 * 2")) ∅)
              {| band := None; colorScale := None; colors := None;
                 domain := None; expression := Some "b1 * 2" |}
              (fromDegrees 0 0 1 1)
              eq_refl eq_refl eq_refl ltac:(simpl; lia))
    as (p & Hok & Hready & Hnone & _).
  exists p. split; [exact Hok|]. split; [exact Hready|].
  exact (Hnone eq_refl eq_refl (lookup_empty _)).
Defined.

(** The trace of the constructor on a two band image. *)
Lemma constructor_calls_no_decoder_witness :
  Forall (λ ef, isDecoderCall ef = false)
    (constructor (worldAt 0) (demoOptions 2 None ∅) tt).2.
Proof.
  destruct (@constructor_calls_no_decoder Z string (worldAt 0)
              (demoOptions 2 None ∅)) as [H _].
  exact H.
Defined.


(** The demo provider over a world whose worker task fails. *)
Lemma requestImage_errors_witness :
  let run := requestImage numZ failingCompositeWorld 0 0 0 demoProvider in
  run.1.1 = Throw (Error "composite failed")
  ∧ ready run.1.2 = true ∧ intact run.1.2.
Proof.
  intros run. split; [reflexivity|].
  refine (proj2 (@requestImage_errors Z string numZ failingCompositeWorld
                   demoProvider 0 0 0 eq_refl _) eq_refl).
  split; by eexists.
Defined.

(** A point on the west edge of the demo rectangle, half way up. *)
Lemma pickPixel_edges_witness :
  pickPixel demoDoubleOf (rectangle demoProvider) (demoImage 3)
    (Double.ofZ 0) half = (0, 512).
Proof.
  pose proof (proj1 (@pickPixel_edges Z demoDoubleOf (rectangle demoProvider)
                       (demoImage 3) (Double.ofZ 0) half)
                (eq_sym (demoDoubleOf_IZR 0))) as Hcolumn.
  destruct (pickPixel _ _ _ _ _) as [posX posY] eqn:Hpixel.
  simpl in Hcolumn. subst posX. f_equal.
  apply (f_equal snd) in Hpixel. simpl in Hpixel. subst posY.
  unfold pickPixel. cbn [rectangle demoProvider west south east north snd].
  rewrite !demoDoubleOf_IZR. vm_compute. reflexivity.
Defined.
